(** * pm-service: scoring, dashboard aggregation and status rules

    A shallow embedding of the score computation of the performance
    management back end (services and repositories for the BSC and MPM
    scorecards, action-plan status, periods) together with the properties
    its specification states about it.

    Layout: the data model and the operations come first (decimal
    arithmetic, rows and tables, the repositories, the services), the
    theorems follow. *)

From Stdlib Require Import ZArith QArith Qpower Qfield List String Bool Lia
  Permutation.
Import ListNotations.
Open Scope Z_scope.

(* ================================================================== *)
(** ** Decimal arithmetic

    The services compute on [decimal.Decimal] values in the default
    context: precision 28, rounding ROUND_HALF_EVEN, exponent limits
    Emin = -999999 and Emax = 999999, and the traps InvalidOperation,
    DivisionByZero and Overflow.  A finite decimal is a sign, a
    non-negative integer coefficient and an exponent; every arithmetic
    result goes through the context's [_fix], which rounds the
    coefficient to [prec] significant digits, rounds a result below the
    exponent range onto the least exponent [Etiny], and signals Overflow
    for a result above it.

    [fix_ctx] is [_fix] with all of this, and [mul_ctx] and
    [truediv_ctx] are the operators as a service applies them to a value
    of a request, which is any finite decimal.  [fix_], [mul] and [add]
    are the same operators for results between the exponent limits,
    where only the rounding to [prec] digits is left of [_fix]
    ([DecFacts.fix_between_limits]): the repositories apply them to
    values read from NUMERIC columns, which hold at most 131072 digits
    before the point and 16383 after it, so that the sums and products
    formed of them stay between the limits. *)

Module Dec.

Record Decimal : Type := mk { dsign : bool; dint : Z; dexp : Z }.

Definition prec : Z := 28.

(** [len c] is [len(str(c))], the number of decimal digits of [c >= 0]. *)
Fixpoint len_aux (fuel : nat) (n : Z) : Z :=
  match fuel with
  | O => 1
  | S f => if n <? 10 then 1 else 1 + len_aux f (n / 10)
  end.

Definition len (n : Z) : Z := len_aux (Z.to_nat (Z.log2 n)) n.

(** [Decimal(n)] for an integer literal [n]. *)
Definition of_int (n : Z) : Decimal := mk (n <? 0) (Z.abs n) 0.

(** [Decimal('c E e')] for a non-negative literal written as a string. *)
Definition of_str (c e : Z) : Decimal := mk false c e.

(** [Decimal(0.2)]: the argument is the binary double nearest to 0.2,
    converted exactly; it is 0.2000000000000000111022302462515654... *)
Definition of_float_0_2 : Decimal :=
  mk false 200000000000000011102230246251565404236316680908203125 (-54).

(** The coefficient [c] without its [k] low digits, rounded half-even
    ([_round_half_even] followed by the increment in [_fix]). *)
Definition round_half_even (c k : Z) : Z :=
  let q := c / 10 ^ k in
  let r := c mod 10 ^ k in
  let half := 5 * 10 ^ (k - 1) in
  if (half <? r) || ((r =? half) && Z.odd q) then q + 1 else q.

(** [Decimal._fix] in the default context. *)
Definition fix_ (d : Decimal) : Decimal :=
  if dint d =? 0 then d
  else
    let exp_min := len (dint d) + dexp d - prec in
    if dexp d <? exp_min then
      let coeff := round_half_even (dint d) (exp_min - dexp d) in
      if prec <? len coeff
      then mk (dsign d) (coeff / 10) (exp_min + 1)
      else mk (dsign d) coeff exp_min
    else d.

(** The exact product of [__mul__], before [_fix]. *)
Definition product (a b : Decimal) : Decimal :=
  mk (xorb (dsign a) (dsign b)) (dint a * dint b) (dexp a + dexp b).

(** [Decimal.__mul__], between the exponent limits. *)
Definition mul (a b : Decimal) : Decimal := fix_ (product a b).

(** The loop of [__truediv__] that brings an exact quotient as close to
    the ideal exponent as its trailing zeros allow. *)
Fixpoint strip (fuel : nat) (coeff exp ideal_exp : Z) : Z * Z :=
  match fuel with
  | O => (coeff, exp)
  | S f =>
      if (exp <? ideal_exp) && (coeff mod 10 =? 0)
      then strip f (coeff / 10) (exp + 1) ideal_exp
      else (coeff, exp)
  end.

(** The quotient of [__truediv__] by a divisor that is not zero, before
    [_fix]. *)
Definition quotient (a b : Decimal) : Decimal :=
  let sign := xorb (dsign a) (dsign b) in
  if dint a =? 0 then mk sign 0 (dexp a - dexp b)
  else
    let shift := len (dint b) - len (dint a) + prec + 1 in
    let exp := dexp a - dexp b - shift in
    let num := if 0 <=? shift then dint a * 10 ^ shift else dint a in
    let den := if 0 <=? shift then dint b else dint b * 10 ^ (- shift) in
    let coeff := num / den in
    let remainder := num mod den in
    let '(coeff, exp) :=
      if remainder =? 0
      then strip (Z.to_nat (dexp a - dexp b - exp)) coeff exp (dexp a - dexp b)
      else (if coeff mod 5 =? 0 then coeff + 1 else coeff, exp) in
    mk sign coeff exp.

(** [_normalize]: both operands on one exponent before an addition; an
    operand too small to matter is replaced by a sticky digit. *)
Definition normalize (op1 op2 : Decimal) : Decimal * Decimal :=
  let swap := dexp op1 <? dexp op2 in
  let tmp := if swap then op2 else op1 in
  let other := if swap then op1 else op2 in
  let exp := dexp tmp + Z.min (-1) (len (dint tmp) - prec - 2) in
  let other' :=
    if len (dint other) + dexp other - 1 <? exp
    then mk (dsign other) 1 exp else other in
  let tmp' :=
    mk (dsign tmp) (dint tmp * 10 ^ (dexp tmp - dexp other')) (dexp other') in
  if swap then (other', tmp') else (tmp', other').

(** [_rescale] to an exponent not above the operand's: zero padding. *)
Definition rescale (d : Decimal) (exp : Z) : Decimal :=
  mk (dsign d) (dint d * 10 ^ (dexp d - exp)) exp.

(** [Decimal.__add__]. *)
Definition add (a b : Decimal) : Decimal :=
  let exp := Z.min (dexp a) (dexp b) in
  if (dint a =? 0) && (dint b =? 0) then
    fix_ (mk (dsign a && dsign b) 0 exp)
  else if dint a =? 0 then
    fix_ (rescale b (Z.max exp (dexp b - prec - 1)))
  else if dint b =? 0 then
    fix_ (rescale a (Z.max exp (dexp a - prec - 1)))
  else
    let '(op1, op2) := normalize a b in
    if Bool.eqb (dsign op1) (dsign op2) then
      fix_ (mk (dsign op1) (dint op1 + dint op2) (dexp op1))
    else if dint op1 =? dint op2 then
      fix_ (mk false 0 exp)
    else
      let '(op1, op2) :=
        if dint op1 <? dint op2 then (op2, op1) else (op1, op2) in
      fix_ (mk (dsign op1) (dint op1 - dint op2) (dexp op1)).

(** The signed coefficient. *)
Definition sint (d : Decimal) : Z := if dsign d then - dint d else dint d.

(** Comparison of two finite decimals ([Decimal._cmp]): exact, on the
    common exponent. *)
Definition cmp (a b : Decimal) : comparison :=
  let e := Z.min (dexp a) (dexp b) in
  Z.compare (sint a * 10 ^ (dexp a - e)) (sint b * 10 ^ (dexp b - e)).

(** [a >= b]. *)
Definition ge (a b : Decimal) : bool :=
  match cmp a b with Lt => false | _ => true end.

(** The rational number a decimal denotes. *)
Definition value (d : Decimal) : Q :=
  (inject_Z (sint d) * Qpower (inject_Z 10) (dexp d))%Q.

(** The sum [Decimal(0) + x1 + ... + xn] as the [+=] loops build it. *)
Definition sum (l : list Decimal) : Decimal := fold_left add l (of_int 0).

(** *** The exponent limits and the traps of the context *)

Definition Emax : Z := 999999.
Definition Emin : Z := -999999.

(** [context.Etiny()] and [context.Etop()] *)
Definition Etiny : Z := Emin - prec + 1.
Definition Etop : Z := Emax - prec + 1.

(** The signals the default context traps: each is raised as the
    exception of its name. *)
Inductive signal : Type := Overflow | DivisionByZero | InvalidOperation.

(** What an operation gives: a finite decimal, or a trapped signal. *)
Inductive outcome : Type :=
| Finite (d : Decimal)
| Trap (sg : signal).

(** [Decimal._fix] in the default context (its [clamp] is 0).  A zero
    keeps its exponent within [Etiny, Emax]; a result whose adjusted
    exponent is above [Emax], before or after rounding, signals
    Overflow; a result whose least exponent would be below [Etiny] is
    rounded onto [Etiny] (and may round to zero). *)
Definition fix_ctx (d : Decimal) : outcome :=
  if dint d =? 0 then
    Finite (mk (dsign d) 0 (Z.min (Z.max (dexp d) Etiny) Emax))
  else
    let exp_min := len (dint d) + dexp d - prec in
    if Etop <? exp_min then Trap Overflow
    else
      let exp_min := Z.max exp_min Etiny in
      if dexp d <? exp_min then
        let coeff := round_half_even (dint d) (exp_min - dexp d) in
        let '(coeff, exp_min) :=
          if prec <? len coeff then (coeff / 10, exp_min + 1)
          else (coeff, exp_min) in
        if Etop <? exp_min then Trap Overflow
        else Finite (mk (dsign d) coeff exp_min)
      else Finite d.

(** [Decimal.__mul__]. *)
Definition mul_ctx (a b : Decimal) : outcome := fix_ctx (product a b).

(** [Decimal.__truediv__]: [0 / 0] signals DivisionUndefined, an
    InvalidOperation, and [x / 0] DivisionByZero. *)
Definition truediv_ctx (a b : Decimal) : outcome :=
  if dint b =? 0 then
    Trap (if dint a =? 0 then InvalidOperation else DivisionByZero)
  else fix_ctx (quotient a b).

End Dec.

(* ================================================================== *)
(** ** Values, payload fields and exceptions *)

Definition UUID : Type := Z.
Definition datetime : Type := Z.

(** A field of a Pydantic payload, or an entry of the dictionary made of
    it with [.dict(exclude_unset=True)]: absent, explicitly [None], or a
    value. *)
Inductive field (A : Type) : Type :=
| Unset
| Null
| Value (a : A).
Arguments Unset {A}.
Arguments Null {A}.
Arguments Value {A} a.

(** ["key" in update_data] *)
Definition is_set {A} (f : field A) : bool :=
  match f with Unset => false | _ => true end.

(** [update_data.get("key", default)]; [None] is Python's [None]. *)
Definition dict_get_default {A} (f : field A) (default : A) : option A :=
  match f with
  | Unset => Some default
  | Null => None
  | Value a => Some a
  end.

(** The attribute [payload.key] of a payload whose fields default to
    [None]. *)
Definition attr {A} (f : field A) : option A :=
  match f with Value a => Some a | _ => None end.

(** Column values at INSERT and UPDATE: a NOT NULL column refuses [None]
    (the commit fails), a nullable one stores it. *)
Definition insert_not_null {A} (f : field A) (default : option A) : option A :=
  match f with Value a => Some a | Null => None | Unset => default end.

Definition insert_nullable {A} (f : field A) : option A := attr f.

Definition set_not_null {A} (f : field A) (old : A) : option A :=
  dict_get_default f old.

Definition set_nullable {A} (f : field A) (old : option A) : option A :=
  match f with Value a => Some a | Null => None | Unset => old end.

(** The exceptions the modelled code raises. *)
Inductive exn : Type :=
| HTTPException (status_code : Z)
| AttributeError
| TypeError
| ValueError
| DecimalException (sg : Dec.signal)
| IntegrityError.

Definition HTTP_400_BAD_REQUEST : Z := 400.
Definition HTTP_404_NOT_FOUND : Z := 404.

Inductive result (A : Type) : Type :=
| Ok (a : A)
| Raise (e : exn).
Arguments Ok {A} a.
Arguments Raise {A} e.

(** *** Enumerations *)

Inductive PeriodStatus : Type := DRAFT | ACTIVE | CLOSED.

Inductive BSCPerspective : Type :=
| BSC_FINANCIAL
| BSC_CUSTOMER
| BSC_INTERNAL_BUSINESS_PROCESS
| BSC_LEARNING_GROWTH.

Inductive MPMPerspective : Type :=
| FINANCIAL
| CUSTOMER
| INTERNAL_BUSINESS_PROCESS
| LEARNING_GROWTH.

Inductive MPMStatus : Type := ON_TRACK | AT_RISK | OFF_TRACK.

Definition PeriodStatus_eqb (a b : PeriodStatus) : bool :=
  match a, b with
  | DRAFT, DRAFT | ACTIVE, ACTIVE | CLOSED, CLOSED => true
  | _, _ => false
  end.

Definition BSCPerspective_eqb (a b : BSCPerspective) : bool :=
  match a, b with
  | BSC_FINANCIAL, BSC_FINANCIAL
  | BSC_CUSTOMER, BSC_CUSTOMER
  | BSC_INTERNAL_BUSINESS_PROCESS, BSC_INTERNAL_BUSINESS_PROCESS
  | BSC_LEARNING_GROWTH, BSC_LEARNING_GROWTH => true
  | _, _ => false
  end.

Definition MPMPerspective_eqb (a b : MPMPerspective) : bool :=
  match a, b with
  | FINANCIAL, FINANCIAL
  | CUSTOMER, CUSTOMER
  | INTERNAL_BUSINESS_PROCESS, INTERNAL_BUSINESS_PROCESS
  | LEARNING_GROWTH, LEARNING_GROWTH => true
  | _, _ => false
  end.

(** The key of an MPM dashboard bucket: [indicator.perspective or "Other"]. *)
Inductive MPMBucketKey : Type :=
| Perspective (p : MPMPerspective)
| Other.

Definition MPMBucketKey_eqb (a b : MPMBucketKey) : bool :=
  match a, b with
  | Perspective p, Perspective q => MPMPerspective_eqb p q
  | Other, Other => true
  | _, _ => false
  end.

(* ================================================================== *)
(** ** Models

    One module per SQLModel table class, with the row type [t] and, for
    the tables written through the repositories, the type [dict] of the
    dictionaries handed to [create] and [update].  Columns that are
    stored and returned as they come (definitions, units, categories,
    remarks, the target of an indicator) and the
    [created_by]/[updated_by] audit columns play no part in what follows
    and are left out: their values are taken to be ones the columns
    hold, and a service is taken as called for a user the database
    knows, or for none, the default of both parameters. *)

Module Period.
Record t : Type := mk {
  id : UUID;
  year : Z;
  period : string;
  status : PeriodStatus;
  created_at : datetime;
  updated_at : option datetime;
  is_deleted : bool }.
End Period.

Module BSCIndicator.
Record t : Type := mk {
  id : UUID;
  code : string;
  kpi : string;
  perspective : BSCPerspective;
  weight : Dec.Decimal;
  is_active : bool;
  period_id : UUID;
  created_at : datetime;
  updated_at : option datetime;
  is_deleted : bool }.
Record dict : Type := mkdict {
  d_code : field string;
  d_kpi : field string;
  d_perspective : field BSCPerspective;
  d_weight : field Dec.Decimal;
  d_is_active : field bool;
  d_period_id : field UUID }.
End BSCIndicator.

Module BSCActual.
Record t : Type := mk {
  id : UUID;
  actual_value : string;
  achievement : Dec.Decimal;
  score : Dec.Decimal;
  active_weight : Dec.Decimal;
  total_score : Dec.Decimal;
  score_akhir : Dec.Decimal;
  indicator_id : UUID;
  created_at : datetime;
  updated_at : option datetime;
  is_deleted : bool }.
Record dict : Type := mkdict {
  d_actual_value : field string;
  d_achievement : field Dec.Decimal;
  d_score : field Dec.Decimal;
  d_active_weight : field Dec.Decimal;
  d_total_score : field Dec.Decimal;
  d_score_akhir : field Dec.Decimal;
  d_indicator_id : field UUID }.
End BSCActual.

Module MPMIndicator.
Record t : Type := mk {
  id : UUID;
  kpi : string;
  weight : Dec.Decimal;
  kpi_number : option Z;
  perspective : option MPMPerspective;
  is_active : bool;
  period_id : UUID;
  created_at : datetime;
  updated_at : option datetime;
  is_deleted : bool }.
Record dict : Type := mkdict {
  d_kpi : field string;
  d_weight : field Dec.Decimal;
  d_kpi_number : field Z;
  d_perspective : field MPMPerspective;
  d_is_active : field bool;
  d_period_id : field UUID }.
End MPMIndicator.

Module MPMMonthlyTarget.
Record t : Type := mk {
  id : UUID;
  month : string;
  target_value : Dec.Decimal;
  indicator_id : UUID;
  created_at : datetime;
  updated_at : option datetime;
  is_deleted : bool }.
End MPMMonthlyTarget.

Module MPMActionPlan.
Record t : Type := mk {
  id : UUID;
  description : string;
  status : MPMStatus;
  indicator_id : UUID;
  created_at : datetime;
  updated_at : option datetime;
  is_deleted : bool }.
Record dict : Type := mkdict {
  d_description : field string;
  d_status : field MPMStatus;
  d_indicator_id : field UUID }.
End MPMActionPlan.

Module MPMQuarterlyData.
Record t : Type := mk {
  id : UUID;
  quarter : string;
  target_value : Dec.Decimal;
  actual_value : option Dec.Decimal;
  action_plan_id : UUID;
  created_at : datetime;
  updated_at : option datetime;
  is_deleted : bool }.
Record dict : Type := mkdict {
  d_quarter : field string;
  d_target_value : field Dec.Decimal;
  d_actual_value : field Dec.Decimal;
  d_action_plan_id : field UUID }.
End MPMQuarterlyData.

Module MPMActual.
Record t : Type := mk {
  id : UUID;
  actual_value : Dec.Decimal;
  achievement : Dec.Decimal;
  score : Dec.Decimal;
  indicator_id : UUID;
  created_at : datetime;
  updated_at : option datetime;
  is_deleted : bool }.
Record dict : Type := mkdict {
  d_actual_value : field Dec.Decimal;
  d_achievement : field Dec.Decimal;
  d_score : field Dec.Decimal;
  d_indicator_id : field UUID }.
End MPMActual.

(** ** The database session

    One list of rows per table, in storage order (a row keeps its place
    when it is updated, a new row goes last), and the two sources the
    models draw their defaults from. *)

Record Session : Type := mkSession {
  period : list Period.t;
  bsc_indicator : list BSCIndicator.t;
  bsc_actual : list BSCActual.t;
  mpm_indicator : list MPMIndicator.t;
  mpm_monthly_target : list MPMMonthlyTarget.t;
  mpm_action_plan : list MPMActionPlan.t;
  mpm_quarterly_data : list MPMQuarterlyData.t;
  mpm_actual : list MPMActual.t;
  uuid4 : UUID;
  utcnow : datetime }.

(** The code runs in the monad of a session that a Python exception can
    leave at any point: what was committed before stays committed. *)
Definition M (A : Type) : Type := Session -> Session * result A.

Definition ret {A} (a : A) : M A := fun s => (s, Ok a).

Definition raise {A} (e : exn) : M A := fun s => (s, Raise e).

Definition bind {A B} (m : M A) (k : A -> M B) : M B :=
  fun s =>
    match m s with
    | (s', Ok a) => k a s'
    | (s', Raise e) => (s', Raise e)
    end.

Notation "x <- m ;; k" := (bind m (fun x => k))
  (at level 61, m at next level, right associativity).
Notation "m ;;; k" := (bind m (fun _ => k))
  (at level 61, right associativity).

Definition obind {A B} (o : option A) (k : A -> option B) : option B :=
  match o with Some a => k a | None => None end.

Notation "'let?' x ':=' e 'in' k" := (obind e (fun x => k))
  (at level 10, x name, e at level 100, k at level 200).

(** *** Construction of a row and assignment of a dictionary to a row

    [new d i now] is the model class called on the entries of [d] as
    keyword arguments, followed by the INSERT at commit, with
    the defaults of the class ([uuid4()] for [id], [utcnow()] for
    [created_at]); [setattrs o d] is the [setattr] loop of [update]
    followed by the UPDATE at commit.  Both are [None] when a NOT NULL
    column would receive [None]. *)

Module BSCIndicatorOps.
Import BSCIndicator.
Definition new (d : dict) (i : UUID) (now : datetime) : option t :=
  let? c := insert_not_null (d_code d) None in
  let? k := insert_not_null (d_kpi d) None in
  let? p := insert_not_null (d_perspective d) None in
  let? w := insert_not_null (d_weight d) (Some (Dec.of_str 0 (-1))) in
  let? a := insert_not_null (d_is_active d) (Some true) in
  let? pid := insert_not_null (d_period_id d) None in
  Some (mk i c k p w a pid now None false).
Definition setattrs (o : t) (d : dict) : option t :=
  let? c := set_not_null (d_code d) (code o) in
  let? k := set_not_null (d_kpi d) (kpi o) in
  let? p := set_not_null (d_perspective d) (perspective o) in
  let? w := set_not_null (d_weight d) (weight o) in
  let? a := set_not_null (d_is_active d) (is_active o) in
  let? pid := set_not_null (d_period_id d) (period_id o) in
  Some (mk (id o) c k p w a pid (created_at o) (updated_at o) (is_deleted o)).
Definition set_updated_at (o : t) (now : datetime) : t :=
  mk (id o) (code o) (kpi o) (perspective o) (weight o) (is_active o)
     (period_id o) (created_at o) (Some now) (is_deleted o).
End BSCIndicatorOps.

Module BSCActualOps.
Import BSCActual.
Definition new (d : dict) (i : UUID) (now : datetime) : option t :=
  let? v := insert_not_null (d_actual_value d) None in
  let? a := insert_not_null (d_achievement d) None in
  let? s := insert_not_null (d_score d) None in
  let? aw := insert_not_null (d_active_weight d) None in
  let? ts := insert_not_null (d_total_score d) None in
  let? sa := insert_not_null (d_score_akhir d) None in
  let? iid := insert_not_null (d_indicator_id d) None in
  Some (mk i v a s aw ts sa iid now None false).
Definition setattrs (o : t) (d : dict) : option t :=
  let? v := set_not_null (d_actual_value d) (actual_value o) in
  let? a := set_not_null (d_achievement d) (achievement o) in
  let? s := set_not_null (d_score d) (score o) in
  let? aw := set_not_null (d_active_weight d) (active_weight o) in
  let? ts := set_not_null (d_total_score d) (total_score o) in
  let? sa := set_not_null (d_score_akhir d) (score_akhir o) in
  let? iid := set_not_null (d_indicator_id d) (indicator_id o) in
  Some (mk (id o) v a s aw ts sa iid (created_at o) (updated_at o)
           (is_deleted o)).
Definition set_updated_at (o : t) (now : datetime) : t :=
  mk (id o) (actual_value o) (achievement o) (score o) (active_weight o)
     (total_score o) (score_akhir o) (indicator_id o) (created_at o)
     (Some now) (is_deleted o).
End BSCActualOps.

Module MPMIndicatorOps.
Import MPMIndicator.
Definition new (d : dict) (i : UUID) (now : datetime) : option t :=
  let? k := insert_not_null (d_kpi d) None in
  let? w := insert_not_null (d_weight d) (Some (Dec.of_str 0 (-1))) in
  let? a := insert_not_null (d_is_active d) (Some true) in
  let? pid := insert_not_null (d_period_id d) None in
  Some (mk i k w (insert_nullable (d_kpi_number d))
           (insert_nullable (d_perspective d)) a pid now None false).
Definition setattrs (o : t) (d : dict) : option t :=
  let? k := set_not_null (d_kpi d) (kpi o) in
  let? w := set_not_null (d_weight d) (weight o) in
  let? a := set_not_null (d_is_active d) (is_active o) in
  let? pid := set_not_null (d_period_id d) (period_id o) in
  Some (mk (id o) k w (set_nullable (d_kpi_number d) (kpi_number o))
           (set_nullable (d_perspective d) (perspective o)) a pid
           (created_at o) (updated_at o) (is_deleted o)).
Definition set_updated_at (o : t) (now : datetime) : t :=
  mk (id o) (kpi o) (weight o) (kpi_number o) (perspective o) (is_active o)
     (period_id o) (created_at o) (Some now) (is_deleted o).
End MPMIndicatorOps.

Module MPMActionPlanOps.
Import MPMActionPlan.
Definition new (d : dict) (i : UUID) (now : datetime) : option t :=
  let? de := insert_not_null (d_description d) None in
  let? st := insert_not_null (d_status d) (Some ON_TRACK) in
  let? iid := insert_not_null (d_indicator_id d) None in
  Some (mk i de st iid now None false).
Definition setattrs (o : t) (d : dict) : option t :=
  let? de := set_not_null (d_description d) (description o) in
  let? st := set_not_null (d_status d) (status o) in
  let? iid := set_not_null (d_indicator_id d) (indicator_id o) in
  Some (mk (id o) de st iid (created_at o) (updated_at o) (is_deleted o)).
Definition set_updated_at (o : t) (now : datetime) : t :=
  mk (id o) (description o) (status o) (indicator_id o) (created_at o)
     (Some now) (is_deleted o).
End MPMActionPlanOps.

Module MPMQuarterlyDataOps.
Import MPMQuarterlyData.
Definition new (d : dict) (i : UUID) (now : datetime) : option t :=
  let? q := insert_not_null (d_quarter d) None in
  let? tv := insert_not_null (d_target_value d) None in
  let? pid := insert_not_null (d_action_plan_id d) None in
  Some (mk i q tv (insert_nullable (d_actual_value d)) pid now None false).
Definition setattrs (o : t) (d : dict) : option t :=
  let? q := set_not_null (d_quarter d) (quarter o) in
  let? tv := set_not_null (d_target_value d) (target_value o) in
  let? pid := set_not_null (d_action_plan_id d) (action_plan_id o) in
  Some (mk (id o) q tv (set_nullable (d_actual_value d) (actual_value o)) pid
           (created_at o) (updated_at o) (is_deleted o)).
Definition set_updated_at (o : t) (now : datetime) : t :=
  mk (id o) (quarter o) (target_value o) (actual_value o) (action_plan_id o)
     (created_at o) (Some now) (is_deleted o).
End MPMQuarterlyDataOps.

Module MPMActualOps.
Import MPMActual.
Definition new (d : dict) (i : UUID) (now : datetime) : option t :=
  let? v := insert_not_null (d_actual_value d) None in
  let? a := insert_not_null (d_achievement d) None in
  let? s := insert_not_null (d_score d) None in
  let? iid := insert_not_null (d_indicator_id d) None in
  Some (mk i v a s iid now None false).
Definition setattrs (o : t) (d : dict) : option t :=
  let? v := set_not_null (d_actual_value d) (actual_value o) in
  let? a := set_not_null (d_achievement d) (achievement o) in
  let? s := set_not_null (d_score d) (score o) in
  let? iid := set_not_null (d_indicator_id d) (indicator_id o) in
  Some (mk (id o) v a s iid (created_at o) (updated_at o) (is_deleted o)).
Definition set_updated_at (o : t) (now : datetime) : t :=
  mk (id o) (actual_value o) (achievement o) (score o) (indicator_id o)
     (created_at o) (Some now) (is_deleted o).
End MPMActualOps.

(* ================================================================== *)
(** ** BaseRepository

    The generic repository is written once over a class of models: what
    a table class gives the repository is its [id] and [is_deleted]
    columns and its table in the session. *)

Class Model (T : Type) : Type := {
  row_id : T -> UUID;
  row_is_deleted : T -> bool;
  table : Session -> list T;
  set_table : list T -> Session -> Session }.

Class Mapped (T D : Type) : Type := {
  new : D -> UUID -> datetime -> option T;
  setattrs : T -> D -> option T;
  set_updated_at : T -> datetime -> T }.

#[export] Instance Period_Model : Model Period.t := {|
  row_id := Period.id;
  row_is_deleted := Period.is_deleted;
  table := period;
  set_table l s :=
    mkSession l (bsc_indicator s) (bsc_actual s) (mpm_indicator s)
      (mpm_monthly_target s) (mpm_action_plan s) (mpm_quarterly_data s)
      (mpm_actual s) (uuid4 s) (utcnow s) |}.

#[export] Instance BSCIndicator_Model : Model BSCIndicator.t := {|
  row_id := BSCIndicator.id;
  row_is_deleted := BSCIndicator.is_deleted;
  table := bsc_indicator;
  set_table l s :=
    mkSession (period s) l (bsc_actual s) (mpm_indicator s)
      (mpm_monthly_target s) (mpm_action_plan s) (mpm_quarterly_data s)
      (mpm_actual s) (uuid4 s) (utcnow s) |}.

#[export] Instance BSCActual_Model : Model BSCActual.t := {|
  row_id := BSCActual.id;
  row_is_deleted := BSCActual.is_deleted;
  table := bsc_actual;
  set_table l s :=
    mkSession (period s) (bsc_indicator s) l (mpm_indicator s)
      (mpm_monthly_target s) (mpm_action_plan s) (mpm_quarterly_data s)
      (mpm_actual s) (uuid4 s) (utcnow s) |}.

#[export] Instance MPMIndicator_Model : Model MPMIndicator.t := {|
  row_id := MPMIndicator.id;
  row_is_deleted := MPMIndicator.is_deleted;
  table := mpm_indicator;
  set_table l s :=
    mkSession (period s) (bsc_indicator s) (bsc_actual s) l
      (mpm_monthly_target s) (mpm_action_plan s) (mpm_quarterly_data s)
      (mpm_actual s) (uuid4 s) (utcnow s) |}.

#[export] Instance MPMMonthlyTarget_Model : Model MPMMonthlyTarget.t := {|
  row_id := MPMMonthlyTarget.id;
  row_is_deleted := MPMMonthlyTarget.is_deleted;
  table := mpm_monthly_target;
  set_table l s :=
    mkSession (period s) (bsc_indicator s) (bsc_actual s) (mpm_indicator s)
      l (mpm_action_plan s) (mpm_quarterly_data s)
      (mpm_actual s) (uuid4 s) (utcnow s) |}.

#[export] Instance MPMActionPlan_Model : Model MPMActionPlan.t := {|
  row_id := MPMActionPlan.id;
  row_is_deleted := MPMActionPlan.is_deleted;
  table := mpm_action_plan;
  set_table l s :=
    mkSession (period s) (bsc_indicator s) (bsc_actual s) (mpm_indicator s)
      (mpm_monthly_target s) l (mpm_quarterly_data s)
      (mpm_actual s) (uuid4 s) (utcnow s) |}.

#[export] Instance MPMQuarterlyData_Model : Model MPMQuarterlyData.t := {|
  row_id := MPMQuarterlyData.id;
  row_is_deleted := MPMQuarterlyData.is_deleted;
  table := mpm_quarterly_data;
  set_table l s :=
    mkSession (period s) (bsc_indicator s) (bsc_actual s) (mpm_indicator s)
      (mpm_monthly_target s) (mpm_action_plan s) l
      (mpm_actual s) (uuid4 s) (utcnow s) |}.

#[export] Instance MPMActual_Model : Model MPMActual.t := {|
  row_id := MPMActual.id;
  row_is_deleted := MPMActual.is_deleted;
  table := mpm_actual;
  set_table l s :=
    mkSession (period s) (bsc_indicator s) (bsc_actual s) (mpm_indicator s)
      (mpm_monthly_target s) (mpm_action_plan s) (mpm_quarterly_data s)
      l (uuid4 s) (utcnow s) |}.

#[export] Instance BSCIndicator_Mapped
  : Mapped BSCIndicator.t BSCIndicator.dict := {|
  new := BSCIndicatorOps.new;
  setattrs := BSCIndicatorOps.setattrs;
  set_updated_at := BSCIndicatorOps.set_updated_at |}.

#[export] Instance BSCActual_Mapped : Mapped BSCActual.t BSCActual.dict := {|
  new := BSCActualOps.new;
  setattrs := BSCActualOps.setattrs;
  set_updated_at := BSCActualOps.set_updated_at |}.

#[export] Instance MPMIndicator_Mapped
  : Mapped MPMIndicator.t MPMIndicator.dict := {|
  new := MPMIndicatorOps.new;
  setattrs := MPMIndicatorOps.setattrs;
  set_updated_at := MPMIndicatorOps.set_updated_at |}.

#[export] Instance MPMActionPlan_Mapped
  : Mapped MPMActionPlan.t MPMActionPlan.dict := {|
  new := MPMActionPlanOps.new;
  setattrs := MPMActionPlanOps.setattrs;
  set_updated_at := MPMActionPlanOps.set_updated_at |}.

#[export] Instance MPMQuarterlyData_Mapped
  : Mapped MPMQuarterlyData.t MPMQuarterlyData.dict := {|
  new := MPMQuarterlyDataOps.new;
  setattrs := MPMQuarterlyDataOps.setattrs;
  set_updated_at := MPMQuarterlyDataOps.set_updated_at |}.

#[export] Instance MPMActual_Mapped : Mapped MPMActual.t MPMActual.dict := {|
  new := MPMActualOps.new;
  setattrs := MPMActualOps.setattrs;
  set_updated_at := MPMActualOps.set_updated_at |}.

(** The defaults drawn by a commit: the next identifier and the next
    reading of the clock. *)
Definition advance (s : Session) : Session :=
  mkSession (period s) (bsc_indicator s) (bsc_actual s) (mpm_indicator s)
    (mpm_monthly_target s) (mpm_action_plan s) (mpm_quarterly_data s)
    (mpm_actual s) (uuid4 s + 1) (utcnow s + 1).

(** [results.first()] of a statement: the first row of the result. *)
Definition first {A} (rows : list A) : option A := hd_error rows.

(** [ORDER BY key DESC], by a stable insertion sort: among rows of equal
    key the earlier stored one stays first. *)
Section OrderBy.
Context {A K : Type} (key : A -> K) (leb : K -> K -> bool).

Fixpoint insert_desc (x : A) (l : list A) : list A :=
  match l with
  | [] => [x]
  | y :: l' => if leb (key y) (key x) then x :: l else y :: insert_desc x l'
  end.

Definition order_by_desc (l : list A) : list A :=
  fold_right insert_desc [] l.

(** [ORDER BY key] ascending, likewise stable. *)
Fixpoint insert_asc (x : A) (l : list A) : list A :=
  match l with
  | [] => [x]
  | y :: l' => if leb (key x) (key y) then x :: l else y :: insert_asc x l'
  end.

Definition order_by (l : list A) : list A := fold_right insert_asc [] l.

End OrderBy.

Section BaseRepository.
Context {T : Type} `{Model T}.

(** The row of the live object [o] in the table, at commit. *)
Definition merge (o : T) (rows : list T) : list T :=
  map (fun r => if row_id r =? row_id o then o else r) rows.

Definition get (id : UUID) : M (option T) :=
  fun s =>
    (s, Ok (first (filter (fun r => (row_id r =? id) && negb (row_is_deleted r))
                         (table s)))).

Definition get_or_404 (id : UUID) : M T :=
  db_obj <- get id ;;
  match db_obj with
  | None => raise (HTTPException HTTP_404_NOT_FOUND)
  | Some db_obj => ret db_obj
  end.

Context {D : Type} `{Mapped T D}.

Definition create (obj_in : D) : M T :=
  fun s =>
    match new obj_in (uuid4 s) (utcnow s) with
    | None => (s, Raise IntegrityError)
    | Some db_obj => (advance (set_table (table s ++ [db_obj]) s), Ok db_obj)
    end.

Definition update (db_obj : T) (obj_in : D) : M T :=
  fun s =>
    match setattrs db_obj obj_in with
    | None => (s, Raise IntegrityError)
    | Some db_obj =>
        let db_obj := set_updated_at db_obj (utcnow s) in
        (advance (set_table (merge db_obj (table s)) s), Ok db_obj)
    end.

End BaseRepository.

(** *** Python dictionaries

    A [dict] keeps its keys in insertion order; assigning to a key that
    is present keeps the key's place. *)
Section PyDict.
Context {K V : Type} (eqb : K -> K -> bool).

Fixpoint dict_getitem (d : list (K * V)) (k : K) : option V :=
  match d with
  | [] => None
  | (k', v) :: d' => if eqb k' k then Some v else dict_getitem d' k
  end.

Definition dict_contains (d : list (K * V)) (k : K) : bool :=
  match dict_getitem d k with Some _ => true | None => false end.

Fixpoint dict_setitem (d : list (K * V)) (k : K) (v : V) : list (K * V) :=
  match d with
  | [] => [(k, v)]
  | (k', v') :: d' =>
      if eqb k' k then (k', v) :: d' else (k', v') :: dict_setitem d' k v
  end.

(** An in-place change of the value stored under [k], as in
    [d[k]["items"].append(x)] or [d[k]["total"] += x]. *)
Definition dict_modify (d : list (K * V)) (k : K) (f : V -> V)
  : list (K * V) :=
  match dict_getitem d k with
  | Some v => dict_setitem d k (f v)
  | None => d
  end.

(** The loop that files an element under its key, creating the entry on
    first sight: [if k not in d: d[k] = empty] followed by the changes of
    [d[k]], taken together as [step]. *)
Section Grouping.
Context {X : Type} (key : X -> K) (step : X -> V -> V) (empty : V).

Definition dict_upsert (d : list (K * V)) (x : X) : list (K * V) :=
  dict_modify
    (if dict_contains d (key x) then d else dict_setitem d (key x) empty)
    (key x) (step x).

(** What [step] makes of the elements of key [k], in order. *)
Definition dict_group (k : K) (xs : list X) (g : V) : V :=
  fold_left (fun g x => step x g) (filter (fun x => eqb (key x) k) xs) g.

End Grouping.

End PyDict.

(** [o is not None] *)
Definition is_some_value {A} (o : option A) : bool :=
  match o with Some _ => true | None => false end.

(** Truth value of a string: non-empty. *)
Definition truthy (s : string) : bool := negb (s =? EmptyString)%string.

(** A decimal operation of a service, in the monad: a trapped signal is
    raised as [decimal.Overflow], [decimal.DivisionByZero] or
    [decimal.InvalidOperation]. *)
Definition decimal (r : Dec.outcome) : M Dec.Decimal :=
  match r with
  | Dec.Finite d => ret d
  | Dec.Trap sg => raise (DecimalException sg)
  end.

(** A value that may be [None] used as an operand: a TypeError. *)
Definition operand {A} (o : option A) : M A :=
  match o with
  | Some a => ret a
  | None => raise TypeError
  end.

(* ================================================================== *)
(** ** BSC: schemas, repositories and services *)

Module BSC.

(** [BSCIndicatorCreate] *)
Record BSCIndicatorCreate : Type := {
  ic_perspective : BSCPerspective;
  ic_code : string;
  ic_kpi : string;
  ic_weight : Dec.Decimal;
  ic_period_id : UUID }.

(** [indicator_in.dict()] *)
Definition BSCIndicatorCreate_dict (i : BSCIndicatorCreate)
  : BSCIndicator.dict :=
  BSCIndicator.mkdict (Value (ic_code i)) (Value (ic_kpi i))
    (Value (ic_perspective i)) (Value (ic_weight i)) Unset
    (Value (ic_period_id i)).

(** [BSCIndicatorUpdate]: every column optional; its
    [.dict(exclude_unset=True)] is the payload itself. *)
Definition BSCIndicatorUpdate : Type := BSCIndicator.dict.

(** [BSCActualCreate] *)
Record BSCActualCreate : Type := {
  ac_actual_value : string;
  ac_achievement : Dec.Decimal;
  ac_indicator_id : UUID }.

(** [BSCActualUpdate] *)
Record BSCActualUpdate : Type := {
  au_actual_value : field string;
  au_achievement : field Dec.Decimal }.

(** [actual_in.dict(exclude_unset=True)] *)
Definition BSCActualUpdate_dict (u : BSCActualUpdate) : BSCActual.dict :=
  BSCActual.mkdict (au_actual_value u) (au_achievement u)
    Unset Unset Unset Unset Unset.

(** [update_data.update({"score": ..., ...})] *)
Definition with_scores (d : BSCActual.dict)
  (score active_weight total_score score_akhir : Dec.Decimal)
  : BSCActual.dict :=
  BSCActual.mkdict (BSCActual.d_actual_value d) (BSCActual.d_achievement d)
    (Value score) (Value active_weight) (Value total_score)
    (Value score_akhir) (BSCActual.d_indicator_id d).

(** *** BSCIndicatorRepository *)

Definition get_by_code (code : string) (period_id : UUID)
  : M (option BSCIndicator.t) :=
  fun s =>
    (s, Ok (first (filter (fun r =>
                     (BSCIndicator.code r =? code)%string
                     && (BSCIndicator.period_id r =? period_id)
                     && negb (BSCIndicator.is_deleted r))
                   (bsc_indicator s)))).

Definition get_by_period (period_id : UUID) : M (list BSCIndicator.t) :=
  fun s =>
    (s, Ok (filter (fun r =>
              (BSCIndicator.period_id r =? period_id)
              && negb (BSCIndicator.is_deleted r))
            (bsc_indicator s))).

(** *** BSCActualRepository *)

Definition get_by_indicator (indicator_id : UUID) : M (list BSCActual.t) :=
  fun s =>
    (s, Ok (filter (fun r =>
              (BSCActual.indicator_id r =? indicator_id)
              && negb (BSCActual.is_deleted r))
            (bsc_actual s))).

Definition get_latest_by_indicator (indicator_id : UUID)
  : M (option BSCActual.t) :=
  fun s =>
    (s, Ok (first (order_by_desc BSCActual.created_at Z.leb
                     (filter (fun r =>
                        (BSCActual.indicator_id r =? indicator_id)
                        && negb (BSCActual.is_deleted r))
                      (bsc_actual s))))).

(** *** The dashboard of [BSCIndicatorRepository.get_dashboard_data] *)

Record Item : Type := {
  indicator : BSCIndicator.t;
  actual : option BSCActual.t }.

Record Totals : Type := mkTotals {
  total_weight : Dec.Decimal;
  total_score : Dec.Decimal;
  total_active_weight : Dec.Decimal;
  total_score_akhir : Dec.Decimal }.

(** A perspective group: its items and its four running sums. *)
Record Group : Type := mkGroup {
  items : list Item;
  sums : Totals }.

Record Dashboard : Type := {
  period_id : UUID;
  perspectives : list (BSCPerspective * Group);
  totals : Totals }.

Definition zero_totals : Totals :=
  mkTotals (Dec.of_int 0) (Dec.of_int 0) (Dec.of_int 0) (Dec.of_int 0).

(** [t["total_weight"] += w] *)
Definition add_weight (w : Dec.Decimal) (t : Totals) : Totals :=
  mkTotals (Dec.add (total_weight t) w) (total_score t)
    (total_active_weight t) (total_score_akhir t).

(** The three [+=] of the branch [if actuals:]. *)
Definition add_actual (a : BSCActual.t) (t : Totals) : Totals :=
  mkTotals (total_weight t)
    (Dec.add (total_score t) (BSCActual.score a))
    (Dec.add (total_active_weight t) (BSCActual.active_weight a))
    (Dec.add (total_score_akhir t) (BSCActual.score_akhir a)).

(** The statement inside the loop: the non-deleted actuals of the
    indicator, as the database returns them (no ORDER BY). *)
Definition actuals_of (s : Session) (indicator : BSCIndicator.t)
  : list BSCActual.t :=
  filter (fun a =>
      (BSCActual.indicator_id a =? BSCIndicator.id indicator)
      && negb (BSCActual.is_deleted a))
    (bsc_actual s).

(** One turn of [for indicator in indicators]. *)
Definition dashboard_step (s : Session)
  (acc : list (BSCPerspective * Group) * Totals) (indicator : BSCIndicator.t)
  : list (BSCPerspective * Group) * Totals :=
  let '(data, totals) := acc in
  let actuals := actuals_of s indicator in
  let perspective := BSCIndicator.perspective indicator in
  let data :=
    if dict_contains BSCPerspective_eqb data perspective then data
    else dict_setitem BSCPerspective_eqb data perspective
           (mkGroup [] zero_totals) in
  let item := {| indicator := indicator; actual := first actuals |} in
  let data :=
    dict_modify BSCPerspective_eqb data perspective
      (fun g => mkGroup (items g ++ [item]) (sums g)) in
  let data :=
    dict_modify BSCPerspective_eqb data perspective
      (fun g => mkGroup (items g)
                  (add_weight (BSCIndicator.weight indicator) (sums g))) in
  let totals := add_weight (BSCIndicator.weight indicator) totals in
  match first actuals with
  | Some actual =>
      (dict_modify BSCPerspective_eqb data perspective
         (fun g => mkGroup (items g) (add_actual actual (sums g))),
       add_actual actual totals)
  | None => (data, totals)
  end.

Definition get_dashboard_data (period_id : UUID) : M Dashboard :=
  indicators <- get_by_period period_id ;;
  fun s =>
    let '(data, totals) :=
      fold_left (dashboard_step s) indicators ([], zero_totals) in
    (s, Ok {| period_id := period_id;
              perspectives := data;
              totals := totals |}).

(** *** BSCIndicatorService *)

Definition create_indicator (indicator_in : BSCIndicatorCreate)
  : M BSCIndicator.t :=
  existing_indicator <-
    get_by_code (ic_code indicator_in) (ic_period_id indicator_in) ;;
  match existing_indicator with
  | Some _ => raise (HTTPException HTTP_400_BAD_REQUEST)
  | None => create (BSCIndicatorCreate_dict indicator_in)
  end.

Definition update_indicator (indicator_id : UUID)
  (indicator_in : BSCIndicatorUpdate) : M BSCIndicator.t :=
  db_indicator <- get_or_404 indicator_id ;;
  (match attr (BSCIndicator.d_code indicator_in) with
   | Some code =>
       if truthy code && negb (code =? BSCIndicator.code db_indicator)%string
       then
         let period_id :=
           match attr (BSCIndicator.d_period_id indicator_in) with
           | Some p => p
           | None => BSCIndicator.period_id db_indicator
           end in
         existing_indicator <- get_by_code code period_id ;;
         match existing_indicator with
         | Some e =>
             if negb (BSCIndicator.id e =? indicator_id)
             then raise (HTTPException HTTP_400_BAD_REQUEST)
             else ret tt
         | None => ret tt
         end
       else ret tt
   | None => ret tt
   end) ;;;
  update db_indicator indicator_in.

(** *** BSCActualService *)

Definition create_actual (actual_in : BSCActualCreate) : M BSCActual.t :=
  indicator <- get_or_404 (T := BSCIndicator.t) (ac_indicator_id actual_in) ;;
  achievement <-
    decimal (Dec.truediv_ctx (ac_achievement actual_in) (Dec.of_int 100)) ;;
  score <- decimal (Dec.mul_ctx (BSCIndicator.weight indicator) achievement) ;;
  active_weight <-
    decimal (Dec.mul_ctx (BSCIndicator.weight indicator) (Dec.of_int 2)) ;;
  total_score <- decimal (Dec.mul_ctx score Dec.of_float_0_2) ;;
  let actual_data :=
    BSCActual.mkdict (Value (ac_actual_value actual_in))
      (Value (ac_achievement actual_in))
      (Value score) (Value active_weight) (Value total_score)
      (Value total_score) (Value (ac_indicator_id actual_in)) in
  create actual_data.

Definition update_actual (actual_id : UUID) (actual_in : BSCActualUpdate)
  : M BSCActual.t :=
  db_actual <- get_or_404 (T := BSCActual.t) actual_id ;;
  let update_data := BSCActualUpdate_dict actual_in in
  update_data <-
    (if is_set (BSCActual.d_actual_value update_data)
        || is_set (BSCActual.d_achievement update_data)
     then
       indicator <-
         get_or_404 (T := BSCIndicator.t) (BSCActual.indicator_id db_actual) ;;
       reported <-
         operand (dict_get_default (BSCActual.d_achievement update_data)
                    (BSCActual.achievement db_actual)) ;;
       achievement <- decimal (Dec.truediv_ctx reported (Dec.of_int 100)) ;;
       score <-
         decimal (Dec.mul_ctx (BSCIndicator.weight indicator) achievement) ;;
       active_weight <-
         decimal (Dec.mul_ctx (BSCIndicator.weight indicator) (Dec.of_int 2)) ;;
       total_score <- decimal (Dec.mul_ctx score Dec.of_float_0_2) ;;
       ret (with_scores update_data score active_weight total_score
              total_score)
     else ret update_data) ;;
  update db_actual update_data.

End BSC.

(* ================================================================== *)
(** ** MPM: schemas, repositories and services *)

Module MPM.

(** [MPMIndicatorCreate] *)
Record MPMIndicatorCreate : Type := {
  ic_kpi : string;
  ic_weight : Dec.Decimal;
  ic_kpi_number : option Z;
  ic_perspective : option MPMPerspective;
  ic_period_id : UUID }.

(** A key of [.dict()] whose value may be [None]. *)
Definition entry {A} (o : option A) : field A :=
  match o with Some a => Value a | None => Null end.

(** [indicator_in.dict()] *)
Definition MPMIndicatorCreate_dict (i : MPMIndicatorCreate)
  : MPMIndicator.dict :=
  MPMIndicator.mkdict (Value (ic_kpi i)) (Value (ic_weight i))
    (entry (ic_kpi_number i)) (entry (ic_perspective i)) Unset
    (Value (ic_period_id i)).

(** [MPMIndicatorUpdate]; the schema has no [period_id]. *)
Record MPMIndicatorUpdate : Type := {
  iu_kpi : field string;
  iu_weight : field Dec.Decimal;
  iu_kpi_number : field Z;
  iu_perspective : field MPMPerspective;
  iu_is_active : field bool }.

Definition MPMIndicatorUpdate_dict (u : MPMIndicatorUpdate)
  : MPMIndicator.dict :=
  MPMIndicator.mkdict (iu_kpi u) (iu_weight u) (iu_kpi_number u)
    (iu_perspective u) (iu_is_active u) Unset.

(** [MPMQuarterlyDataCreate] *)
Record MPMQuarterlyDataCreate : Type := {
  qc_quarter : string;
  qc_target_value : Dec.Decimal;
  qc_actual_value : option Dec.Decimal;
  qc_action_plan_id : UUID }.

Definition MPMQuarterlyDataCreate_dict (q : MPMQuarterlyDataCreate)
  : MPMQuarterlyData.dict :=
  MPMQuarterlyData.mkdict (Value (qc_quarter q)) (Value (qc_target_value q))
    (entry (qc_actual_value q)) (Value (qc_action_plan_id q)).

(** [MPMQuarterlyDataUpdate] *)
Record MPMQuarterlyDataUpdate : Type := {
  qu_target_value : field Dec.Decimal;
  qu_actual_value : field Dec.Decimal }.

Definition MPMQuarterlyDataUpdate_dict (u : MPMQuarterlyDataUpdate)
  : MPMQuarterlyData.dict :=
  MPMQuarterlyData.mkdict Unset (qu_target_value u) (qu_actual_value u) Unset.

(** [MPMActualCreate] *)
Record MPMActualCreate : Type := {
  ac_actual_value : Dec.Decimal;
  ac_achievement : Dec.Decimal;
  ac_indicator_id : UUID }.

(** [MPMActualUpdate] *)
Record MPMActualUpdate : Type := {
  au_actual_value : field Dec.Decimal;
  au_achievement : field Dec.Decimal }.

Definition MPMActualUpdate_dict (u : MPMActualUpdate) : MPMActual.dict :=
  MPMActual.mkdict (au_actual_value u) (au_achievement u) Unset Unset.

(** [update_data["score"] = score] *)
Definition with_score (d : MPMActual.dict) (score : Dec.Decimal)
  : MPMActual.dict :=
  MPMActual.mkdict (MPMActual.d_actual_value d) (MPMActual.d_achievement d)
    (Value score) (MPMActual.d_indicator_id d).

(** *** MPMIndicatorRepository *)

Definition get_by_kpi (kpi : string) (period_id : UUID)
  : M (option MPMIndicator.t) :=
  fun s =>
    (s, Ok (first (filter (fun r =>
                     (MPMIndicator.kpi r =? kpi)%string
                     && (MPMIndicator.period_id r =? period_id)
                     && negb (MPMIndicator.is_deleted r))
                   (mpm_indicator s)))).

Definition option_eqb {A} (eqb : A -> A -> bool) (a b : option A) : bool :=
  match a, b with
  | Some x, Some y => eqb x y
  | None, None => true
  | _, _ => false
  end.

(** [select(func.max(kpi_number))] over the live indicators of a
    perspective and period, [or 0], plus one. *)
Definition get_next_kpi_number (perspective : MPMPerspective)
  (period_id : UUID) : M Z :=
  fun s =>
    let rows :=
      filter (fun r =>
          option_eqb MPMPerspective_eqb (MPMIndicator.perspective r)
            (Some perspective)
          && (MPMIndicator.period_id r =? period_id)
          && negb (MPMIndicator.is_deleted r))
        (mpm_indicator s) in
    let max_number :=
      fold_left (fun (m : option Z) r =>
          match m, MPMIndicator.kpi_number r with
          | Some a, Some b => Some (Z.max a b)
          | None, n => n
          | m, None => m
          end) rows None in
    (s, Ok (match max_number with Some n => n | None => 0 end + 1)).

(** *** MPMActionPlanRepository *)

(** The statement of [calculate_status]: the quarterly data of the plan
    that carry an actual value and are not deleted, latest quarter
    first. *)
Definition reported_quarters (s : Session) (action_plan_id : UUID)
  : list MPMQuarterlyData.t :=
  order_by_desc MPMQuarterlyData.quarter String.leb
    (filter (fun r =>
         (MPMQuarterlyData.action_plan_id r =? action_plan_id)
         && is_some_value (MPMQuarterlyData.actual_value r)
         && negb (MPMQuarterlyData.is_deleted r))
       (mpm_quarterly_data s)).

Definition calculate_status (action_plan_id : UUID) : M MPMStatus :=
  fun s =>
    match first (reported_quarters s action_plan_id) with
    | None => (s, Ok ON_TRACK)
    | Some latest_quarter =>
        (actual_value <- operand (MPMQuarterlyData.actual_value latest_quarter) ;;
         let target_value := MPMQuarterlyData.target_value latest_quarter in
         if Dec.ge actual_value target_value then ret ON_TRACK
         else if Dec.ge actual_value (Dec.mul target_value (Dec.of_str 8 (-1)))
         then ret AT_RISK
         else ret OFF_TRACK) s
    end.

(** *** MPMQuarterlyDataRepository *)

Definition get_by_quarter (action_plan_id : UUID) (quarter : string)
  : M (option MPMQuarterlyData.t) :=
  fun s =>
    (s, Ok (first (filter (fun r =>
                     (MPMQuarterlyData.action_plan_id r =? action_plan_id)
                     && (MPMQuarterlyData.quarter r =? quarter)%string
                     && negb (MPMQuarterlyData.is_deleted r))
                   (mpm_quarterly_data s)))).

(** *** MPMActualRepository *)

Definition get_latest_by_indicator (indicator_id : UUID)
  : M (option MPMActual.t) :=
  fun s =>
    (s, Ok (first (order_by_desc MPMActual.created_at Z.leb
                     (filter (fun r =>
                        (MPMActual.indicator_id r =? indicator_id)
                        && negb (MPMActual.is_deleted r))
                      (mpm_actual s))))).

(** *** MPMIndicatorService *)

Definition create_indicator (indicator_in : MPMIndicatorCreate)
  : M MPMIndicator.t :=
  existing_indicator <-
    get_by_kpi (ic_kpi indicator_in) (ic_period_id indicator_in) ;;
  match existing_indicator with
  | Some _ => raise (HTTPException HTTP_400_BAD_REQUEST)
  | None =>
      match ic_perspective indicator_in with
      | Some perspective =>
          let indicator_in_dict := MPMIndicatorCreate_dict indicator_in in
          kpi_number <-
            get_next_kpi_number perspective (ic_period_id indicator_in) ;;
          create
            (MPMIndicator.mkdict
               (MPMIndicator.d_kpi indicator_in_dict)
               (MPMIndicator.d_weight indicator_in_dict)
               (Value kpi_number)
               (MPMIndicator.d_perspective indicator_in_dict)
               (MPMIndicator.d_is_active indicator_in_dict)
               (MPMIndicator.d_period_id indicator_in_dict))
      | None => create (MPMIndicatorCreate_dict indicator_in)
      end
  end.

Definition update_indicator (indicator_id : UUID)
  (indicator_in : MPMIndicatorUpdate) : M MPMIndicator.t :=
  db_indicator <- get_or_404 indicator_id ;;
  (match attr (iu_kpi indicator_in) with
   | Some kpi =>
       if truthy kpi && negb (kpi =? MPMIndicator.kpi db_indicator)%string
       then
         existing_indicator <-
           get_by_kpi kpi (MPMIndicator.period_id db_indicator) ;;
         match existing_indicator with
         | Some e =>
             if negb (MPMIndicator.id e =? indicator_id)
             then raise (HTTPException HTTP_400_BAD_REQUEST)
             else ret tt
         | None => ret tt
         end
       else ret tt
   | None => ret tt
   end) ;;;
  update db_indicator (MPMIndicatorUpdate_dict indicator_in).

(** *** MPMActionPlanService *)

Definition update_action_plan_status (plan_id : UUID) : M MPMActionPlan.t :=
  db_plan <- get_or_404 (T := MPMActionPlan.t) plan_id ;;
  status <- calculate_status plan_id ;;
  update db_plan (MPMActionPlan.mkdict Unset (Value status) Unset).

(** *** MPMQuarterlyDataService *)

Definition create_quarterly_data (data_in : MPMQuarterlyDataCreate)
  : M MPMQuarterlyData.t :=
  existing_data <-
    get_by_quarter (qc_action_plan_id data_in) (qc_quarter data_in) ;;
  match existing_data with
  | Some _ => raise (HTTPException HTTP_400_BAD_REQUEST)
  | None =>
      quarterly_data <- create (MPMQuarterlyDataCreate_dict data_in) ;;
      (if is_some_value (qc_actual_value data_in)
       then update_action_plan_status (qc_action_plan_id data_in) ;;; ret tt
       else ret tt) ;;;
      ret quarterly_data
  end.

Definition update_quarterly_data (data_id : UUID)
  (data_in : MPMQuarterlyDataUpdate) : M MPMQuarterlyData.t :=
  db_data <- get_or_404 (T := MPMQuarterlyData.t) data_id ;;
  quarterly_data <- update db_data (MPMQuarterlyDataUpdate_dict data_in) ;;
  (* [db_data] and [quarterly_data] are one object from here on *)
  (if is_some_value (attr (qu_actual_value data_in))
   then
     update_action_plan_status (MPMQuarterlyData.action_plan_id quarterly_data)
     ;;; ret tt
   else ret tt) ;;;
  ret quarterly_data.

(** *** MPMActualService *)

Definition create_actual (actual_in : MPMActualCreate) : M MPMActual.t :=
  indicator <- get_or_404 (T := MPMIndicator.t) (ac_indicator_id actual_in) ;;
  weighted <-
    decimal (Dec.mul_ctx (MPMIndicator.weight indicator)
               (ac_achievement actual_in)) ;;
  score <- decimal (Dec.truediv_ctx weighted (Dec.of_int 100)) ;;
  let actual_data :=
    MPMActual.mkdict (Value (ac_actual_value actual_in))
      (Value (ac_achievement actual_in)) (Value score)
      (Value (ac_indicator_id actual_in)) in
  create actual_data.

Definition update_actual (actual_id : UUID) (actual_in : MPMActualUpdate)
  : M MPMActual.t :=
  db_actual <- get_or_404 (T := MPMActual.t) actual_id ;;
  let update_data := MPMActualUpdate_dict actual_in in
  update_data <-
    (if is_set (MPMActual.d_actual_value update_data)
        || is_set (MPMActual.d_achievement update_data)
     then
       indicator <-
         get_or_404 (T := MPMIndicator.t) (MPMActual.indicator_id db_actual) ;;
       achievement <-
         operand (dict_get_default (MPMActual.d_achievement update_data)
                    (MPMActual.achievement db_actual)) ;;
       weighted <-
         decimal (Dec.mul_ctx (MPMIndicator.weight indicator) achievement) ;;
       score <- decimal (Dec.truediv_ctx weighted (Dec.of_int 100)) ;;
       ret (with_score update_data score)
     else ret update_data) ;;
  update db_actual update_data.

(** *** The dashboard of [MPMIndicatorRepository.get_dashboard_data] *)

Record Item : Type := {
  indicator : MPMIndicator.t;
  monthly_targets : list (string * Dec.Decimal);
  actual : option MPMActual.t;
  action_plans : list MPMActionPlan.t }.

Record Totals : Type := mkTotals {
  total_weight : Dec.Decimal;
  total_score : Dec.Decimal }.

Record Group : Type := mkGroup {
  items : list Item;
  sums : Totals }.

Record Dashboard : Type := {
  period_id : UUID;
  perspectives : list (MPMBucketKey * Group);
  totals : Totals }.

Definition zero_totals : Totals := mkTotals (Dec.of_int 0) (Dec.of_int 0).

Definition add_weight (w : Dec.Decimal) (t : Totals) : Totals :=
  mkTotals (Dec.add (total_weight t) w) (total_score t).

Definition add_actual (a : MPMActual.t) (t : Totals) : Totals :=
  mkTotals (total_weight t) (Dec.add (total_score t) (MPMActual.score a)).

(** The latest actual of the indicator: live rows, [created_at]
    descending, first. *)
Definition latest_actual (s : Session) (indicator : MPMIndicator.t)
  : option MPMActual.t :=
  first (order_by_desc MPMActual.created_at Z.leb
           (filter (fun a =>
                (MPMActual.indicator_id a =? MPMIndicator.id indicator)
                && negb (MPMActual.is_deleted a))
              (mpm_actual s))).

(** [{target.month: target.target_value for target in monthly_targets}] *)
Definition monthly_targets_dict (s : Session) (indicator : MPMIndicator.t)
  : list (string * Dec.Decimal) :=
  fold_left (fun d target =>
      dict_setitem String.eqb d (MPMMonthlyTarget.month target)
        (MPMMonthlyTarget.target_value target))
    (filter (fun r =>
         (MPMMonthlyTarget.indicator_id r =? MPMIndicator.id indicator)
         && negb (MPMMonthlyTarget.is_deleted r))
       (mpm_monthly_target s))
    [].

Definition action_plans_of (s : Session) (indicator : MPMIndicator.t)
  : list MPMActionPlan.t :=
  filter (fun r =>
      (MPMActionPlan.indicator_id r =? MPMIndicator.id indicator)
      && negb (MPMActionPlan.is_deleted r))
    (mpm_action_plan s).

(** [indicator.perspective or "Other"] *)
Definition bucket_key (indicator : MPMIndicator.t) : MPMBucketKey :=
  match MPMIndicator.perspective indicator with
  | Some p => Perspective p
  | None => Other
  end.

Definition dashboard_step (s : Session)
  (acc : list (MPMBucketKey * Group) * Totals) (indicator : MPMIndicator.t)
  : list (MPMBucketKey * Group) * Totals :=
  let '(data, totals) := acc in
  let perspective := bucket_key indicator in
  let data :=
    if dict_contains MPMBucketKey_eqb data perspective then data
    else dict_setitem MPMBucketKey_eqb data perspective
           (mkGroup [] zero_totals) in
  let actual := latest_actual s indicator in
  let item :=
    {| indicator := indicator;
       monthly_targets := monthly_targets_dict s indicator;
       actual := actual;
       action_plans := action_plans_of s indicator |} in
  let data :=
    dict_modify MPMBucketKey_eqb data perspective
      (fun g => mkGroup (items g ++ [item]) (sums g)) in
  let data :=
    dict_modify MPMBucketKey_eqb data perspective
      (fun g => mkGroup (items g)
                  (add_weight (MPMIndicator.weight indicator) (sums g))) in
  let totals := add_weight (MPMIndicator.weight indicator) totals in
  match actual with
  | Some actual =>
      (dict_modify MPMBucketKey_eqb data perspective
         (fun g => mkGroup (items g) (add_actual actual (sums g))),
       add_actual actual totals)
  | None => (data, totals)
  end.

(** The order of [ORDER BY perspective, kpi_number] is the database's
    (its collation of the enumeration, its placement of NULLs): the
    comparison of two such keys is a parameter of the model. *)
Section Collation.
Variable collation :
  option MPMPerspective * option Z -> option MPMPerspective * option Z -> bool.

Definition get_by_period (period_id : UUID) : M (list MPMIndicator.t) :=
  fun s =>
    (s, Ok (order_by
              (fun r => (MPMIndicator.perspective r, MPMIndicator.kpi_number r))
              collation
              (filter (fun r =>
                   (MPMIndicator.period_id r =? period_id)
                   && negb (MPMIndicator.is_deleted r))
                 (mpm_indicator s)))).

Definition get_dashboard_data (period_id : UUID) : M Dashboard :=
  indicators <- get_by_period period_id ;;
  fun s =>
    let '(data, totals) :=
      fold_left (dashboard_step s) indicators ([], zero_totals) in
    (s, Ok {| period_id := period_id;
              perspectives := data;
              totals := totals |}).

End Collation.

End MPM.

(* ================================================================== *)
(** ** Periods *)

Module PeriodRepository.

Definition get_active_period : M (option Period.t) :=
  fun s =>
    (s, Ok (first (filter (fun r =>
                     PeriodStatus_eqb (Period.status r) ACTIVE
                     && negb (Period.is_deleted r))
                   (period s)))).

(** The parameter [status] of [update_status] hides the module
    [fastapi.status] inside the function: the expression
    [status.HTTP_400_BAD_REQUEST], evaluated to build the HTTPException,
    looks the attribute up on the [PeriodStatus] member and raises
    AttributeError. *)
Definition update_status (id : UUID) (status : PeriodStatus) : M Period.t :=
  db_obj <- get_or_404 (T := Period.t) id ;;
  (if PeriodStatus_eqb status ACTIVE then
     active_period <- get_active_period ;;
     match active_period with
     | Some a => if negb (Period.id a =? id) then raise AttributeError
                 else ret tt
     | None => ret tt
     end
   else ret tt) ;;;
  fun s =>
    let db_obj :=
      Period.mk (Period.id db_obj) (Period.year db_obj) (Period.period db_obj)
        status (Period.created_at db_obj) (Some (utcnow s))
        (Period.is_deleted db_obj) in
    (advance (set_table (merge db_obj (table s)) s), Ok db_obj).

End PeriodRepository.

(* ================================================================== *)
(** ** Vocabulary of the specification *)

Module Spec.

(** The rows [calculate_status] looks at: the quarterly data of the
    plan that carry an actual value and are not deleted. *)
Definition reported (action_plan_id : UUID) (r : MPMQuarterlyData.t) : bool :=
  (MPMQuarterlyData.action_plan_id r =? action_plan_id)
  && is_some_value (MPMQuarterlyData.actual_value r)
  && negb (MPMQuarterlyData.is_deleted r).




(** A decimal a NUMERIC column holds: PostgreSQL's type without
    precision takes at most 131072 digits before the decimal point and
    16383 after it.  The range of a column, like a foreign key, is the
    database's to enforce at the INSERT; the tables above do not carry
    it, and what is stated of a decimal that is stored is stated for
    decimals within the range. *)
Definition numeric (d : Dec.Decimal) : Prop :=
  -16383 <= Dec.dexp d /\ Dec.len (Dec.dint d) + Dec.dexp d <= 131072.


(** The derived fields of a BSC actual for the weight [w] and the
    achievement [a], by the operations of the decimal context in the
    order [create_actual] applies them: the score, the active weight and
    the total score, or [None] when one of the operations signals. *)
Definition bsc_derived (w a : Dec.Decimal)
  : option (Dec.Decimal * Dec.Decimal * Dec.Decimal) :=
  match Dec.truediv_ctx a (Dec.of_int 100) with
  | Dec.Trap _ => None
  | Dec.Finite achievement =>
      match Dec.mul_ctx w achievement with
      | Dec.Trap _ => None
      | Dec.Finite score =>
          match Dec.mul_ctx w (Dec.of_int 2) with
          | Dec.Trap _ => None
          | Dec.Finite active_weight =>
              match Dec.mul_ctx score Dec.of_float_0_2 with
              | Dec.Trap _ => None
              | Dec.Finite total_score =>
                  Some (score, active_weight, total_score)
              end
          end
      end
  end.

(** The score of an MPM actual, likewise. *)
Definition mpm_derived (w a : Dec.Decimal) : option Dec.Decimal :=
  match Dec.mul_ctx w a with
  | Dec.Trap _ => None
  | Dec.Finite weighted =>
      match Dec.truediv_ctx weighted (Dec.of_int 100) with
      | Dec.Trap _ => None
      | Dec.Finite score => Some score
      end
  end.

(** The live row of a table under an identifier: what [get] finds. *)
Definition lookup {T} `{Model T} (s : Session) (id : UUID) : option T :=
  first (filter (fun r => (row_id r =? id) && negb (row_is_deleted r))
           (table s)).

(** A period that counts as Active: status Active and not deleted. *)
Definition live_active (p : Period.t) : bool :=
  PeriodStatus_eqb (Period.status p) ACTIVE && negb (Period.is_deleted p).

Definition active_periods (s : Session) : list Period.t :=
  filter live_active (period s).

(** At most one non-deleted period is Active. *)
Definition single_active (s : Session) : Prop :=
  (List.length (active_periods s) <= 1)%nat.

(** [id] is the primary key of the table of periods. *)
Definition period_ids_unique (s : Session) : Prop :=
  NoDup (map Period.id (period s)).

(** The session after a sequence of [update_status] calls, whatever each
    call returned. *)
Definition after_update_status (calls : list (UUID * PeriodStatus))
  (s : Session) : Session :=
  fold_left (fun s c => fst (PeriodRepository.update_status (fst c) (snd c) s))
    calls s.

(** *** Dashboards *)

(** The indicators the BSC dashboard of a period runs over: what
    [get_by_period] returns. *)
Definition bsc_indicators (s : Session) (period_id : UUID)
  : list BSCIndicator.t :=
  filter (fun r => (BSCIndicator.period_id r =? period_id)
                   && negb (BSCIndicator.is_deleted r))
    (bsc_indicator s).

(** The actual the BSC loop pairs with an indicator: the first row of
    the statement it runs.  This and the definitions that follow spell
    the loops of the dashboards out, for the lemmas on their shape. *)
Definition bsc_paired (s : Session) (i : BSCIndicator.t)
  : option BSCActual.t :=
  first (BSC.actuals_of s i).

(** The paired actuals of the indicators that have one, in order. *)
Definition bsc_reported (s : Session) (its : list BSCIndicator.t)
  : list BSCActual.t :=
  flat_map (fun i => match bsc_paired s i with
                     | Some a => [a]
                     | None => []
                     end) its.

Definition bsc_in_perspective (p : BSCPerspective)
  (its : list BSCIndicator.t) : list BSCIndicator.t :=
  filter (fun i => BSCPerspective_eqb (BSCIndicator.perspective i) p) its.

(** The four sums of a BSC bucket, or of the period, over [its]. *)
Definition bsc_sums (s : Session) (its : list BSCIndicator.t) : BSC.Totals :=
  BSC.mkTotals
    (Dec.sum (map BSCIndicator.weight its))
    (Dec.sum (map BSCActual.score (bsc_reported s its)))
    (Dec.sum (map BSCActual.active_weight (bsc_reported s its)))
    (Dec.sum (map BSCActual.score_akhir (bsc_reported s its))).

(** The same for MPM. *)
Definition mpm_live_indicators (s : Session) (period_id : UUID)
  : list MPMIndicator.t :=
  filter (fun r => (MPMIndicator.period_id r =? period_id)
                   && negb (MPMIndicator.is_deleted r))
    (mpm_indicator s).

Definition mpm_reported (s : Session) (its : list MPMIndicator.t)
  : list MPMActual.t :=
  flat_map (fun i => match MPM.latest_actual s i with
                     | Some a => [a]
                     | None => []
                     end) its.

Definition mpm_in_bucket (k : MPMBucketKey) (its : list MPMIndicator.t)
  : list MPMIndicator.t :=
  filter (fun i => MPMBucketKey_eqb (MPM.bucket_key i) k) its.

Definition mpm_sums (s : Session) (its : list MPMIndicator.t) : MPM.Totals :=
  MPM.mkTotals
    (Dec.sum (map MPMIndicator.weight its))
    (Dec.sum (map MPMActual.score (mpm_reported s its))).

(** The indicators the MPM dashboard of a period runs over, in the order
    [get_by_period] returns them. *)
Definition mpm_indicators
  (collation : option MPMPerspective * option Z ->
               option MPMPerspective * option Z -> bool)
  (s : Session) (period_id : UUID) : list MPMIndicator.t :=
  order_by (fun r => (MPMIndicator.perspective r, MPMIndicator.kpi_number r))
    collation (mpm_live_indicators s period_id).

(** The indicators that appear in a dashboard, over all its buckets. *)
Definition bsc_dashboard_indicators (d : BSC.Dashboard)
  : list BSCIndicator.t :=
  flat_map (fun pg => map BSC.indicator (BSC.items (snd pg)))
    (BSC.perspectives d).

Definition mpm_dashboard_indicators (d : MPM.Dashboard)
  : list MPMIndicator.t :=
  flat_map (fun pg => map MPM.indicator (MPM.items (snd pg)))
    (MPM.perspectives d).

(** At most one live BSC indicator per (code, period), and at most one
    live MPM indicator per (kpi, period). *)
Definition bsc_unique_code (s : Session) : Prop :=
  forall a b,
    In a (bsc_indicator s) -> In b (bsc_indicator s) ->
    BSCIndicator.is_deleted a = false -> BSCIndicator.is_deleted b = false ->
    BSCIndicator.code a = BSCIndicator.code b ->
    BSCIndicator.period_id a = BSCIndicator.period_id b ->
    BSCIndicator.id a = BSCIndicator.id b.

Definition mpm_unique_kpi (s : Session) : Prop :=
  forall a b,
    In a (mpm_indicator s) -> In b (mpm_indicator s) ->
    MPMIndicator.is_deleted a = false -> MPMIndicator.is_deleted b = false ->
    MPMIndicator.kpi a = MPMIndicator.kpi b ->
    MPMIndicator.period_id a = MPMIndicator.period_id b ->
    MPMIndicator.id a = MPMIndicator.id b.

(** *** The loops, one turn at a time *)

(** The item the BSC loop files for an indicator. *)
Definition bsc_item_of (s : Session) (i : BSCIndicator.t) : BSC.Item :=
  {| BSC.indicator := i; BSC.actual := bsc_paired s i |}.

(** What one turn of the BSC loop does to running sums ... *)
Definition bsc_totals_step (s : Session) (i : BSCIndicator.t)
  (t : BSC.Totals) : BSC.Totals :=
  match bsc_paired s i with
  | Some a => BSC.add_actual a (BSC.add_weight (BSCIndicator.weight i) t)
  | None => BSC.add_weight (BSCIndicator.weight i) t
  end.

(** ... and to the group of the perspective of the indicator. *)
Definition bsc_group_step (s : Session) (i : BSCIndicator.t) (g : BSC.Group)
  : BSC.Group :=
  BSC.mkGroup (BSC.items g ++ [bsc_item_of s i])
    (bsc_totals_step s i (BSC.sums g)).

(** The group of the indicators [its], all of one perspective. *)
Definition bsc_group_of (s : Session) (its : list BSCIndicator.t)
  : BSC.Group :=
  BSC.mkGroup (map (bsc_item_of s) its) (bsc_sums s its).

(** The same for the MPM loop. *)
Definition mpm_item_of (s : Session) (i : MPMIndicator.t) : MPM.Item :=
  {| MPM.indicator := i;
     MPM.monthly_targets := MPM.monthly_targets_dict s i;
     MPM.actual := MPM.latest_actual s i;
     MPM.action_plans := MPM.action_plans_of s i |}.

Definition mpm_totals_step (s : Session) (i : MPMIndicator.t)
  (t : MPM.Totals) : MPM.Totals :=
  match MPM.latest_actual s i with
  | Some a => MPM.add_actual a (MPM.add_weight (MPMIndicator.weight i) t)
  | None => MPM.add_weight (MPMIndicator.weight i) t
  end.

Definition mpm_group_step (s : Session) (i : MPMIndicator.t) (g : MPM.Group)
  : MPM.Group :=
  MPM.mkGroup (MPM.items g ++ [mpm_item_of s i])
    (mpm_totals_step s i (MPM.sums g)).

Definition mpm_group_of (s : Session) (its : list MPMIndicator.t)
  : MPM.Group :=
  MPM.mkGroup (map (mpm_item_of s) its) (mpm_sums s its).

(** Any two live Active periods carry the same identifier. *)
Definition active_share_id (rows : list Period.t) : Prop :=
  forall p q, In p rows -> In q rows ->
    live_active p = true -> live_active q = true ->
    Period.id p = Period.id q.

(** The row [update_status] commits. *)
Definition with_status (db_obj : Period.t) (status : PeriodStatus)
  (now : datetime) : Period.t :=
  Period.mk (Period.id db_obj) (Period.year db_obj) (Period.period db_obj)
    status (Period.created_at db_obj) (Some now) (Period.is_deleted db_obj).

End Spec.

(* ================================================================== *)
(** ** Concrete sessions and payloads *)

Module Examples.

Definition empty : Session := mkSession [] [] [] [] [] [] [] [] 100 1000.

(** Decimal literals. *)
Definition d_50 : Dec.Decimal := Dec.of_str 50 0.
Definition d_80 : Dec.Decimal := Dec.of_str 80 0.
Definition d_30 : Dec.Decimal := Dec.of_str 30 0.
Definition d_90 : Dec.Decimal := Dec.of_str 90 0.
Definition d_100 : Dec.Decimal := Dec.of_str 100 0.

(** One MPM indicator of weight 50, no actual yet; the payload reports an
    achievement of 80. *)
Definition mpm_indicator_50 : MPMIndicator.t :=
  MPMIndicator.mk 1 "Revenue growth" d_50 (Some 1) (Some FINANCIAL) true 10
    0 None false.

Definition mpm_50 : Session :=
  mkSession [] [] [] [mpm_indicator_50] [] [] [] [] 100 1000.

Definition mpm_actual_in_80 : MPM.MPMActualCreate :=
  {| MPM.ac_actual_value := d_80;
     MPM.ac_achievement := d_80;
     MPM.ac_indicator_id := 1 |}.




(** One BSC indicator of weight 30, no actual yet; the payload reports an
    achievement of 90 (the specification's scenario). *)
Definition bsc_indicator_30 : BSCIndicator.t :=
  BSCIndicator.mk 1 "F1" "Revenue" BSC_FINANCIAL d_30 true 10 0 None false.

Definition bsc_30 : Session :=
  mkSession [] [bsc_indicator_30] [] [] [] [] [] [] 100 1000.

Definition bsc_actual_in_90 : BSC.BSCActualCreate :=
  {| BSC.ac_actual_value := "90";
     BSC.ac_achievement := d_90;
     BSC.ac_indicator_id := 1 |}.

(** Two periods: the first Active, the second Draft. *)
Definition period_1 : Period.t := Period.mk 1 2025 "1" ACTIVE 0 None false.
Definition period_2 : Period.t := Period.mk 2 2025 "2" DRAFT 0 None false.

Definition two_periods : Session :=
  mkSession [period_1; period_2] [] [] [] [] [] [] [] 100 1000.

(** An action plan whose status At Risk was computed from its single
    quarterly datum: target 100, actual 80. *)
Definition plan_1 : MPMActionPlan.t :=
  MPMActionPlan.mk 1 "Open two branches" AT_RISK 5 0 (Some 3) false.

Definition quarter_1 : MPMQuarterlyData.t :=
  MPMQuarterlyData.mk 11 "Q1" d_100 (Some d_80) 1 1 None false.

Definition plan_at_risk : Session :=
  mkSession [] [] [] [] [] [plan_1] [quarter_1] [] 100 1000.

(** The payload [{"actual_value": null}]. *)
Definition clear_actual : MPM.MPMQuarterlyDataUpdate :=
  {| MPM.qu_target_value := Unset; MPM.qu_actual_value := Null |}.

(** The dashboard scenario of the specification, BSC: period 10 has an
    indicator of weight 20 with one actual scoring 10, and an indicator
    of weight 30 without actual; the second one is inactive. *)
Definition d_10 : Dec.Decimal := Dec.of_str 10 0.
Definition d_15 : Dec.Decimal := Dec.of_str 15 0.
Definition d_20 : Dec.Decimal := Dec.of_str 20 0.
Definition d_40 : Dec.Decimal := Dec.of_str 40 0.
Definition d_2 : Dec.Decimal := Dec.of_str 2 0.

Definition bsc_i1 : BSCIndicator.t :=
  BSCIndicator.mk 1 "F1" "Revenue" BSC_FINANCIAL d_20 true 10 0 None false.
Definition bsc_i2 : BSCIndicator.t :=
  BSCIndicator.mk 2 "F2" "Margin" BSC_FINANCIAL d_30 false 10 0 None false.
Definition bsc_a1 : BSCActual.t :=
  BSCActual.mk 21 "50" d_50 d_10 d_40 d_2 d_2 1 1 None false.

Definition bsc_dash : Session :=
  mkSession [] [bsc_i1; bsc_i2] [bsc_a1] [] [] [] [] [] 100 1000.

(** The same indicator with a second, later actual scoring 15. *)
Definition bsc_a2 : BSCActual.t :=
  BSCActual.mk 22 "75" (Dec.of_str 75 0) d_15 d_40 (Dec.of_str 3 0)
    (Dec.of_str 3 0) 1 2 None false.

Definition bsc_two_actuals : Session :=
  mkSession [] [bsc_i1] [bsc_a1; bsc_a2] [] [] [] [] [] 100 1000.

(** The MPM counterpart of the scenario. *)
Definition mpm_i1 : MPMIndicator.t :=
  MPMIndicator.mk 1 "Revenue" d_20 (Some 1) (Some FINANCIAL) true 10 0 None
    false.
Definition mpm_i2 : MPMIndicator.t :=
  MPMIndicator.mk 2 "Margin" d_30 (Some 2) (Some FINANCIAL) false 10 0 None
    false.
Definition mpm_a1 : MPMActual.t :=
  MPMActual.mk 21 d_50 d_50 d_10 1 1 None false.

Definition mpm_dash : Session :=
  mkSession [] [] [] [mpm_i1; mpm_i2] [] [] [] [mpm_a1] 100 1000.

(** A collation for the examples: it leaves the stored order. *)
Definition stored_order
  (a b : option MPMPerspective * option Z) : bool := true.

(** Two BSC indicators with the code F1, one in period 10 and one in
    period 20; the payload moves the second into period 10. *)
Definition bsc_f1_p10 : BSCIndicator.t :=
  BSCIndicator.mk 1 "F1" "Revenue" BSC_FINANCIAL d_20 true 10 0 None false.
Definition bsc_f1_p20 : BSCIndicator.t :=
  BSCIndicator.mk 2 "F1" "Revenue" BSC_FINANCIAL d_20 true 20 0 None false.

Definition bsc_same_code : Session :=
  mkSession [] [bsc_f1_p10; bsc_f1_p20] [] [] [] [] [] [] 100 1000.

Definition move_to_period_10 : BSC.BSCIndicatorUpdate :=
  BSCIndicator.mkdict Unset Unset Unset Unset Unset (Value 10).

(** A plan with two reported quarters: Q1 with 50 against 100, then Q2
    with 80 against 100. *)
Definition quarter_q1 : MPMQuarterlyData.t :=
  MPMQuarterlyData.mk 11 "Q1" d_100 (Some d_50) 1 1 None false.
Definition quarter_q2 : MPMQuarterlyData.t :=
  MPMQuarterlyData.mk 12 "Q2" d_100 (Some d_80) 1 2 None false.

Definition two_quarters : Session :=
  mkSession [] [] [] [] [] [plan_1] [quarter_q1; quarter_q2] [] 100 1000.

(** A plan whose single quarter reports [actual] against [target]. *)
Definition one_quarter (target actual : Dec.Decimal) : Session :=
  mkSession [] [] [] [] [] [plan_1]
    [MPMQuarterlyData.mk 11 "Q1" target (Some actual) 1 1 None false] []
    100 1000.

(** The indicator of weight 30 with a recorded actual; the payload
    corrects the achievement to 90. *)
Definition bsc_actual_50 : BSCActual.t :=
  BSCActual.mk 21 "50" d_50 d_15 (Dec.of_str 60 0) (Dec.of_str 3 0)
    (Dec.of_str 3 0) 1 1 None false.

Definition bsc_30_recorded : Session :=
  mkSession [] [bsc_indicator_30] [bsc_actual_50] [] [] [] [] [] 100 1000.

Definition bsc_achievement_90 : BSC.BSCActualUpdate :=
  {| BSC.au_actual_value := Unset; BSC.au_achievement := Value d_90 |}.

End Examples.

(* ================================================================== *)
(** ** BaseRepository: deletion

    [delete] is called by every endpoint with [soft_delete=True]: the
    row stays in its table with [is_deleted] set and [updated_at]
    stamped.  What a table class gives it is that pair of assignments. *)

Class AuditMixin (T : Type) : Type := {
  mark_deleted : T -> datetime -> T }.

#[export] Instance Period_AuditMixin : AuditMixin Period.t := {|
  mark_deleted o now :=
    Period.mk (Period.id o) (Period.year o) (Period.period o)
      (Period.status o) (Period.created_at o) (Some now) true |}.

#[export] Instance BSCIndicator_AuditMixin : AuditMixin BSCIndicator.t := {|
  mark_deleted o now :=
    BSCIndicator.mk (BSCIndicator.id o) (BSCIndicator.code o)
      (BSCIndicator.kpi o) (BSCIndicator.perspective o)
      (BSCIndicator.weight o) (BSCIndicator.is_active o)
      (BSCIndicator.period_id o) (BSCIndicator.created_at o) (Some now)
      true |}.

#[export] Instance BSCActual_AuditMixin : AuditMixin BSCActual.t := {|
  mark_deleted o now :=
    BSCActual.mk (BSCActual.id o) (BSCActual.actual_value o)
      (BSCActual.achievement o) (BSCActual.score o)
      (BSCActual.active_weight o) (BSCActual.total_score o)
      (BSCActual.score_akhir o) (BSCActual.indicator_id o)
      (BSCActual.created_at o) (Some now) true |}.

#[export] Instance MPMIndicator_AuditMixin : AuditMixin MPMIndicator.t := {|
  mark_deleted o now :=
    MPMIndicator.mk (MPMIndicator.id o) (MPMIndicator.kpi o)
      (MPMIndicator.weight o) (MPMIndicator.kpi_number o)
      (MPMIndicator.perspective o) (MPMIndicator.is_active o)
      (MPMIndicator.period_id o) (MPMIndicator.created_at o) (Some now)
      true |}.

#[export] Instance MPMMonthlyTarget_AuditMixin
  : AuditMixin MPMMonthlyTarget.t := {|
  mark_deleted o now :=
    MPMMonthlyTarget.mk (MPMMonthlyTarget.id o) (MPMMonthlyTarget.month o)
      (MPMMonthlyTarget.target_value o) (MPMMonthlyTarget.indicator_id o)
      (MPMMonthlyTarget.created_at o) (Some now) true |}.

#[export] Instance MPMActionPlan_AuditMixin : AuditMixin MPMActionPlan.t := {|
  mark_deleted o now :=
    MPMActionPlan.mk (MPMActionPlan.id o) (MPMActionPlan.description o)
      (MPMActionPlan.status o) (MPMActionPlan.indicator_id o)
      (MPMActionPlan.created_at o) (Some now) true |}.

#[export] Instance MPMQuarterlyData_AuditMixin
  : AuditMixin MPMQuarterlyData.t := {|
  mark_deleted o now :=
    MPMQuarterlyData.mk (MPMQuarterlyData.id o) (MPMQuarterlyData.quarter o)
      (MPMQuarterlyData.target_value o) (MPMQuarterlyData.actual_value o)
      (MPMQuarterlyData.action_plan_id o) (MPMQuarterlyData.created_at o)
      (Some now) true |}.

#[export] Instance MPMActual_AuditMixin : AuditMixin MPMActual.t := {|
  mark_deleted o now :=
    MPMActual.mk (MPMActual.id o) (MPMActual.actual_value o)
      (MPMActual.achievement o) (MPMActual.score o)
      (MPMActual.indicator_id o) (MPMActual.created_at o) (Some now)
      true |}.

Section Delete.
Context {T : Type} `{Model T} `{AuditMixin T}.

(** [delete(id, soft_delete=True)] *)
Definition delete (id : UUID) : M T :=
  db_obj <- get_or_404 id ;;
  fun s =>
    let db_obj := mark_deleted db_obj (utcnow s) in
    (advance (set_table (merge db_obj (table s)) s), Ok db_obj).

End Delete.

(** What the repository takes for granted in a table class: a table is
    what was last stored in it, the clock and the identifier source are
    no table; construction gives the row its identifier and leaves it
    live; assignment of a payload, the [updated_at] stamp and the
    deletion mark keep the identifier. *)
Class ModelLaws (T : Type) `{Model T} : Prop := {
  table_set_table : forall l s, table (set_table l s) = l;
  table_advance : forall s, table (advance s) = table s }.

Class MappedLaws (T D : Type) `{Model T} `{Mapped T D} : Prop := {
  new_row_id : forall d i now o, new d i now = Some o -> row_id o = i;
  new_row_live : forall d i now o,
    new d i now = Some o -> row_is_deleted o = false;
  setattrs_row_id : forall o d o',
    setattrs o d = Some o' -> row_id o' = row_id o;
  setattrs_row_is_deleted : forall o d o',
    setattrs o d = Some o' -> row_is_deleted o' = row_is_deleted o;
  set_updated_at_row_id : forall o now,
    row_id (set_updated_at o now) = row_id o;
  set_updated_at_row_is_deleted : forall o now,
    row_is_deleted (set_updated_at o now) = row_is_deleted o }.

Class AuditLaws (T : Type) `{Model T} `{AuditMixin T} : Prop := {
  mark_deleted_row_id : forall o now, row_id (mark_deleted o now) = row_id o;
  mark_deleted_row_is_deleted : forall o now,
    row_is_deleted (mark_deleted o now) = true }.

(** The condition of [get]: the row has the identifier and is not
    deleted. *)
Definition live_at {T : Type} `{Model T} (id : UUID) (r : T) : bool :=
  (row_id r =? id) && negb (row_is_deleted r).

(* ================================================================== *)
(** ** Searching with pagination

    The search services read the session and write nothing; what they
    can raise comes from outside the repositories: PostgreSQL refuses a
    statement whose OFFSET or LIMIT is negative (SQLAlchemy's
    [DataError]), and the integer division of the page count raises
    [ZeroDivisionError]. *)

Module Paging.

Inductive error : Type := DataError | ZeroDivisionError.

Inductive outcome (A : Type) : Type :=
| Returns (a : A)
| Fails (e : error).
Arguments Returns {A} a.
Arguments Fails {A} e.

(** [statement.offset(skip).limit(limit)], run. *)
Definition offset_limit {A} (skip limit : Z) (rows : list A)
  : outcome (list A) :=
  if (skip <? 0) || (limit <? 0) then Fails DataError
  else Returns (firstn (Z.to_nat limit) (skipn (Z.to_nat skip) rows)).

(** The dictionary a [search_*] service returns. *)
Record Page (A : Type) : Type := mkPage {
  data : list A;
  total : Z;
  page : Z;
  page_size : Z;
  total_pages : Z }.
Arguments mkPage {A} data total page page_size total_pages.
Arguments data {A} p.
Arguments total {A} p.
Arguments page {A} p.
Arguments page_size {A} p.
Arguments total_pages {A} p.

(** [a // b] on integers. *)
Definition floordiv (a b : Z) : outcome Z :=
  if b =? 0 then Fails ZeroDivisionError else Returns (a / b).

End Paging.

Module BSCSearch.
Import Paging.

(** [col(code).contains(code)] renders as a LIKE on the value between
    two [%]: which codes it matches (case, and the wildcards the value
    may itself contain) is the database's; the test is a parameter. *)
Section Contains.
Variable contains : string -> string -> bool.

(** The statement [search] and [search_count] build: the rows not
    deleted, then one [where] per filter that is given ([if
    perspective], [if period_id], [if code], [if is_active is not
    None]). *)
Definition statement (perspective : option BSCPerspective)
  (period_id : option UUID) (code : option string) (is_active : option bool)
  (s : Session) : list BSCIndicator.t :=
  filter (fun r =>
      negb (BSCIndicator.is_deleted r)
      && match perspective with
         | Some p => BSCPerspective_eqb (BSCIndicator.perspective r) p
         | None => true
         end
      && match period_id with
         | Some p => BSCIndicator.period_id r =? p
         | None => true
         end
      && match code with
         | Some c =>
             if truthy c then contains (BSCIndicator.code r) c else true
         | None => true
         end
      && match is_active with
         | Some a => Bool.eqb (BSCIndicator.is_active r) a
         | None => true
         end)
    (bsc_indicator s).

(** [BSCIndicatorRepository.search].  The statement has no ORDER BY:
    the rows are cut in the order of one scan of the table, which the
    database need not repeat from one statement to the next; what is
    stated of a page below is its length and what each of its rows
    satisfies. *)
Definition search (perspective : option BSCPerspective)
  (period_id : option UUID) (code : option string) (is_active : option bool)
  (skip limit : Z) (s : Session) : outcome (list BSCIndicator.t) :=
  offset_limit skip limit (statement perspective period_id code is_active s).

(** [BSCIndicatorRepository.search_count] *)
Definition search_count (perspective : option BSCPerspective)
  (period_id : option UUID) (code : option string) (is_active : option bool)
  (s : Session) : Z :=
  Z.of_nat (List.length (statement perspective period_id code is_active s)).

(** [BSCIndicatorService.search_indicators] *)
Definition search_indicators (perspective : option BSCPerspective)
  (period_id : option UUID) (code : option string) (is_active : option bool)
  (page page_size : Z) (s : Session) : outcome (Page BSCIndicator.t) :=
  let skip := (page - 1) * page_size in
  match search perspective period_id code is_active skip page_size s with
  | Fails e => Fails e
  | Returns indicators =>
      let total := search_count perspective period_id code is_active s in
      match floordiv (total + page_size - 1) page_size with
      | Fails e => Fails e
      | Returns total_pages =>
          Returns (mkPage indicators total page page_size total_pages)
      end
  end.

End Contains.

End BSCSearch.

Module MPMSearch.
Import Paging.

Section Collation.
Variable collation :
  option MPMPerspective * option Z -> option MPMPerspective * option Z -> bool.

(** The [where]s of [search] and [search_count]. *)
Definition selected (perspective : option MPMPerspective)
  (period_id : option UUID) (is_active : option bool)
  (s : Session) : list MPMIndicator.t :=
  filter (fun r =>
      negb (MPMIndicator.is_deleted r)
      && match perspective with
         | Some p =>
             MPM.option_eqb MPMPerspective_eqb (MPMIndicator.perspective r)
               (Some p)
         | None => true
         end
      && match period_id with
         | Some p => MPMIndicator.period_id r =? p
         | None => true
         end
      && match is_active with
         | Some a => Bool.eqb (MPMIndicator.is_active r) a
         | None => true
         end)
    (mpm_indicator s).

(** [MPMIndicatorRepository.search]: ordered by perspective and KPI
    number, then cut.  Among rows of equal perspective and KPI number
    the order is that of one scan, which the database need not repeat
    from one statement to the next. *)
Definition search (perspective : option MPMPerspective)
  (period_id : option UUID) (is_active : option bool)
  (skip limit : Z) (s : Session) : outcome (list MPMIndicator.t) :=
  offset_limit skip limit
    (order_by
       (fun r => (MPMIndicator.perspective r, MPMIndicator.kpi_number r))
       collation (selected perspective period_id is_active s)).

(** [MPMIndicatorRepository.search_count]: no ORDER BY. *)
Definition search_count (perspective : option MPMPerspective)
  (period_id : option UUID) (is_active : option bool) (s : Session) : Z :=
  Z.of_nat (List.length (selected perspective period_id is_active s)).

(** [MPMIndicatorService.search_indicators] *)
Definition search_indicators (perspective : option MPMPerspective)
  (period_id : option UUID) (is_active : option bool)
  (page page_size : Z) (s : Session) : outcome (Page MPMIndicator.t) :=
  let skip := (page - 1) * page_size in
  match search perspective period_id is_active skip page_size s with
  | Fails e => Fails e
  | Returns indicators =>
      let total := search_count perspective period_id is_active s in
      match floordiv (total + page_size - 1) page_size with
      | Fails e => Fails e
      | Returns total_pages =>
          Returns (mkPage indicators total page page_size total_pages)
      end
  end.

End Collation.

End MPMSearch.

(** Page [page] of [rows], pages of [page_size] rows counted from 1. *)
Definition page_of {A} (rows : list A) (page page_size : Z) : list A :=
  firstn (Z.to_nat page_size)
    (skipn (Z.to_nat ((page - 1) * page_size)) rows).

(** The number of pages of [page_size] rows that [n] rows fill, the last
    one possibly in part. *)
Definition pages_for (n : nat) (page_size : Z) : Z :=
  (Z.of_nat n + page_size - 1) / page_size.

(* ================================================================== *)
(** ** BSC: the other reads of the repository, and the bulk import *)

Module BSCIndicatorRepository.

Definition get_by_perspective (perspective : BSCPerspective)
  (period_id : UUID) : M (list BSCIndicator.t) :=
  fun s =>
    (s, Ok (filter (fun r =>
              BSCPerspective_eqb (BSCIndicator.perspective r) perspective
              && (BSCIndicator.period_id r =? period_id)
              && negb (BSCIndicator.is_deleted r))
            (bsc_indicator s))).

(** The dictionary of [get_by_id_with_actuals]. *)
Record WithActuals : Type := {
  indicator : BSCIndicator.t;
  actuals : list BSCActual.t }.

Definition get_by_id_with_actuals (id : UUID) : M WithActuals :=
  indicator <- get_or_404 (T := BSCIndicator.t) id ;;
  fun s =>
    let actuals :=
      filter (fun r =>
          (BSCActual.indicator_id r =? id) && negb (BSCActual.is_deleted r))
        (bsc_actual s) in
    (s, Ok {| indicator := indicator; actuals := actuals |}).

End BSCIndicatorRepository.

(** [try: body except Exception: ...]: the exception is swallowed; what
    the body had committed stays. *)
Definition attempt {A} (body : M A) : M (option A) :=
  fun s =>
    match body s with
    | (s', Ok a) => (s', Ok (Some a))
    | (s', Raise _) => (s', Ok None)
    end.

Module BSCIndicatorService.

(** The body of the [try] in [bulk_import_indicators]: [None] when the
    item is skipped by [continue], the indicator when it is created. *)
Definition import_indicator (indicator_data : BSC.BSCIndicatorCreate)
  : M (option BSCIndicator.t) :=
  existing_indicator <-
    BSC.get_by_code (BSC.ic_code indicator_data)
      (BSC.ic_period_id indicator_data) ;;
  match existing_indicator with
  | Some _ => ret None
  | None =>
      indicator <- create (BSC.BSCIndicatorCreate_dict indicator_data) ;;
      ret (Some indicator)
  end.

(** [for indicator_data in bulk_import.indicators], with the list
    [created_indicators] built so far. *)
Fixpoint import_loop (indicators : list BSC.BSCIndicatorCreate)
  (created_indicators : list BSCIndicator.t) : M (list BSCIndicator.t) :=
  match indicators with
  | [] => ret created_indicators
  | indicator_data :: indicators =>
      r <- attempt (import_indicator indicator_data) ;;
      import_loop indicators
        (match r with
         | Some (Some indicator) => created_indicators ++ [indicator]
         | _ => created_indicators
         end)
  end.

Definition bulk_import_indicators (bulk_import : list BSC.BSCIndicatorCreate)
  : M (list BSCIndicator.t) :=
  import_loop bulk_import [].

End BSCIndicatorService.

(** A live BSC indicator of the session has the code in the period. *)
Definition bsc_has_code (s : Session) (code : string) (period_id : UUID)
  : Prop :=
  exists r, In r (bsc_indicator s)
            /\ BSCIndicator.is_deleted r = false
            /\ BSCIndicator.code r = code
            /\ BSCIndicator.period_id r = period_id.

(** The row [create] builds for an item of a batch, and the condition of
    [get_by_code] for the item. *)
Definition row_of (i : BSC.BSCIndicatorCreate) (s : Session) : BSCIndicator.t :=
  BSCIndicator.mk (uuid4 s) (BSC.ic_code i) (BSC.ic_kpi i)
    (BSC.ic_perspective i) (BSC.ic_weight i) true (BSC.ic_period_id i)
    (utcnow s) None false.

Definition keyed (i : BSC.BSCIndicatorCreate) (r : BSCIndicator.t) : bool :=
  (BSCIndicator.code r =? BSC.ic_code i)%string
  && (BSCIndicator.period_id r =? BSC.ic_period_id i)
  && negb (BSCIndicator.is_deleted r).

(** The periods the items of a batch refer to are rows of the table of
    periods.  The foreign key from an indicator to its period is the
    database's to enforce, at the INSERT; the tables above do not carry
    it, and what is stated of an import is stated for batches that
    satisfy it. *)
Definition periods_exist (s : Session) (batch : list BSC.BSCIndicatorCreate)
  : Prop :=
  forall i, In i batch -> In (BSC.ic_period_id i) (map Period.id (period s)).

(** The same for one period. *)
Definition period_exists (s : Session) (period_id : UUID) : Prop :=
  In period_id (map Period.id (period s)).

(** A number an INTEGER column holds.  The range of the column is the
    database's to enforce as well; what is stated of a stored
    [kpi_number] is stated for numbers within it. *)
Definition int4 (n : Z) : Prop := -2147483648 <= n <= 2147483647.

(** The row [create_quarterly_data] stores for a payload. *)
Definition quarterly_row (data_in : MPM.MPMQuarterlyDataCreate) (s : Session)
  : MPMQuarterlyData.t :=
  MPMQuarterlyData.mk (uuid4 s) (MPM.qc_quarter data_in)
    (MPM.qc_target_value data_in) (MPM.qc_actual_value data_in)
    (MPM.qc_action_plan_id data_in) (utcnow s) None false.

(** The plan is a row of the table that [get] no longer finds: it was
    deleted. *)
Definition plan_deleted (s : Session) (plan_id : UUID) : Prop :=
  In plan_id (map MPMActionPlan.id (mpm_action_plan s))
  /\ Spec.lookup (T := MPMActionPlan.t) s plan_id = None.

(** No two live quarterly data of one plan are of the same quarter. *)
Definition quarter_unique_in (rows : list MPMQuarterlyData.t) : Prop :=
  forall a b,
    In a rows -> In b rows ->
    MPMQuarterlyData.is_deleted a = false ->
    MPMQuarterlyData.is_deleted b = false ->
    MPMQuarterlyData.action_plan_id a = MPMQuarterlyData.action_plan_id b ->
    MPMQuarterlyData.quarter a = MPMQuarterlyData.quarter b ->
    MPMQuarterlyData.id a = MPMQuarterlyData.id b.

Definition quarter_unique (s : Session) : Prop :=
  quarter_unique_in (mpm_quarterly_data s).

(* ================================================================== *)
(** ** MPM: monthly targets *)

Module MonthlyTarget.

(** The dictionaries handed to [create] and [update] for a monthly
    target. *)
Record dict : Type := mkdict {
  d_month : field string;
  d_target_value : field Dec.Decimal;
  d_indicator_id : field UUID }.

Definition new (d : dict) (i : UUID) (now : datetime)
  : option MPMMonthlyTarget.t :=
  let? m := insert_not_null (d_month d) None in
  let? tv := insert_not_null (d_target_value d) None in
  let? iid := insert_not_null (d_indicator_id d) None in
  Some (MPMMonthlyTarget.mk i m tv iid now None false).

Definition setattrs (o : MPMMonthlyTarget.t) (d : dict)
  : option MPMMonthlyTarget.t :=
  let? m := set_not_null (d_month d) (MPMMonthlyTarget.month o) in
  let? tv := set_not_null (d_target_value d) (MPMMonthlyTarget.target_value o) in
  let? iid := set_not_null (d_indicator_id d) (MPMMonthlyTarget.indicator_id o) in
  Some (MPMMonthlyTarget.mk (MPMMonthlyTarget.id o) m tv iid
          (MPMMonthlyTarget.created_at o) (MPMMonthlyTarget.updated_at o)
          (MPMMonthlyTarget.is_deleted o)).

Definition set_updated_at (o : MPMMonthlyTarget.t) (now : datetime)
  : MPMMonthlyTarget.t :=
  MPMMonthlyTarget.mk (MPMMonthlyTarget.id o) (MPMMonthlyTarget.month o)
    (MPMMonthlyTarget.target_value o) (MPMMonthlyTarget.indicator_id o)
    (MPMMonthlyTarget.created_at o) (Some now)
    (MPMMonthlyTarget.is_deleted o).

#[global] Instance MPMMonthlyTarget_Mapped
  : Mapped MPMMonthlyTarget.t dict :=
  Build_Mapped MPMMonthlyTarget.t dict new setattrs set_updated_at.

(** [MPMMonthlyTargetCreate] *)
Record MPMMonthlyTargetCreate : Type := {
  tc_month : string;
  tc_target_value : Dec.Decimal;
  tc_indicator_id : UUID }.

(** [target_in.dict()] *)
Definition MPMMonthlyTargetCreate_dict (t : MPMMonthlyTargetCreate) : dict :=
  mkdict (Value (tc_month t)) (Value (tc_target_value t))
    (Value (tc_indicator_id t)).

(** [MPMMonthlyTargetUpdate]: the target value alone. *)
Record MPMMonthlyTargetUpdate : Type := {
  tu_target_value : field Dec.Decimal }.

(** [target_in.dict(exclude_unset=True)] *)
Definition MPMMonthlyTargetUpdate_dict (u : MPMMonthlyTargetUpdate) : dict :=
  mkdict Unset (tu_target_value u) Unset.

(** [MPMMonthlyTargetRepository.get_by_month] *)
Definition get_by_month (indicator_id : UUID) (month : string)
  : M (option MPMMonthlyTarget.t) :=
  fun s =>
    (s, Ok (first (filter (fun r =>
                     (MPMMonthlyTarget.indicator_id r =? indicator_id)
                     && (MPMMonthlyTarget.month r =? month)%string
                     && negb (MPMMonthlyTarget.is_deleted r))
                   (mpm_monthly_target s)))).

(** [MPMMonthlyTargetService.create_monthly_target] *)
Definition create_monthly_target (target_in : MPMMonthlyTargetCreate)
  : M MPMMonthlyTarget.t :=
  existing_target <-
    get_by_month (tc_indicator_id target_in) (tc_month target_in) ;;
  match existing_target with
  | Some _ => raise (HTTPException HTTP_400_BAD_REQUEST)
  | None => create (MPMMonthlyTargetCreate_dict target_in)
  end.

(** [MPMMonthlyTargetService.update_monthly_target] *)
Definition update_monthly_target (target_id : UUID)
  (target_in : MPMMonthlyTargetUpdate) : M MPMMonthlyTarget.t :=
  db_target <- get_or_404 (T := MPMMonthlyTarget.t) target_id ;;
  update db_target (MPMMonthlyTargetUpdate_dict target_in).

End MonthlyTarget.

(** No two live monthly targets of one indicator are of the same
    month. *)
Definition month_unique (s : Session) : Prop :=
  forall a b,
    In a (mpm_monthly_target s) -> In b (mpm_monthly_target s) ->
    MPMMonthlyTarget.is_deleted a = false ->
    MPMMonthlyTarget.is_deleted b = false ->
    MPMMonthlyTarget.indicator_id a = MPMMonthlyTarget.indicator_id b ->
    MPMMonthlyTarget.month a = MPMMonthlyTarget.month b ->
    MPMMonthlyTarget.id a = MPMMonthlyTarget.id b.

(** The live monthly targets of an indicator, as the dashboard reads
    them. *)
Definition live_targets (s : Session) (indicator : MPMIndicator.t)
  : list MPMMonthlyTarget.t :=
  filter (fun r =>
      (MPMMonthlyTarget.indicator_id r =? MPMIndicator.id indicator)
      && negb (MPMMonthlyTarget.is_deleted r))
    (mpm_monthly_target s).

(* ================================================================== *)
(** ** Periods: the generic update *)

Module PeriodOps.

(** The dictionary of a period: of the fields of [PeriodUpdate], those
    whose columns the row type carries. *)
Record dict : Type := mkdict {
  d_year : field Z;
  d_period : field string;
  d_status : field PeriodStatus }.

Definition new (d : dict) (i : UUID) (now : datetime) : option Period.t :=
  let? y := insert_not_null (d_year d) None in
  let? p := insert_not_null (d_period d) None in
  let? st := insert_not_null (d_status d) (Some DRAFT) in
  Some (Period.mk i y p st now None false).

Definition setattrs (o : Period.t) (d : dict) : option Period.t :=
  let? y := set_not_null (d_year d) (Period.year o) in
  let? p := set_not_null (d_period d) (Period.period o) in
  let? st := set_not_null (d_status d) (Period.status o) in
  Some (Period.mk (Period.id o) y p st (Period.created_at o)
          (Period.updated_at o) (Period.is_deleted o)).

Definition set_updated_at (o : Period.t) (now : datetime) : Period.t :=
  Period.mk (Period.id o) (Period.year o) (Period.period o) (Period.status o)
    (Period.created_at o) (Some now) (Period.is_deleted o).

#[global] Instance Period_Mapped : Mapped Period.t dict :=
  Build_Mapped Period.t dict new setattrs set_updated_at.

End PeriodOps.

(** [BaseService]: the calls the routers make on a service that has no
    method of its own for them. *)
Module BaseService.

Section Service.
Context {T D : Type} `{Model T} `{Mapped T D}.

(** [BaseService.update]: look the row up, hand it to the repository. *)
Definition update (id : UUID) (obj_in : D) : M T :=
  db_obj <- get_or_404 id ;;
  update db_obj obj_in.

End Service.

End BaseService.

(* ================================================================== *)
(** ** Sums of decimals as numbers *)

(** The coefficient of [d] written on the exponent [e], for [e] not
    above the exponent of [d]. *)
Definition aligned (e : Z) (d : Dec.Decimal) : Z :=
  Dec.dint d * 10 ^ (Dec.dexp d - e).

(** The decimals of [l] are non-negative, none has an exponent below
    [e], and their sum written on the exponent [e] has at most [prec]
    digits. *)
Definition sum_fits (e : Z) (l : list Dec.Decimal) : Prop :=
  e <= 0
  /\ (forall x, In x l ->
        Dec.dsign x = false /\ 0 <= Dec.dint x /\ e <= Dec.dexp x)
  /\ fold_right Z.add 0 (map (aligned e) l) < 10 ^ Dec.prec.

(** The sum of the numbers the decimals of [l] denote. *)
Definition Qsum (l : list Dec.Decimal) : Q :=
  fold_right Qplus 0%Q (map Dec.value l).

(* ================================================================== *)
(** ** Dashboard sums, in the words of the specification

    What the specification says of the sums of a bucket, stated on the
    output of the dashboard and on the table of actuals, not on the
    statements the code runs. *)

Module DashboardSpec.

(** [total] is the sum of the decimals of [l], as a number, when these
    are non-negative and their sum fits the precision, within the
    exponent range of the context. *)
Definition sums_to (total : Dec.Decimal) (l : list Dec.Decimal) : Prop :=
  forall e, Dec.Etiny <= e -> sum_fits e l -> (Dec.value total == Qsum l)%Q.

(** The indicator has at least one actual: a row of the table of
    actuals that is not deleted carries its identifier. *)
Definition bsc_has_actual (s : Session) (i : BSCIndicator.t) : Prop :=
  exists a,
    In a (bsc_actual s)
    /\ BSCActual.indicator_id a = BSCIndicator.id i
    /\ BSCActual.is_deleted a = false.

Definition mpm_has_actual (s : Session) (i : MPMIndicator.t) : Prop :=
  exists a,
    In a (mpm_actual s)
    /\ MPMActual.indicator_id a = MPMIndicator.id i
    /\ MPMActual.is_deleted a = false.

(** An item carries an actual exactly when its indicator has one, and
    the actual it carries is one of them. *)
Definition bsc_item_paired (s : Session) (item : BSC.Item) : Prop :=
  match BSC.actual item with
  | None => ~ bsc_has_actual s (BSC.indicator item)
  | Some a =>
      In a (bsc_actual s)
      /\ BSCActual.indicator_id a = BSCIndicator.id (BSC.indicator item)
      /\ BSCActual.is_deleted a = false
  end.

Definition mpm_item_paired (s : Session) (item : MPM.Item) : Prop :=
  match MPM.actual item with
  | None => ~ mpm_has_actual s (MPM.indicator item)
  | Some a =>
      In a (mpm_actual s)
      /\ MPMActual.indicator_id a = MPMIndicator.id (MPM.indicator item)
      /\ MPMActual.is_deleted a = false
  end.

(** The actuals of the items that carry one. *)
Definition bsc_item_actuals (items : list BSC.Item) : list BSCActual.t :=
  flat_map (fun item => match BSC.actual item with
                        | Some a => [a]
                        | None => []
                        end) items.

Definition mpm_item_actuals (items : list MPM.Item) : list MPMActual.t :=
  flat_map (fun item => match MPM.actual item with
                        | Some a => [a]
                        | None => []
                        end) items.

(** The sums [t] are those of the items: the weights of all of them,
    the scores of the actuals of those that carry one. *)
Definition bsc_sums_of (items : list BSC.Item) (t : BSC.Totals) : Prop :=
  sums_to (BSC.total_weight t)
    (map (fun item => BSCIndicator.weight (BSC.indicator item)) items)
  /\ sums_to (BSC.total_score t)
       (map BSCActual.score (bsc_item_actuals items))
  /\ sums_to (BSC.total_active_weight t)
       (map BSCActual.active_weight (bsc_item_actuals items))
  /\ sums_to (BSC.total_score_akhir t)
       (map BSCActual.score_akhir (bsc_item_actuals items)).

Definition mpm_sums_of (items : list MPM.Item) (t : MPM.Totals) : Prop :=
  sums_to (MPM.total_weight t)
    (map (fun item => MPMIndicator.weight (MPM.indicator item)) items)
  /\ sums_to (MPM.total_score t)
       (map MPMActual.score (mpm_item_actuals items)).

(** The items of a dashboard, over all its buckets. *)
Definition bsc_dashboard_items (d : BSC.Dashboard) : list BSC.Item :=
  flat_map (fun pg => BSC.items (snd pg)) (BSC.perspectives d).

Definition mpm_dashboard_items (d : MPM.Dashboard) : list MPM.Item :=
  flat_map (fun pg => MPM.items (snd pg)) (MPM.perspectives d).

End DashboardSpec.

(* ================================================================== *)
(** ** The period router

    An endpoint checks the roles of the caller, then runs the service
    inside [try]: an HTTPException passes, any other exception becomes
    HTTP 500.  The caller is the dictionary [get_current_user] builds
    from the payload of the token: its ["id"] is the subject of the
    token, a string, and its ["roles"] is whatever JSON value the
    payload carries under that name, the empty list when it carries
    none. *)

Module PeriodAPI.

Definition HTTP_403_FORBIDDEN : Z := 403.
Definition HTTP_500_INTERNAL_SERVER_ERROR : Z := 500.

(** A JSON value as [jwt.decode] returns it, as far as the test of a
    role looks into it: numbers are not told apart, a list is given by
    its elements, each a string or some other value ([None]), and a
    dictionary by its keys. *)
Inductive json : Type :=
| JNull
| JBool (b : bool)
| JNumber
| JString (s : string)
| JArray (l : list (option string))
| JObject (keys : list string).

(** The dictionary of [get_current_user], by its keys ["id"] and
    ["roles"]. *)
Record CurrentUser : Type := {
  user_id : string;
  user_roles : json }.

(** [sub in s] on strings. *)
Fixpoint is_substring (sub s : string) : bool :=
  String.prefix sub s
  || match s with
     | EmptyString => false
     | String _ s' => is_substring sub s'
     end.

(** [role in roles], for the string [role]: an element equal to it in a
    list, a key in a dictionary, a substring in a string; [None] is the
    TypeError of a value that is no container. *)
Definition contains_role (role : string) (roles : json) : option bool :=
  match roles with
  | JArray l =>
      Some (existsb (fun v => match v with
                              | Some s => String.eqb s role
                              | None => false
                              end) l)
  | JObject keys => Some (existsb (fun k => String.eqb k role) keys)
  | JString s => Some (is_substring role s)
  | JNull | JBool _ | JNumber => None
  end.

(** [role not in current_user["roles"]] *)
Definition not_in (role : string) (roles : json) : M bool :=
  match contains_role role roles with
  | Some b => ret (negb b)
  | None => raise TypeError
  end.

(** [try: body / except HTTPException as e: raise e / except Exception:
    raise HTTPException(500)] *)
Definition guarded {A} (body : M A) : M A :=
  fun s =>
    match body s with
    | (s', Ok a) => (s', Ok a)
    | (s', Raise (HTTPException code)) => (s', Raise (HTTPException code))
    | (s', Raise _) =>
        (s', Raise (HTTPException HTTP_500_INTERNAL_SERVER_ERROR))
    end.

(** [UUID(text)]: which texts denote a UUID is the library's; the
    conversion is a parameter, [None] standing for its ValueError. *)
Section UUIDOfText.
Variable UUID_of_text : string -> option UUID.

Definition to_UUID (text : string) : M UUID :=
  match UUID_of_text text with
  | Some u => ret u
  | None => raise ValueError
  end.

(** PATCH /periods/{period_id}/status.  The roles are tested before the
    [try]; the identifier of the caller is converted inside it, before
    the service is called, for the audit column. *)
Definition update_period_status (current_user : CurrentUser)
  (period_id : UUID) (status_update : PeriodStatus) : M Period.t :=
  no_admin <- not_in "admin" (user_roles current_user) ;;
  forbidden <-
    (if no_admin then not_in "manager" (user_roles current_user)
     else ret false) ;;
  if forbidden then raise (HTTPException HTTP_403_FORBIDDEN)
  else
    guarded (updated_by <- to_UUID (user_id current_user) ;;
             PeriodRepository.update_status period_id status_update).

End UUIDOfText.

(** The caller may update periods: ["admin"] or ["manager"] is in the
    roles. *)
Definition may_update (current_user : CurrentUser) : Prop :=
  contains_role "admin" (user_roles current_user) = Some true
  \/ (contains_role "admin" (user_roles current_user) = Some false
      /\ contains_role "manager" (user_roles current_user) = Some true).

End PeriodAPI.

(* ================================================================== *)
(** ** Further sessions and payloads *)

Module Scenarios.
Import Examples.

(** A dictionary for a BSC actual with every column given, and one whose
    achievement is [None]. *)
Definition actual_dict : BSCActual.dict :=
  BSCActual.mkdict (Value "90"%string) (Value d_90) (Value d_30)
    (Value d_40) (Value d_2) (Value d_2) (Value 1).

Definition actual_dict_null : BSCActual.dict :=
  BSCActual.mkdict (Value "90"%string) Null (Value d_30)
    (Value d_40) (Value d_2) (Value d_2) (Value 1).

(** The payload [{"code": null}] for a BSC indicator. *)
Definition code_null : BSC.BSCIndicatorUpdate :=
  BSCIndicator.mkdict Null Unset Unset Unset Unset Unset.

(** A reading of [contains] for the examples: the value occurs in the
    code as it is written. *)
Definition infix (code value : string) : bool :=
  match index 0 value code with Some _ => true | None => false end.

(** Period 10 holds the indicator F1; the batch brings F1 again and F2
    twice. *)
Definition period_10 : Period.t := Period.mk 10 2025 "1" ACTIVE 0 None false.

Definition bsc_in_period_10 : Session :=
  mkSession [period_10] [bsc_i1] [] [] [] [] [] [] 100 1000.

Definition item_f1 : BSC.BSCIndicatorCreate :=
  {| BSC.ic_perspective := BSC_FINANCIAL;
     BSC.ic_code := "F1";
     BSC.ic_kpi := "Revenue";
     BSC.ic_weight := d_20;
     BSC.ic_period_id := 10 |}.

Definition item_f2 : BSC.BSCIndicatorCreate :=
  {| BSC.ic_perspective := BSC_FINANCIAL;
     BSC.ic_code := "F2";
     BSC.ic_kpi := "Margin";
     BSC.ic_weight := d_30;
     BSC.ic_period_id := 10 |}.

Definition batch : list BSC.BSCIndicatorCreate := [item_f1; item_f2; item_f2].

(** A third KPI for the Financial perspective of period 10, sent with
    the number 7, and a KPI without perspective sent with the number 7. *)
Definition mpm_third_kpi : MPM.MPMIndicatorCreate :=
  {| MPM.ic_kpi := "Cash flow";
     MPM.ic_weight := d_10;
     MPM.ic_kpi_number := Some 7;
     MPM.ic_perspective := Some FINANCIAL;
     MPM.ic_period_id := 10 |}.

(** The MPM dashboard scenario with its period. *)
Definition mpm_in_period_10 : Session :=
  mkSession [period_10] [] [] [mpm_i1; mpm_i2] [] [] [] [mpm_a1] 100 1000.

Definition mpm_unfiled_kpi : MPM.MPMIndicatorCreate :=
  {| MPM.ic_kpi := "Audit findings";
     MPM.ic_weight := d_10;
     MPM.ic_kpi_number := Some 7;
     MPM.ic_perspective := None;
     MPM.ic_period_id := 10 |}.

(** The second quarter of plan 1 reported on target, and the first
    quarter corrected to the target. *)
Definition q2_on_target : MPM.MPMQuarterlyDataCreate :=
  {| MPM.qc_quarter := "Q2";
     MPM.qc_target_value := d_100;
     MPM.qc_actual_value := Some d_100;
     MPM.qc_action_plan_id := 1 |}.

Definition actual_100 : MPM.MPMQuarterlyDataUpdate :=
  {| MPM.qu_target_value := Unset; MPM.qu_actual_value := Value d_100 |}.

(** The same plan, deleted, with its quarter still stored; and a second
    quarter sent without actual value. *)
Definition plan_1_deleted : MPMActionPlan.t :=
  MPMActionPlan.mk 1 "Open two branches" AT_RISK 5 0 (Some 3) true.

Definition deleted_plan : Session :=
  mkSession [] [] [] [] [] [plan_1_deleted] [quarter_1] [] 100 1000.

Definition q2_planned : MPM.MPMQuarterlyDataCreate :=
  {| MPM.qc_quarter := "Q2";
     MPM.qc_target_value := d_100;
     MPM.qc_actual_value := None;
     MPM.qc_action_plan_id := 1 |}.

(** Payloads that rename: the code F9 for a BSC indicator, the KPI name
    Revenue for an MPM indicator. *)
Definition code_f9 : BSC.BSCIndicatorUpdate :=
  BSCIndicator.mkdict (Value "F9"%string) Unset Unset Unset Unset Unset.

Definition kpi_revenue : MPM.MPMIndicatorUpdate :=
  {| MPM.iu_kpi := Value "Revenue"%string; MPM.iu_weight := Unset;
     MPM.iu_kpi_number := Unset; MPM.iu_perspective := Unset;
     MPM.iu_is_active := Unset |}.

(** An MPM indicator with the targets of January and February; the
    payloads add March and change a target value. *)
Definition jan_25 : MPMMonthlyTarget.t :=
  MPMMonthlyTarget.mk 31 "Jan-25" d_10 1 0 None false.
Definition feb_25 : MPMMonthlyTarget.t :=
  MPMMonthlyTarget.mk 32 "Feb-25" d_20 1 0 None false.

Definition mpm_with_targets : Session :=
  mkSession [] [] [] [mpm_i1] [jan_25; feb_25] [] [] [] 100 1000.

Definition mar_25 : MonthlyTarget.MPMMonthlyTargetCreate :=
  {| MonthlyTarget.tc_month := "Mar-25";
     MonthlyTarget.tc_target_value := d_30;
     MonthlyTarget.tc_indicator_id := 1 |}.

Definition target_40 : MonthlyTarget.MPMMonthlyTargetUpdate :=
  {| MonthlyTarget.tu_target_value := Value d_40 |}.

(** Period 10 with two BSC indicators of one perspective, of weights
    99.99999999999999999999999999 and 0.000000000000000000000000000001
    (both between 0 and 100), without actuals. *)
Definition bsc_long_weight : BSCIndicator.t :=
  BSCIndicator.mk 1 "F1" "Revenue" BSC_FINANCIAL
    (Dec.of_str 9999999999999999999999999999 (-26)) true 10 0 None false.
Definition bsc_tiny_weight : BSCIndicator.t :=
  BSCIndicator.mk 2 "F2" "Margin" BSC_FINANCIAL
    (Dec.of_str 1 (-30)) true 10 0 None false.

Definition bsc_long_weights : Session :=
  mkSession [] [bsc_long_weight; bsc_tiny_weight] [] [] [] [] [] [] 100 1000.


(** Payloads whose achievement is sent as the text [1E+1000001]
    (BSC) and [1E+999999] (MPM): finite decimals, as the schemas ask. *)
Definition bsc_actual_in_huge : BSC.BSCActualCreate :=
  {| BSC.ac_actual_value := "1E+1000001";
     BSC.ac_achievement := Dec.of_str 1 1000001;
     BSC.ac_indicator_id := 1 |}.

Definition mpm_actual_in_huge : MPM.MPMActualCreate :=
  {| MPM.ac_actual_value := Dec.of_str 1 999999;
     MPM.ac_achievement := Dec.of_str 1 999999;
     MPM.ac_indicator_id := 1 |}.

(** Callers of the period router.  The conversion of the examples
    reads a UUID off a one-digit text. *)
Definition UUID_of_digit (text : string) : option UUID :=
  match text with
  | String c EmptyString =>
      let n := Z.of_nat (Ascii.nat_of_ascii c) - 48 in
      if (0 <=? n) && (n <=? 9) then Some n else None
  | _ => None
  end.

Definition staff : PeriodAPI.CurrentUser :=
  {| PeriodAPI.user_id := "5";
     PeriodAPI.user_roles := PeriodAPI.JArray [Some "staff"%string] |}.

Definition admin : PeriodAPI.CurrentUser :=
  {| PeriodAPI.user_id := "5";
     PeriodAPI.user_roles := PeriodAPI.JArray [Some "admin"%string] |}.

Definition manager : PeriodAPI.CurrentUser :=
  {| PeriodAPI.user_id := "5";
     PeriodAPI.user_roles :=
       PeriodAPI.JArray [Some "staff"%string; Some "manager"%string] |}.

(** An administrator whose token names a login, not a UUID, and a caller
    whose token carries [null] for the roles. *)
Definition named_admin : PeriodAPI.CurrentUser :=
  {| PeriodAPI.user_id := "alice";
     PeriodAPI.user_roles := PeriodAPI.JArray [Some "admin"%string] |}.

Definition no_roles : PeriodAPI.CurrentUser :=
  {| PeriodAPI.user_id := "5"; PeriodAPI.user_roles := PeriodAPI.JNull |}.

End Scenarios.

(* ================================================================== *)
(** * Properties *)

(** ** Decimal arithmetic: when a result is exact *)

Module DecFacts.
Import Dec.

Lemma len_aux_pos (fuel : nat) (n : Z) : 1 <= len_aux fuel n.
Proof.
  revert n; induction fuel as [|f IH]; intros n; cbn [len_aux].
  - lia.
  - destruct (n <? 10); [lia|]. specialize (IH (n / 10)). lia.
Qed.

Lemma len_aux_bounds (fuel : nat) :
  forall n, 0 < n -> n < 10 ^ (Z.of_nat fuel + 1) ->
  10 ^ (len_aux fuel n - 1) <= n < 10 ^ len_aux fuel n.
Proof.
  induction fuel as [|f IH]; intros n Hpos Hlt.
  - cbn [len_aux]. change (Z.of_nat 0 + 1) with 1 in Hlt.
    change (10 ^ (1 - 1)) with 1. lia.
  - cbn [len_aux]. destruct (Z.ltb_spec n 10) as [Hs|Hb].
    + change (10 ^ (1 - 1)) with 1. lia.
    + assert (Hq : 0 < n / 10) by (apply Z.div_str_pos; lia).
      assert (Hqlt : n / 10 < 10 ^ (Z.of_nat f + 1)).
      { apply Z.div_lt_upper_bound; [lia|].
        replace (Z.of_nat (S f) + 1) with (Z.succ (Z.of_nat f + 1)) in Hlt by lia.
        rewrite Z.pow_succ_r in Hlt by lia. exact Hlt. }
      specialize (IH _ Hq Hqlt).
      pose proof (len_aux_pos f (n / 10)) as Hl.
      set (L := len_aux f (n / 10)) in *.
      replace (1 + L - 1) with (Z.succ (L - 1)) by lia.
      replace (1 + L) with (Z.succ L) by lia.
      rewrite !Z.pow_succ_r by lia.
      pose proof (Z.div_mod n 10 ltac:(lia)) as Hdm.
      pose proof (Z.mod_pos_bound n 10 ltac:(lia)) as Hm.
      lia.
Qed.

(** A positive [n] has [len n] digits: [10^(len n - 1) <= n < 10^(len n)]. *)
Lemma len_bounds (n : Z) :
  0 < n -> 10 ^ (len n - 1) <= n < 10 ^ len n.
Proof.
  intros Hpos. unfold len. apply len_aux_bounds; [exact Hpos|].
  rewrite Z2Nat.id by apply Z.log2_nonneg.
  destruct (Z.log2_spec n Hpos) as [_ Hlt].
  eapply Z.lt_le_trans; [exact Hlt|].
  replace (Z.log2 n + 1) with (Z.succ (Z.log2 n)) by lia.
  apply Z.pow_le_mono_l. lia.
Qed.

Lemma len_pos (n : Z) : 1 <= len n.
Proof. apply len_aux_pos. Qed.

Lemma len_le_iff (n k : Z) : 0 < n -> 0 <= k -> (len n <= k <-> n < 10 ^ k).
Proof.
  intros Hn Hk. pose proof (len_bounds n Hn) as [Hlo Hhi].
  pose proof (len_pos n) as Hl. split; intros H.
  - eapply Z.lt_le_trans; [exact Hhi|]. apply Z.pow_le_mono_r; lia.
  - destruct (Z.le_gt_cases (len n) k) as [|Hgt]; [assumption|].
    assert (10 ^ k <= 10 ^ (len n - 1)) by (apply Z.pow_le_mono_r; lia).
    lia.
Qed.

Lemma len_mono (a b : Z) : 0 < a -> a <= b -> len a <= len b.
Proof.
  intros Ha Hab. pose proof (len_pos b).
  apply len_le_iff; [lia|lia|].
  pose proof (len_bounds b ltac:(lia)). lia.
Qed.

(** [_fix] leaves a coefficient of at most [prec] digits alone. *)
Lemma fix_exact (d : Decimal) : len (dint d) <= prec -> fix_ d = d.
Proof.
  intros H. unfold fix_. destruct (dint d =? 0); [reflexivity|].
  destruct (Z.ltb_spec (dexp d) (len (dint d) + dexp d - prec)); [lia|reflexivity].
Qed.

Lemma len_nonpos (n : Z) : n <= 0 -> len n = 1.
Proof.
  intros H. unfold len. rewrite Z.log2_nonpos by exact H. reflexivity.
Qed.

Lemma strip_inv (fuel : nat) :
  forall c e ideal c' e',
  strip fuel c e ideal = (c', e') -> e <= e' /\ c = c' * 10 ^ (e' - e).
Proof.
  induction fuel as [|f IH]; intros c e ideal c' e' Hs; cbn [strip] in Hs.
  - injection Hs as <- <-. rewrite Z.sub_diag. cbn. lia.
  - destruct ((e <? ideal) && (c mod 10 =? 0)) eqn:Hc.
    + apply andb_prop in Hc as [_ Hm]. apply Z.eqb_eq in Hm.
      apply IH in Hs as [Hle Heq].
      split; [lia|].
      replace (e' - e) with (Z.succ (e' - (e + 1))) by lia.
      rewrite Z.pow_succ_r by lia.
      pose proof (Z.div_mod c 10 ltac:(lia)). lia.
    + injection Hs as <- <-. rewrite Z.sub_diag. cbn. lia.
Qed.

Lemma strip_zeros (k : nat) :
  forall fuel c e ideal,
  (k <= fuel)%nat -> e + Z.of_nat k <= ideal ->
  strip fuel (c * 10 ^ Z.of_nat k) e ideal
  = strip (fuel - k) c (e + Z.of_nat k) ideal.
Proof.
  induction k as [|k IH]; intros fuel c e ideal Hk He.
  - cbn [Z.of_nat]. rewrite Z.pow_0_r, Z.mul_1_r, Z.add_0_r, Nat.sub_0_r.
    reflexivity.
  - destruct fuel as [|f]; [lia|]. cbn [strip Nat.sub].
    rewrite Nat2Z.inj_succ, Z.pow_succ_r by lia.
    replace (c * (10 * 10 ^ Z.of_nat k)) with (c * 10 ^ Z.of_nat k * 10) by ring.
    rewrite Z.mod_mul by lia. rewrite Z.div_mul by lia.
    destruct (Z.ltb_spec e ideal); [|lia]. cbn [andb Z.eqb].
    rewrite IH by lia. f_equal. lia.
Qed.

Lemma ten_neq_0 : ~ (inject_Z 10 == 0)%Q.
Proof. discriminate. Qed.

(** Trailing zeros of the coefficient and the exponent trade places. *)
Lemma value_scale (s : bool) (c e k : Z) :
  0 <= k -> (value (mk s (c * 10 ^ k) e) == value (mk s c (e + k)))%Q.
Proof.
  intros Hk. unfold value, sint. cbn [dsign dint dexp].
  rewrite Qpower_plus by exact ten_neq_0.
  rewrite <- (Zpower_Qpower 10 k Hk).
  destruct s; rewrite ?Z.mul_opp_l, ?inject_Z_opp, !inject_Z_mult; ring.
Qed.




Lemma strip_le_ideal (fuel : nat) :
  forall c e ideal c' e',
  e <= ideal -> strip fuel c e ideal = (c', e') -> e' <= ideal.
Proof.
  induction fuel as [|f IH]; intros c e ideal c' e' He Hs; cbn [strip] in Hs.
  - injection Hs as <- <-. exact He.
  - destruct (Z.ltb_spec e ideal) as [Hlt|Hge]; cbn [andb] in Hs.
    + destruct (c mod 10 =? 0).
      * apply IH in Hs; [exact Hs|lia].
      * injection Hs as <- <-. exact He.
    + injection Hs as <- <-. exact He.
Qed.

(** The quotient of a decimal of at most [prec] digits by [Decimal(100)],
    before [_fix]: it denotes the hundredth exactly, on an exponent lower
    by two at most, and its coefficient is no longer. *)
Lemma quotient_100 (d : Decimal) :
  len (dint d) <= prec ->
  len (dint (quotient d (of_int 100))) <= len (dint d)
  /\ dexp d - 2 <= dexp (quotient d (of_int 100)) <= dexp d
  /\ (value (quotient d (of_int 100)) == value d / inject_Z 100)%Q.
Proof.
  intros Hlen. unfold quotient.
  change (dint (of_int 100)) with 100. change (dexp (of_int 100)) with 0.
  change (dsign (of_int 100)) with false. rewrite xorb_false_r.
  destruct (Z.eqb_spec (dint d) 0) as [Hz|Hnz].
  - cbn [dint dexp]. rewrite Hz. split; [lia|]. split; [lia|].
    unfold value, sint. cbn [dsign dint dexp]. rewrite Hz.
    replace (dexp d - 0) with (dexp d) by lia.
    destruct (dsign d); cbn [Z.opp]; unfold Qdiv; ring.
  - change (len 100) with 3. pose proof (len_pos (dint d)) as Hl1.
    unfold prec in *.
    set (shift := 3 - len (dint d) + 28 + 1).
    assert (Hshift : 4 <= shift) by (unfold shift; lia).
    destruct (Z.leb_spec 0 shift) as [_|]; [|lia].
    assert (Hnum : dint d * 10 ^ shift = dint d * 10 ^ (shift - 2) * 100).
    { replace shift with (shift - 2 + 2) at 1 by lia.
      rewrite Z.pow_add_r by lia. change (10 ^ 2) with 100. ring. }
    rewrite Hnum, Z.mod_mul, Z.div_mul by lia. cbn [Z.eqb].
    replace (dexp d - 0 - (dexp d - 0 - shift)) with shift by lia.
    replace (10 ^ (shift - 2)) with (10 ^ Z.of_nat (Z.to_nat (shift - 2)))
      by (rewrite Z2Nat.id; [reflexivity|lia]).
    rewrite strip_zeros by lia.
    rewrite Z2Nat.id by lia.
    destruct (strip _ (dint d) _ _) as [c' e'] eqn:Hs.
    assert (Hideal : e' <= dexp d - 0)
      by (eapply strip_le_ideal; [|exact Hs]; lia).
    apply strip_inv in Hs as [Hle Heq].
    replace (dexp d - 0 - shift + (shift - 2)) with (dexp d - 2) in * by lia.
    set (j := e' - (dexp d - 2)) in *.
    pose proof (Z.pow_pos_nonneg 10 j ltac:(lia) ltac:(lia)) as Hpow.
    cbn [dint dexp].
    split.
    { destruct (Z.le_gt_cases c' 0) as [Hn|Hp].
      - rewrite len_nonpos by exact Hn. lia.
      - apply len_mono; [lia|]. nia. }
    split; [lia|].
    destruct d as [s c e]; cbn [dsign dint dexp] in *.
    rewrite Heq. rewrite value_scale by lia.
    replace (e + j) with (e' + 2) by lia.
    unfold value. cbn [dsign dint dexp].
    rewrite Qpower_plus by exact ten_neq_0.
    change (inject_Z 10 ^ 2)%Q with (inject_Z 100).
    unfold sint; cbn [dsign dint].
    generalize (inject_Z 10 ^ e')%Q (inject_Z (if s then - c' else c')).
    intros p x. field.
Qed.

(** *** At the exponent limits *)




(** Between the exponent limits [_fix] is the rounding to [prec]
    digits. *)
Lemma fix_between_limits (d : Decimal) :
  Etiny <= dexp d -> len (dint d) + dexp d <= Emax ->
  fix_ctx d = Finite (fix_ d).
Proof.
  intros Hlo Hhi. unfold fix_ctx, fix_.
  destruct (Z.eqb_spec (dint d) 0) as [Hz|Hnz].
  - rewrite Hz, len_nonpos in Hhi by lia.
    destruct d as [s c e]; cbn [dsign dint dexp] in *. subst c.
    do 2 f_equal. lia.
  - unfold Etop. set (exp_min := len (dint d) + dexp d - prec).
    destruct (Z.ltb_spec (Emax - prec + 1) exp_min);
      [unfold exp_min in *; lia|].
    destruct (Z.ltb_spec (dexp d) exp_min) as [Hr|Hr].
    + replace (Z.max exp_min Etiny) with exp_min by lia.
      destruct (Z.ltb_spec (dexp d) exp_min); [|lia].
      destruct (prec <? len (round_half_even (dint d) (exp_min - dexp d))).
      * destruct (Z.ltb_spec (Emax - prec + 1) (exp_min + 1));
          [unfold exp_min in *; lia|reflexivity].
      * destruct (Z.ltb_spec (Emax - prec + 1) exp_min);
          [lia|reflexivity].
    + destruct (Z.ltb_spec (dexp d) (Z.max exp_min Etiny)); [lia|].
      reflexivity.
Qed.

(** A product between the exponent limits is the product [mul] gives. *)
Lemma mul_between_limits (a b : Decimal) :
  Etiny <= dexp a + dexp b ->
  len (dint a * dint b) + dexp a + dexp b <= Emax ->
  mul_ctx a b = Finite (mul a b).
Proof.
  intros Hlo Hhi. unfold mul_ctx, mul. apply fix_between_limits.
  - exact Hlo.
  - cbn [product dint dexp]. lia.
Qed.

(** An operation on finite decimals signals nothing but Overflow, save
    for a division by zero. *)
Lemma fix_ctx_signal (d : Decimal) (sg : signal) :
  fix_ctx d = Trap sg -> sg = Overflow.
Proof.
  unfold fix_ctx. destruct (dint d =? 0); [discriminate|].
  destruct (Etop <? _); [intros [= <-]; reflexivity|].
  destruct (dexp d <? _); [|discriminate].
  destruct (prec <? _); destruct (Etop <? _);
    intros H; try discriminate H; injection H as <-; reflexivity.
Qed.

Lemma truediv_ctx_100_signal (d : Decimal) (sg : signal) :
  truediv_ctx d (of_int 100) = Trap sg -> sg = Overflow.
Proof. unfold truediv_ctx. cbn [of_int dint Z.abs Z.eqb]. apply fix_ctx_signal. Qed.

(** A decimal of at most [prec] digits can be divided by [Decimal(100)]
    as soon as it is not above the exponent range. *)
Lemma truediv_ctx_100_finite (d : Decimal) :
  len (dint d) <= prec -> len (dint d) + dexp d - 1 <= Emax ->
  exists q, truediv_ctx d (of_int 100) = Finite q.
Proof.
  intros Hlen Hhi.
  destruct (truediv_ctx d (of_int 100)) as [q|sg] eqn:E; [eauto|].
  exfalso. unfold truediv_ctx in E. cbn [of_int dint Z.abs Z.eqb] in E.
  change (mk (100 <? 0) 100 0) with (of_int 100) in E.
  destruct (quotient_100 d Hlen) as [Hl [[_ He] _]].
  set (q := quotient d (of_int 100)) in *.
  unfold fix_ctx in E. destruct (dint q =? 0); [discriminate|].
  unfold Etop in E.
  destruct (Z.ltb_spec (Emax - prec + 1) (len (dint q) + dexp q - prec));
    [lia|].
  destruct (Z.ltb_spec (dexp q) (Z.max (len (dint q) + dexp q - prec) Etiny))
    as [Hsub|]; [|discriminate].
  assert (Hmax : Z.max (len (dint q) + dexp q - prec) Etiny = Etiny) by lia.
  rewrite Hmax in E.
  destruct (prec <? _) in E.
  - destruct (Z.ltb_spec (Emax - prec + 1) (Etiny + 1));
      [unfold Etiny, Emax, Emin, prec in *; lia|discriminate].
  - destruct (Z.ltb_spec (Emax - prec + 1) Etiny);
      [unfold Etiny, Emax, Emin, prec in *; lia|discriminate].
Qed.

End DecFacts.

Module DecOrder.
Import Dec.

(** A decimal on a lower exponent: the same number. *)
Lemma value_on_exp (d : Decimal) (e : Z) :
  e <= dexp d ->
  (value d == inject_Z (sint d * 10 ^ (dexp d - e)) * inject_Z 10 ^ e)%Q.
Proof.
  intros He. unfold value.
  replace (dexp d) with ((dexp d - e) + e) at 1 by lia.
  rewrite Qpower_plus by exact DecFacts.ten_neq_0.
  rewrite inject_Z_mult, (Zpower_Qpower 10 (dexp d - e)) by lia. ring.
Qed.



End DecOrder.

(** ** Ordered statements *)

Module OrderFacts.

Lemma ascii_compare_N (a b : Ascii.ascii) :
  Ascii.compare a b = N.compare (Ascii.N_of_ascii a) (Ascii.N_of_ascii b).
Proof. reflexivity. Qed.

Lemma string_compare_refl (a : string) : String.compare a a = Eq.
Proof.
  induction a as [|x a IH]; cbn; [reflexivity|].
  rewrite ascii_compare_N, N.compare_refl. exact IH.
Qed.


Lemma string_leb_refl (a : string) : String.leb a a = true.
Proof. unfold String.leb. rewrite string_compare_refl. reflexivity. Qed.

Section Sorted.
Context {A K : Type} (key : A -> K) (leb : K -> K -> bool).
Hypothesis leb_total : forall x y, leb x y = true \/ leb y x = true.

Lemma In_insert_desc (x y : A) (l : list A) :
  In y (insert_desc key leb x l) <-> y = x \/ In y l.
Proof.
  induction l as [|z l IH]; cbn.
  - intuition.
  - destruct (leb (key z) (key x)); cbn; rewrite ?IH; intuition.
Qed.

Lemma In_order_by_desc (y : A) (l : list A) :
  In y (order_by_desc key leb l) <-> In y l.
Proof.
  induction l as [|x l IH]; [reflexivity|].
  change (order_by_desc key leb (x :: l))
    with (insert_desc key leb x (order_by_desc key leb l)).
  rewrite In_insert_desc, IH. cbn. intuition.
Qed.

Lemma first_order_by_desc_nil (l : list A) :
  first (order_by_desc key leb l) = None <-> l = [].
Proof.
  destruct l as [|x l]; [cbn; tauto|].
  change (order_by_desc key leb (x :: l))
    with (insert_desc key leb x (order_by_desc key leb l)).
  split; [|discriminate].
  destruct (order_by_desc key leb l) as [|z t]; cbn; [discriminate|].
  destruct (leb (key z) (key x)); discriminate.
Qed.


Lemma In_insert_asc (x y : A) (l : list A) :
  In y (insert_asc key leb x l) <-> y = x \/ In y l.
Proof.
  induction l as [|z l IH]; cbn.
  - intuition.
  - destruct (leb (key x) (key z)); cbn; rewrite ?IH; intuition.
Qed.

(** [ORDER BY] returns the rows it was given. *)
Lemma In_order_by (y : A) (l : list A) :
  In y (order_by key leb l) <-> In y l.
Proof.
  induction l as [|x l IH]; [reflexivity|].
  change (order_by key leb (x :: l))
    with (insert_asc key leb x (order_by key leb l)).
  rewrite In_insert_asc, IH. cbn. intuition.
Qed.

Hypothesis leb_trans :
  forall x y z, leb x y = true -> leb y z = true -> leb x z = true.

(** The first row of [ORDER BY key DESC] has the greatest key. *)
Lemma first_order_by_desc_max (l : list A) (r : A) :
  first (order_by_desc key leb l) = Some r ->
  forall y, In y l -> leb (key y) (key r) = true.
Proof.
  assert (Hrefl : forall k, leb k k = true)
    by (intros k; destruct (leb_total k k); assumption).
  revert r. induction l as [|x l IH]; intros r Hr y Hy; [destruct Hy|].
  change (order_by_desc key leb (x :: l))
    with (insert_desc key leb x (order_by_desc key leb l)) in Hr.
  destruct (order_by_desc key leb l) as [|z t] eqn:E.
  - assert (Hl : l = []).
    { destruct l as [|w l']; [reflexivity|].
      assert (Hw : In w (order_by_desc key leb (w :: l')))
        by (apply In_order_by_desc; left; reflexivity).
      rewrite E in Hw. destruct Hw. }
    subst l. cbn in Hr. injection Hr as <-.
    destruct Hy as [->|[]]. apply Hrefl.
  - specialize (IH z eq_refl). cbn in Hr.
    destruct (leb (key z) (key x)) eqn:Ezx; cbn in Hr; injection Hr as <-.
    + destruct Hy as [->|Hy]; [apply Hrefl|].
      eapply leb_trans; [apply IH; exact Hy|exact Ezx].
    + destruct Hy as [->|Hy]; [|apply IH; exact Hy].
      destruct (leb_total (key y) (key z)) as [H|H]; [exact H|congruence].
Qed.

End Sorted.

End OrderFacts.

(* ================================================================== *)
(** ** Action-plan status *)

Module StatusFacts.
Import MPM.

Lemma filter_none {A} (f : A -> bool) (l : list A) :
  (forall x, In x l -> f x = false) -> filter f l = [].
Proof.
  induction l as [|x l IH]; intros H; cbn; [reflexivity|].
  rewrite (H x) by (left; reflexivity).
  apply IH. intros y Hy. apply H. right; exact Hy.
Qed.



(** What [calculate_status] answers once the latest reported quarter is
    known: the two comparisons, the second one with the product
    [target_value * Decimal('0.8')]. *)
Lemma calculate_status_of_first (s : Session) (plan : UUID)
  (r : MPMQuarterlyData.t) (actual : Dec.Decimal) :
  first (reported_quarters s plan) = Some r ->
  MPMQuarterlyData.actual_value r = Some actual ->
  calculate_status plan s
  = (s, Ok (if Dec.ge actual (MPMQuarterlyData.target_value r) then ON_TRACK
            else if Dec.ge actual
                      (Dec.mul (MPMQuarterlyData.target_value r)
                         (Dec.of_str 8 (-1)))
                 then AT_RISK else OFF_TRACK)).
Proof.
  intros Hfirst Hact. unfold calculate_status. rewrite Hfirst, Hact.
  unfold bind, operand, ret.
  destruct (Dec.ge actual (MPMQuarterlyData.target_value r)); [reflexivity|].
  destruct (Dec.ge actual _); reflexivity.
Qed.



Lemma reported_actual (plan : UUID) (r : MPMQuarterlyData.t) :
  Spec.reported plan r = true ->
  exists actual, MPMQuarterlyData.actual_value r = Some actual.
Proof.
  unfold Spec.reported. intros H.
  apply andb_prop in H as [H _]. apply andb_prop in H as [_ H].
  destruct (MPMQuarterlyData.actual_value r) as [a|]; [eauto|discriminate].
Qed.




(** The boundaries of the specification: actual = target is On Track,
    actual = 0.8 x target is At Risk, actual = 0.79 x target is Off
    Track, and no reported quarter is On Track. *)
Example status_boundaries :
  calculate_status 1 (Examples.one_quarter Examples.d_100 Examples.d_100)
  = (Examples.one_quarter Examples.d_100 Examples.d_100, Ok ON_TRACK)
  /\ calculate_status 1 (Examples.one_quarter Examples.d_100 Examples.d_80)
     = (Examples.one_quarter Examples.d_100 Examples.d_80, Ok AT_RISK)
  /\ calculate_status 1
       (Examples.one_quarter Examples.d_100 (Dec.of_str 79 0))
     = (Examples.one_quarter Examples.d_100 (Dec.of_str 79 0), Ok OFF_TRACK)
  /\ calculate_status 1 Examples.empty = (Examples.empty, Ok ON_TRACK)
  /\ calculate_status 1 Examples.two_quarters
     = (Examples.two_quarters, Ok AT_RISK).
Proof. repeat split. Qed.

End StatusFacts.

(* ================================================================== *)
(** ** The repository and the monad *)

Module RepoFacts.

Section Generic.
Context {T : Type} `{Model T}.

Lemma get_lookup (id : UUID) (s : Session) :
  get id s = (s, Ok (Spec.lookup s id)).
Proof. reflexivity. Qed.

Lemma get_or_404_found (id : UUID) (s : Session) (o : T) :
  Spec.lookup s id = Some o -> get_or_404 id s = (s, Ok o).
Proof.
  intros Hl. unfold get_or_404, bind. rewrite get_lookup, Hl. reflexivity.
Qed.

Lemma get_or_404_missing (id : UUID) (s : Session) :
  Spec.lookup (T := T) s id = None ->
  get_or_404 (T := T) id s = (s, Raise (HTTPException HTTP_404_NOT_FOUND)).
Proof.
  intros Hl. unfold get_or_404, bind. rewrite get_lookup, Hl. reflexivity.
Qed.

Lemma lookup_In (id : UUID) (s : Session) (o : T) :
  Spec.lookup s id = Some o ->
  In o (table s) /\ row_id o = id /\ row_is_deleted o = false.
Proof.
  unfold Spec.lookup, first. intros Hl.
  destruct (filter _ (table s)) as [|x l] eqn:E; [discriminate|].
  injection Hl as ->.
  assert (Hin : In o (filter (fun r => (row_id r =? id) && negb (row_is_deleted r))
                        (table s))) by (rewrite E; left; reflexivity).
  apply filter_In in Hin as [Hin Hc]. apply andb_prop in Hc as [Hid Hdel].
  apply Z.eqb_eq in Hid. apply negb_true_iff in Hdel. auto.
Qed.

(** The object committed by [update] is in the table afterwards. *)
Lemma In_merge (o db : T) (rows : list T) :
  In db rows -> row_id db = row_id o -> In o (merge o rows).
Proof.
  intros Hin Hid. unfold merge. apply in_map_iff. exists db.
  rewrite Hid, Z.eqb_refl. auto.
Qed.

End Generic.

End RepoFacts.

(* ================================================================== *)
(** ** MPM score *)

Module MPMScoreFacts.
Import MPM.



(** The specification's scenario: weight 50, achievement 80, score 40. *)
Example mpm_score_50_80 :
  exists actual s',
    create_actual Examples.mpm_actual_in_80 Examples.mpm_50 = (s', Ok actual)
    /\ MPMActual.score actual = Dec.of_str 40 0.
Proof. eexists; eexists; split; vm_compute; reflexivity. Qed.



End MPMScoreFacts.

(* ================================================================== *)
(** ** Recording an actual *)

Module ActualFacts.

Lemma mul_ctx_signal (a b : Dec.Decimal) (sg : Dec.signal) :
  Dec.mul_ctx a b = Dec.Trap sg -> sg = Dec.Overflow.
Proof. apply DecFacts.fix_ctx_signal. Qed.

(** C7, as the code has it.  [create_actual], BSC and MPM alike: when
    [indicator_id] has no live indicator the call raises HTTP 404 and
    leaves the session as it was, so that no actual is persisted.  When
    it has one: if one of the decimal operations on the weight and the
    achievement signals, the call raises [decimal.Overflow] and leaves
    the session as it was; otherwise the call succeeds and the table of
    actuals gains exactly one row, the returned one, at its end (the
    decimals to store being such as a NUMERIC column holds). *)
Theorem create_actual_one_row_unless_overflow :
  (forall s actual_in,
     Spec.lookup (T := BSCIndicator.t) s (BSC.ac_indicator_id actual_in) = None ->
     BSC.create_actual actual_in s
     = (s, Raise (HTTPException HTTP_404_NOT_FOUND)))
  /\ (forall s actual_in indicator,
        Spec.lookup s (BSC.ac_indicator_id actual_in) = Some indicator ->
        match Spec.bsc_derived (BSCIndicator.weight indicator)
                (BSC.ac_achievement actual_in) with
        | None =>
            BSC.create_actual actual_in s
            = (s, Raise (DecimalException Dec.Overflow))
        | Some (score, active_weight, total_score) =>
            Spec.numeric (BSC.ac_achievement actual_in) ->
            Spec.numeric score ->
            Spec.numeric active_weight ->
            Spec.numeric total_score ->
            exists actual,
              BSC.create_actual actual_in s
              = (advance (set_table (bsc_actual s ++ [actual]) s), Ok actual)
              /\ BSCActual.indicator_id actual = BSCIndicator.id indicator
        end)
  /\ (forall s actual_in,
        Spec.lookup (T := MPMIndicator.t) s (MPM.ac_indicator_id actual_in)
        = None ->
        MPM.create_actual actual_in s
        = (s, Raise (HTTPException HTTP_404_NOT_FOUND)))
  /\ (forall s actual_in indicator,
        Spec.lookup s (MPM.ac_indicator_id actual_in) = Some indicator ->
        match Spec.mpm_derived (MPMIndicator.weight indicator)
                (MPM.ac_achievement actual_in) with
        | None =>
            MPM.create_actual actual_in s
            = (s, Raise (DecimalException Dec.Overflow))
        | Some score =>
            Spec.numeric (MPM.ac_actual_value actual_in) ->
            Spec.numeric (MPM.ac_achievement actual_in) ->
            Spec.numeric score ->
            exists actual,
              MPM.create_actual actual_in s
              = (advance (set_table (mpm_actual s ++ [actual]) s), Ok actual)
              /\ MPMActual.indicator_id actual = MPMIndicator.id indicator
        end).
Proof.
  split; [|split; [|split]].
  - intros s actual_in Hnone. unfold BSC.create_actual, bind.
    rewrite (RepoFacts.get_or_404_missing _ _ Hnone). reflexivity.
  - intros s actual_in indicator Hind.
    destruct (RepoFacts.lookup_In _ _ _ Hind) as [_ [Hid _]].
    unfold BSC.create_actual, bind, Spec.bsc_derived.
    rewrite (RepoFacts.get_or_404_found _ _ _ Hind).
    destruct (Dec.truediv_ctx _ _) as [h|sg] eqn:E1; cbn [decimal ret raise];
      [|rewrite (DecFacts.truediv_ctx_100_signal _ _ E1); reflexivity].
    destruct (Dec.mul_ctx _ h) as [sc|sg] eqn:E2; cbn [decimal ret raise];
      [|rewrite (mul_ctx_signal _ _ _ E2); reflexivity].
    destruct (Dec.mul_ctx _ (Dec.of_int 2)) as [aw|sg] eqn:E3;
      cbn [decimal ret raise];
      [|rewrite (mul_ctx_signal _ _ _ E3); reflexivity].
    destruct (Dec.mul_ctx sc _) as [ts|sg] eqn:E4; cbn [decimal ret raise];
      [|rewrite (mul_ctx_signal _ _ _ E4); reflexivity].
    intros _ _ _ _. unfold create. cbn.
    eexists. split; [reflexivity|]. cbn. symmetry. exact Hid.
  - intros s actual_in Hnone. unfold MPM.create_actual, bind.
    rewrite (RepoFacts.get_or_404_missing _ _ Hnone). reflexivity.
  - intros s actual_in indicator Hind.
    destruct (RepoFacts.lookup_In _ _ _ Hind) as [_ [Hid _]].
    unfold MPM.create_actual, bind, Spec.mpm_derived.
    rewrite (RepoFacts.get_or_404_found _ _ _ Hind).
    destruct (Dec.mul_ctx _ _) as [p|sg] eqn:E1; cbn [decimal ret raise];
      [|rewrite (mul_ctx_signal _ _ _ E1); reflexivity].
    destruct (Dec.truediv_ctx p _) as [sc|sg] eqn:E2; cbn [decimal ret raise];
      [|rewrite (DecFacts.truediv_ctx_100_signal _ _ E2); reflexivity].
    intros _ _ _. unfold create. cbn.
    eexists. split; [reflexivity|]. cbn. symmetry. exact Hid.
Qed.

Lemma create_actual_witness :
  BSC.create_actual
    {| BSC.ac_actual_value := "90";
       BSC.ac_achievement := Examples.d_90;
       BSC.ac_indicator_id := 7 |} Examples.bsc_30
  = (Examples.bsc_30, Raise (HTTPException HTTP_404_NOT_FOUND))
  /\ exists actual,
       BSC.create_actual Examples.bsc_actual_in_90 Examples.bsc_30
       = (advance (set_table (bsc_actual Examples.bsc_30 ++ [actual])
                     Examples.bsc_30), Ok actual)
       /\ BSCActual.indicator_id actual
          = BSCIndicator.id Examples.bsc_indicator_30.
Proof.
  split.
  - apply (proj1 create_actual_one_row_unless_overflow). reflexivity.
  - pose proof (proj1 (proj2 create_actual_one_row_unless_overflow)
                  Examples.bsc_30 Examples.bsc_actual_in_90
                  Examples.bsc_indicator_30 eq_refl) as H.
    change (Spec.bsc_derived _ _)
      with (Some (Dec.of_str 270 (-1), Dec.of_str 60 0,
                  Dec.of_str 5400000000000000299760216649 (-27))) in H.
    cbv beta iota in H.
    apply H; split; vm_compute; discriminate.
Defined.

(** C7 as stated fails: the indicator resolves, yet no actual is
    created.  For the BSC indicator of weight 30 and the achievement
    1E+1000001, the hundredth 1E+999999 times 30 is above the exponent
    range of the context; for the MPM indicator of weight 50 and the
    achievement 1E+999999 the product is.  [create_actual] raises
    [decimal.Overflow] and the table of actuals stays empty. *)
Lemma create_actual_overflow_creates_nothing :
  Spec.lookup Examples.bsc_30 (BSC.ac_indicator_id Scenarios.bsc_actual_in_huge)
  = Some Examples.bsc_indicator_30
  /\ BSC.create_actual Scenarios.bsc_actual_in_huge Examples.bsc_30
     = (Examples.bsc_30, Raise (DecimalException Dec.Overflow))
  /\ bsc_actual Examples.bsc_30 = []
  /\ Spec.lookup Examples.mpm_50
       (MPM.ac_indicator_id Scenarios.mpm_actual_in_huge)
     = Some Examples.mpm_indicator_50
  /\ MPM.create_actual Scenarios.mpm_actual_in_huge Examples.mpm_50
     = (Examples.mpm_50, Raise (DecimalException Dec.Overflow))
  /\ mpm_actual Examples.mpm_50 = [].
Proof. repeat split; vm_compute; reflexivity. Qed.

(** C2 at the specification's scenario.  For a BSC indicator of weight
    30 and a reported achievement of 90, [create_actual] persists
    score 27.0 and active_weight 60, and total_score =
    score_akhir = 5.400000000000000299760216649: the factor
    [Decimal(0.2)] is built from the binary double 0.2, not from the
    decimal 0.2, and the product is not score x 0.2 = 5.4.
    [update_actual] with the achievement 90 in the payload persists the
    same values. *)
Theorem bsc_total_score_binary_factor :
  (exists actual s',
     BSC.create_actual Examples.bsc_actual_in_90 Examples.bsc_30
     = (s', Ok actual)
     /\ In actual (bsc_actual s')
     /\ BSCActual.score actual = Dec.of_str 270 (-1)
     /\ BSCActual.active_weight actual = Dec.of_str 60 0
     /\ BSCActual.total_score actual
        = Dec.of_str 5400000000000000299760216649 (-27)
     /\ BSCActual.score_akhir actual = BSCActual.total_score actual
     /\ ~ (Dec.value (BSCActual.total_score actual)
           == Dec.value (BSCActual.score actual) * (2 # 10))%Q)
  /\ (exists actual s',
        BSC.update_actual 21 Examples.bsc_achievement_90
          Examples.bsc_30_recorded
        = (s', Ok actual)
        /\ In actual (bsc_actual s')
        /\ BSCActual.score actual = Dec.of_str 270 (-1)
        /\ BSCActual.active_weight actual = Dec.of_str 60 0
        /\ BSCActual.total_score actual
           = Dec.of_str 5400000000000000299760216649 (-27)
        /\ BSCActual.score_akhir actual = BSCActual.total_score actual
        /\ ~ (Dec.value (BSCActual.total_score actual)
              == Dec.value (BSCActual.score actual) * (2 # 10))%Q).
Proof.
  split.
  - eexists; eexists. split; [vm_compute; reflexivity|].
    split; [left; reflexivity|].
    repeat (split; [reflexivity|]).
    intros H. vm_compute in H. discriminate H.
  - eexists; eexists. split; [vm_compute; reflexivity|].
    split; [left; reflexivity|].
    repeat (split; [reflexivity|]).
    intros H. vm_compute in H. discriminate H.
Qed.

(** What does hold of the derived fields, for every indicator and
    payload of [create_actual] that returns: [score_akhir] is
    [total_score], [active_weight] is the product of the weight and
    [Decimal(2)] whatever the achievement, [score] is the product of the
    weight and achievement / 100, and [total_score] is the product of
    [score] and the constant [Decimal(0.2)]. *)
Lemma bsc_derived_fields (s s' : Session) (actual_in : BSC.BSCActualCreate)
  (indicator : BSCIndicator.t) (actual : BSCActual.t) :
  Spec.lookup s (BSC.ac_indicator_id actual_in) = Some indicator ->
  BSC.create_actual actual_in s = (s', Ok actual) ->
  exists hundredth,
    Dec.truediv_ctx (BSC.ac_achievement actual_in) (Dec.of_int 100)
    = Dec.Finite hundredth
    /\ Dec.mul_ctx (BSCIndicator.weight indicator) hundredth
       = Dec.Finite (BSCActual.score actual)
    /\ Dec.mul_ctx (BSCIndicator.weight indicator) (Dec.of_int 2)
       = Dec.Finite (BSCActual.active_weight actual)
    /\ Dec.mul_ctx (BSCActual.score actual) Dec.of_float_0_2
       = Dec.Finite (BSCActual.total_score actual)
    /\ BSCActual.score_akhir actual = BSCActual.total_score actual.
Proof.
  intros Hind. unfold BSC.create_actual, bind.
  rewrite (RepoFacts.get_or_404_found _ _ _ Hind).
  destruct (Dec.truediv_ctx _ _) as [h|sg]; cbn [decimal];
    [unfold ret at 1|discriminate].
  destruct (Dec.mul_ctx _ h) as [sc|sg] eqn:E2; cbn [decimal];
    [unfold ret at 1|discriminate].
  destruct (Dec.mul_ctx _ (Dec.of_int 2)) as [aw|sg] eqn:E3; cbn [decimal];
    [unfold ret at 1|discriminate].
  destruct (Dec.mul_ctx sc _) as [ts|sg] eqn:E4; cbn [decimal];
    [|discriminate].
  unfold ret, create. cbn. intros [= _ <-]. cbn.
  exists h. repeat split; assumption.
Qed.

(** The constant [Decimal(0.2)] denotes a number above 0.2. *)
Lemma float_factor_is_not_a_fifth :
  (Dec.value (Dec.of_str 2 (-1)) < Dec.value Dec.of_float_0_2)%Q.
Proof. vm_compute. reflexivity. Qed.

End ActualFacts.

(* ================================================================== *)
(** ** Periods: at most one Active *)

Module PeriodFacts.
Import PeriodRepository.

Lemma NoDup_map_filter {A B} (f : A -> B) (g : A -> bool) (l : list A) :
  NoDup (map f l) -> NoDup (map f (filter g l)).
Proof.
  induction l as [|x l IH]; cbn; intros Hnd; [constructor|].
  inversion Hnd as [|? ? Hnotin Hnd']; subst.
  destruct (g x); cbn; [|auto].
  constructor; [|auto].
  intros Hin. apply Hnotin. apply in_map_iff in Hin as [y [Hy Hin]].
  apply filter_In in Hin as [Hin _]. apply in_map_iff. eauto.
Qed.

Lemma single_of_share (rows : list Period.t) :
  NoDup (map Period.id rows) -> Spec.active_share_id rows ->
  (List.length (filter Spec.live_active rows) <= 1)%nat.
Proof.
  intros Hnd Hshare.
  pose proof (NoDup_map_filter Period.id Spec.live_active rows Hnd) as Hnd'.
  destruct (filter Spec.live_active rows) as [|x [|y t]] eqn:E; cbn; try lia.
  exfalso.
  assert (Hx : In x (filter Spec.live_active rows)) by (rewrite E; cbn; auto).
  assert (Hy : In y (filter Spec.live_active rows)) by (rewrite E; cbn; auto).
  apply filter_In in Hx as [Hx Hax]. apply filter_In in Hy as [Hy Hay].
  cbn in Hnd'. inversion Hnd' as [|? ? Hnotin _]; subst.
  apply Hnotin. left. symmetry. apply Hshare; assumption.
Qed.

Lemma share_of_single (rows : list Period.t) :
  (List.length (filter Spec.live_active rows) <= 1)%nat -> Spec.active_share_id rows.
Proof.
  intros Hlen p q Hp Hq Hap Haq.
  assert (Hp' : In p (filter Spec.live_active rows)) by (apply filter_In; auto).
  assert (Hq' : In q (filter Spec.live_active rows)) by (apply filter_In; auto).
  destruct (filter Spec.live_active rows) as [|x [|y t]]; cbn in *;
    try lia; intuition congruence.
Qed.

Lemma map_id_merge (o : Period.t) (rows : list Period.t) :
  map Period.id (merge o rows) = map Period.id rows.
Proof.
  unfold merge. rewrite map_map. apply map_ext. intros r. cbn.
  destruct (Z.eqb_spec (Period.id r) (Period.id o)); congruence.
Qed.

Lemma In_merge_inv (o r : Period.t) (rows : list Period.t) :
  In r (merge o rows) ->
  r = o \/ (In r rows /\ Period.id r <> Period.id o).
Proof.
  unfold merge. intros Hin. apply in_map_iff in Hin as [x [Hx Hin]]. cbn in Hx.
  destruct (Z.eqb_spec (Period.id x) (Period.id o)); subst; auto.
Qed.

Lemma update_status_unfold (id : UUID) (st : PeriodStatus) (s : Session) :
  update_status id st s
  = match Spec.lookup s id with
    | None => (s, Raise (HTTPException HTTP_404_NOT_FOUND))
    | Some db_obj =>
        let commit :=
          (advance (set_table (merge (Spec.with_status db_obj st (utcnow s))
                                 (period s)) s),
           Ok (Spec.with_status db_obj st (utcnow s))) in
        if PeriodStatus_eqb st ACTIVE then
          match first (Spec.active_periods s) with
          | Some a =>
              if negb (Period.id a =? id) then (s, Raise AttributeError)
              else commit
          | None => commit
          end
        else commit
    end.
Proof.
  unfold update_status, bind.
  destruct (Spec.lookup s id) as [db_obj|] eqn:Hl.
  - rewrite (RepoFacts.get_or_404_found _ _ _ Hl).
    destruct (PeriodStatus_eqb st ACTIVE); [|reflexivity].
    unfold get_active_period.
    change (filter _ (period s)) with (Spec.active_periods s).
    destruct (first (Spec.active_periods s)) as [a|]; [|reflexivity].
    destruct (negb (Period.id a =? id)); reflexivity.
  - rewrite (RepoFacts.get_or_404_missing _ _ Hl). reflexivity.
Qed.

Lemma first_In {A} (l : list A) (a : A) : first l = Some a -> In a l.
Proof. destruct l; cbn; [discriminate|]. intros [= ->]. auto. Qed.

(** One call keeps the primary key and keeps the Active period single. *)
Lemma update_status_preserves (id : UUID) (st : PeriodStatus) (s : Session) :
  Spec.period_ids_unique s -> Spec.single_active s ->
  Spec.period_ids_unique (fst (update_status id st s))
  /\ Spec.single_active (fst (update_status id st s)).
Proof.
  intros Hpk Hone. rewrite update_status_unfold.
  destruct (Spec.lookup s id) as [db_obj|] eqn:Hl; [|cbn; auto].
  destruct (RepoFacts.lookup_In _ _ _ Hl) as [Hin [Hid Hdel]].
  cbn in Hid, Hdel, Hin.
  set (o := Spec.with_status db_obj st (utcnow s)).
  assert (Hcommit :
    (PeriodStatus_eqb st ACTIVE = true ->
     forall a, In a (period s) -> Spec.live_active a = true -> Period.id a = id) ->
    Spec.period_ids_unique
      (advance (set_table (merge o (period s)) s))
    /\ Spec.single_active
         (advance (set_table (merge o (period s)) s))).
  { intros Hact. unfold Spec.period_ids_unique, Spec.single_active,
      Spec.active_periods. cbn [advance set_table Period_Model period].
    assert (Hpk' : NoDup (map Period.id (merge o (period s))))
      by (rewrite map_id_merge; exact Hpk).
    split; [exact Hpk'|].
    apply single_of_share; [exact Hpk'|].
    pose proof (share_of_single _ Hone) as Hshare.
    assert (Hold : forall r, In r (merge o (period s)) ->
              Spec.live_active r = true ->
              r = o \/ (In r (period s) /\ Period.id r <> id
                        /\ PeriodStatus_eqb st ACTIVE = false)).
    { intros r Hr Ha. apply In_merge_inv in Hr as [->|[Hr Hne]]; [auto|].
      right. change (Period.id o) with (Period.id db_obj) in Hne.
      rewrite Hid in Hne. split; [exact Hr|]. split; [exact Hne|].
      destruct (PeriodStatus_eqb st ACTIVE) eqn:E; [|reflexivity].
      exfalso. apply Hne. apply Hact; auto. }
    assert (Ho : PeriodStatus_eqb st ACTIVE = false ->
                 Spec.live_active o = false).
    { intros E. unfold Spec.live_active. cbn. rewrite E. reflexivity. }
    intros p q Hp Hq Hap Haq.
    destruct (Hold p Hp Hap) as [->|[Hp' [_ Ep]]];
      destruct (Hold q Hq Haq) as [->|[Hq' [_ Eq]]]; try reflexivity.
    - rewrite (Ho Eq) in Hap. discriminate.
    - rewrite (Ho Ep) in Haq. discriminate.
    - apply Hshare; assumption. }
  cbv zeta. fold o.
  destruct (PeriodStatus_eqb st ACTIVE) eqn:Est.
  - destruct (first (Spec.active_periods s)) as [a|] eqn:Hfirst.
    + destruct (Z.eqb_spec (Period.id a) id) as [Ha|Ha]; cbn [negb fst];
        [|auto].
      apply Hcommit. intros _ b Hb Hab. rewrite <- Ha.
      apply first_In in Hfirst. apply filter_In in Hfirst as [Hina Haa].
      apply (share_of_single _ Hone); assumption.
    + cbn [fst]. apply Hcommit. intros _ b Hb Hab.
      assert (Hb' : In b (Spec.active_periods s)) by (apply filter_In; auto).
      destruct (Spec.active_periods s); [destruct Hb'|discriminate].
  - cbn [fst]. apply Hcommit. discriminate.
Qed.

(** In any session, whatever it holds: when a call asks for Active on a
    period and another live period is Active, either the call is refused
    and nothing changes, or a live row of that identifier was Active
    already, so that no period becomes Active by the call. *)
Lemma activation_refused_or_already_active
    (s : Session) (id : UUID) (db_obj other : Period.t) :
  Spec.lookup s id = Some db_obj ->
  In other (Spec.active_periods s) -> Period.id other <> id ->
  update_status id ACTIVE s = (s, Raise AttributeError)
  \/ exists a, In a (Spec.active_periods s) /\ Period.id a = id.
Proof.
  intros Hl Hother Hne. rewrite update_status_unfold, Hl.
  cbn [PeriodStatus_eqb].
  destruct (first (Spec.active_periods s)) as [a|] eqn:Hfirst.
  - destruct (Z.eqb_spec (Period.id a) id) as [Ha|Ha]; cbn [negb].
    + right. exists a. split; [apply first_In; exact Hfirst|exact Ha].
    + left. reflexivity.
  - destruct (Spec.active_periods s); [destruct Hother|discriminate].
Qed.

(** C8.  With [id] the primary key of the periods and at most one live
    Active period in the session: a call of [update_status] asking for
    Active on a period while another live period is Active is refused
    with an exception and changes nothing, the status of the period
    included; and after any sequence of [update_status] calls there is
    still at most one live Active period. *)
Theorem update_status_keeps_single_active (s : Session) :
  Spec.period_ids_unique s -> Spec.single_active s ->
  (forall id (db_obj : Period.t) other,
     Spec.lookup s id = Some db_obj ->
     In other (Spec.active_periods s) -> Period.id other <> id ->
     update_status id ACTIVE s = (s, Raise AttributeError))
  /\ (forall calls, Spec.single_active (Spec.after_update_status calls s)).
Proof.
  intros Hpk Hone. split.
  - intros id db_obj other Hl Hother Hne.
    rewrite update_status_unfold, Hl. cbn [PeriodStatus_eqb].
    destruct (Spec.active_periods s) as [|a [|b t]] eqn:E.
    + destruct Hother.
    + destruct Hother as [->|[]]. cbn [first hd_error].
      destruct (Z.eqb_spec (Period.id other) id); [contradiction|reflexivity].
    + unfold Spec.single_active in Hone. rewrite E in Hone. cbn in Hone. lia.
  - intros calls. revert s Hpk Hone.
    induction calls as [|[id st] calls IH]; intros s Hpk Hone; cbn.
    + exact Hone.
    + destruct (update_status_preserves id st s Hpk Hone) as [Hpk' Hone'].
      apply IH; assumption.
Qed.

Lemma update_status_single_active_witness :
  update_status 2 ACTIVE Examples.two_periods
  = (Examples.two_periods, Raise AttributeError)
  /\ Spec.single_active
       (Spec.after_update_status [(2, ACTIVE); (1, CLOSED); (2, ACTIVE)]
          Examples.two_periods).
Proof.
  assert (Hpk : Spec.period_ids_unique Examples.two_periods).
  { unfold Spec.period_ids_unique. cbn.
    repeat constructor; cbn; intuition discriminate. }
  assert (Hone : Spec.single_active Examples.two_periods).
  { unfold Spec.single_active. cbn. lia. }
  destruct (update_status_keeps_single_active Examples.two_periods Hpk Hone)
    as [Hrej Hseq].
  split.
  - apply (Hrej 2 Examples.period_2 Examples.period_1).
    + reflexivity.
    + left; reflexivity.
    + discriminate.
  - apply Hseq.
Defined.

End PeriodFacts.

(* ================================================================== *)
(** ** Quarterly data and the stored status of the plan *)

Module QuarterlyFacts.
Import MPM.

(** C10.  A call of [create_quarterly_data], or of
    [update_quarterly_data], whose payload has no [actual_value] or has
    it [None], leaves the table of action plans as it was, whether the
    call succeeds or raises: the status of the owning plan is not
    recomputed. *)
Theorem quarterly_data_without_actual_keeps_plans :
  (forall s data_in,
     qc_actual_value data_in = None ->
     mpm_action_plan (fst (create_quarterly_data data_in s))
     = mpm_action_plan s)
  /\ (forall s data_id data_in,
        attr (qu_actual_value data_in) = None ->
        mpm_action_plan (fst (update_quarterly_data data_id data_in s))
        = mpm_action_plan s).
Proof.
  split.
  - intros s data_in Hnone. unfold create_quarterly_data, bind, get_by_quarter.
    destruct (first _); [reflexivity|].
    rewrite Hnone. unfold create. cbn. reflexivity.
  - intros s data_id data_in Hnone. unfold update_quarterly_data, bind.
    destruct (Spec.lookup (T := MPMQuarterlyData.t) s data_id) as [db|] eqn:Hl.
    + rewrite (RepoFacts.get_or_404_found _ _ _ Hl). rewrite Hnone.
      unfold update.
      destruct (setattrs db (MPMQuarterlyDataUpdate_dict data_in));
        reflexivity.
    + rewrite (RepoFacts.get_or_404_missing _ _ Hl). reflexivity.
Qed.

Lemma quarterly_data_without_actual_witness :
  mpm_action_plan
    (fst (update_quarterly_data 11 Examples.clear_actual Examples.plan_at_risk))
  = mpm_action_plan Examples.plan_at_risk.
Proof.
  apply (proj2 quarterly_data_without_actual_keeps_plans). reflexivity.
Defined.

(** The stored status goes stale: once the only actual of the plan is
    cleared, [calculate_status] would answer On Track, and the plan still
    says At Risk. *)
Example status_stale_after_clearing_actual :
  exists s' row,
    update_quarterly_data 11 Examples.clear_actual Examples.plan_at_risk
    = (s', Ok row)
    /\ MPMQuarterlyData.actual_value row = None
    /\ mpm_action_plan s' = [Examples.plan_1]
    /\ MPMActionPlan.status Examples.plan_1 = AT_RISK
    /\ calculate_status 1 s' = (s', Ok ON_TRACK).
Proof.
  eexists; eexists. split; [vm_compute; reflexivity|].
  repeat split.
Qed.

(** With an actual in the payload the status is recomputed: reporting 50
    against the target 100 turns the plan Off Track. *)
Example status_recomputed_with_actual :
  exists s' row,
    update_quarterly_data 11
      {| qu_target_value := Unset; qu_actual_value := Value Examples.d_50 |}
      Examples.plan_at_risk
    = (s', Ok row)
    /\ map MPMActionPlan.status (mpm_action_plan s') = [OFF_TRACK].
Proof.
  eexists; eexists. split; [vm_compute; reflexivity|]. reflexivity.
Qed.

End QuarterlyFacts.

(* ================================================================== *)
(** ** Dictionaries *)

Module DictFacts.

Section Dict.
Context {K V : Type} (eqb : K -> K -> bool).
Hypothesis eqb_eq : forall a b, eqb a b = true <-> a = b.

Lemma eqb_refl (a : K) : eqb a a = true.
Proof. apply eqb_eq. reflexivity. Qed.

Lemma eqb_neq (a b : K) : a <> b -> eqb a b = false.
Proof.
  intros Hne. destruct (eqb a b) eqn:E; [|reflexivity].
  apply eqb_eq in E. contradiction.
Qed.

Lemma getitem_setitem (d : list (K * V)) (k k' : K) (v : V) :
  dict_getitem eqb (dict_setitem eqb d k v) k'
  = if eqb k k' then Some v else dict_getitem eqb d k'.
Proof.
  induction d as [|[k0 v0] d IH]; cbn.
  - reflexivity.
  - destruct (eqb k0 k) eqn:E0; cbn.
    + apply eqb_eq in E0. subst k0. destruct (eqb k k'); reflexivity.
    + rewrite IH. destruct (eqb k0 k') eqn:E1; [|reflexivity].
      apply eqb_eq in E1. subst k0.
      destruct (eqb k k') eqn:E2; [|reflexivity].
      apply eqb_eq in E2. subst k'. rewrite eqb_refl in E0. discriminate.
Qed.

Lemma getitem_modify (d : list (K * V)) (k k' : K) (f : V -> V) :
  dict_getitem eqb (dict_modify eqb d k f) k'
  = if eqb k k' then option_map f (dict_getitem eqb d k)
    else dict_getitem eqb d k'.
Proof.
  unfold dict_modify. destruct (dict_getitem eqb d k) as [v|] eqn:E.
  - rewrite getitem_setitem. reflexivity.
  - destruct (eqb k k') eqn:E1; [|reflexivity].
    apply eqb_eq in E1. subst k'. rewrite E. reflexivity.
Qed.

Lemma keys_setitem (d : list (K * V)) (k : K) (v : V) :
  map fst (dict_setitem eqb d k v)
  = if dict_contains eqb d k then map fst d else map fst d ++ [k].
Proof.
  unfold dict_contains. induction d as [|[k0 v0] d IH]; cbn.
  - reflexivity.
  - destruct (eqb k0 k) eqn:E0; cbn; [reflexivity|].
    rewrite IH. destruct (dict_getitem eqb d k); reflexivity.
Qed.

Lemma keys_modify (d : list (K * V)) (k : K) (f : V -> V) :
  map fst (dict_modify eqb d k f) = map fst d.
Proof.
  unfold dict_modify. destruct (dict_getitem eqb d k) as [v|] eqn:E;
    [|reflexivity].
  rewrite keys_setitem. unfold dict_contains. rewrite E. reflexivity.
Qed.

Lemma getitem_In_keys (d : list (K * V)) (k : K) :
  dict_getitem eqb d k = None -> ~ In k (map fst d).
Proof.
  induction d as [|[k0 v0] d IH]; cbn; [tauto|].
  destruct (eqb k0 k) eqn:E; [discriminate|].
  intros Hn [H|H]; [subst; rewrite eqb_refl in E; discriminate|].
  exact (IH Hn H).
Qed.

(** With distinct keys, the pairs of the dictionary are its lookups. *)
Lemma In_getitem (d : list (K * V)) (k : K) (v : V) :
  NoDup (map fst d) -> (In (k, v) d <-> dict_getitem eqb d k = Some v).
Proof.
  induction d as [|[k0 v0] d IH]; cbn; intros Hnd.
  - split; [tauto|discriminate].
  - inversion Hnd as [|? ? Hnotin Hnd']; subst.
    destruct (eqb k0 k) eqn:E.
    + apply eqb_eq in E. subst k0. split.
      * intros [[= ->]|Hin]; [reflexivity|].
        exfalso. apply Hnotin. apply in_map_iff. exists (k, v). auto.
      * intros [= ->]. auto.
    + rewrite <- (IH Hnd'). split.
      * intros [[= -> ->]|Hin]; [rewrite eqb_refl in E; discriminate|exact Hin].
      * auto.
Qed.

Lemma setitem_setitem (d : list (K * V)) (k : K) (v w : V) :
  dict_setitem eqb (dict_setitem eqb d k v) k w = dict_setitem eqb d k w.
Proof.
  induction d as [|[k0 v0] d IH]; cbn.
  - rewrite eqb_refl. reflexivity.
  - destruct (eqb k0 k) eqn:E; cbn; rewrite E; [reflexivity|].
    rewrite IH. reflexivity.
Qed.

Lemma modify_modify (d : list (K * V)) (k : K) (f g : V -> V) :
  dict_modify eqb (dict_modify eqb d k f) k g
  = dict_modify eqb d k (fun v => g (f v)).
Proof.
  unfold dict_modify at 2 3. destruct (dict_getitem eqb d k) as [v|] eqn:E.
  - unfold dict_modify. rewrite getitem_setitem, eqb_refl.
    apply setitem_setitem.
  - unfold dict_modify. rewrite E. reflexivity.
Qed.

(** *** Grouping by key

    The loop that files each element under its key, creating the group
    on first sight, builds for every key the fold of its own elements,
    in order. *)
Section Grouping.
Context {X : Type} (key : X -> K) (step : X -> V -> V) (empty : V).

Lemma getitem_upsert (d : list (K * V)) (x : X) (k : K) :
  dict_getitem eqb (dict_upsert eqb key step empty d x) k
  = if eqb (key x) k
    then Some (step x (match dict_getitem eqb d (key x) with
                       | Some g => g
                       | None => empty
                       end))
    else dict_getitem eqb d k.
Proof.
  unfold dict_upsert, dict_contains. rewrite getitem_modify.
  destruct (dict_getitem eqb d (key x)) as [g|] eqn:E.
  - rewrite E. reflexivity.
  - rewrite !getitem_setitem, eqb_refl. cbn.
    destruct (eqb (key x) k); reflexivity.
Qed.

Lemma keys_upsert (d : list (K * V)) (x : X) :
  NoDup (map fst d) -> NoDup (map fst (dict_upsert eqb key step empty d x)).
Proof.
  intros Hnd. unfold dict_upsert. rewrite keys_modify. unfold dict_contains.
  destruct (dict_getitem eqb d (key x)) as [g|] eqn:E; [exact Hnd|].
  rewrite keys_setitem. unfold dict_contains. rewrite E.
  apply NoDup_app; [exact Hnd|repeat constructor; intros []|].
  intros k Hk [<-|[]]. exact (getitem_In_keys _ _ E Hk).
Qed.

Lemma fold_upsert (xs : list X) :
  forall d, NoDup (map fst d) ->
  NoDup (map fst (fold_left (dict_upsert eqb key step empty) xs d))
  /\ forall k,
       dict_getitem eqb (fold_left (dict_upsert eqb key step empty) xs d) k
       = match dict_getitem eqb d k with
         | Some g => Some (dict_group eqb key step k xs g)
         | None =>
             if existsb (fun x => eqb (key x) k) xs
             then Some (dict_group eqb key step k xs empty) else None
         end.
Proof.
  induction xs as [|x xs IH]; intros d Hnd; cbn [fold_left].
  - split; [exact Hnd|]. intros k. cbn.
    destruct (dict_getitem eqb d k); reflexivity.
  - destruct (IH (dict_upsert eqb key step empty d x) (keys_upsert d x Hnd)) as [Hnd' Hget].
    split; [exact Hnd'|]. intros k. rewrite Hget, getitem_upsert.
    unfold dict_group. cbn [filter existsb].
    destruct (eqb (key x) k) eqn:E.
    + apply eqb_eq in E. subst k. cbn [fold_left orb].
      destruct (dict_getitem eqb d (key x)); reflexivity.
    + cbn [orb]. reflexivity.
Qed.

End Grouping.

End Dict.

Lemma fold_left_pair {A B X} (f : A -> X -> A) (g : B -> X -> B)
  (xs : list X) (a : A) (b : B) :
  fold_left (fun acc x => (f (fst acc) x, g (snd acc) x)) xs (a, b)
  = (fold_left f xs a, fold_left g xs b).
Proof.
  revert a b. induction xs as [|x xs IH]; intros a b; cbn; [reflexivity|].
  apply IH.
Qed.

Lemma dict_modify_ext {K V} (eqb : K -> K -> bool) (d : list (K * V)) (k : K)
  (f g : V -> V) :
  (forall v, f v = g v) -> dict_modify eqb d k f = dict_modify eqb d k g.
Proof.
  intros H. unfold dict_modify. destruct (dict_getitem eqb d k); [|reflexivity].
  rewrite H. reflexivity.
Qed.

Lemma fold_left_ext {A X} (f g : A -> X -> A) (xs : list X) (a : A) :
  (forall a x, f a x = g a x) -> fold_left f xs a = fold_left g xs a.
Proof.
  intros H. revert a. induction xs as [|x xs IH]; intros a; cbn;
    [reflexivity|].
  rewrite H. apply IH.
Qed.

Lemma BSCPerspective_eqb_eq (a b : BSCPerspective) :
  BSCPerspective_eqb a b = true <-> a = b.
Proof. destruct a, b; cbn; split; congruence. Qed.

Lemma MPMPerspective_eqb_eq (a b : MPMPerspective) :
  MPMPerspective_eqb a b = true <-> a = b.
Proof. destruct a, b; cbn; split; congruence. Qed.

Lemma MPMBucketKey_eqb_eq (a b : MPMBucketKey) :
  MPMBucketKey_eqb a b = true <-> a = b.
Proof.
  destruct a as [p|], b as [q|]; cbn; try (split; congruence).
  rewrite MPMPerspective_eqb_eq. split; congruence.
Qed.

End DictFacts.

(* ================================================================== *)
(** ** The BSC dashboard *)

Module BSCDashboardFacts.
Import BSC.

Lemma bsc_dashboard_step_eq (s : Session) (acc : list (BSCPerspective * Group) * Totals)
  (i : BSCIndicator.t) :
  dashboard_step s acc i
  = (dict_upsert BSCPerspective_eqb BSCIndicator.perspective
       (Spec.bsc_group_step s) (mkGroup [] zero_totals) (fst acc) i,
     Spec.bsc_totals_step s i (snd acc)).
Proof.
  destruct acc as [d t]. unfold dashboard_step, dict_upsert. cbn [fst snd].
  unfold Spec.bsc_totals_step, Spec.bsc_paired.
  pose proof (DictFacts.modify_modify (V := Group) BSCPerspective_eqb
                DictFacts.BSCPerspective_eqb_eq) as Hmm.
  destruct (first (actuals_of s i)) as [a|] eqn:Ea.
  - f_equal. rewrite !Hmm. apply DictFacts.dict_modify_ext. intros g.
    unfold Spec.bsc_group_step, Spec.bsc_totals_step, Spec.bsc_item_of, Spec.bsc_paired.
    rewrite Ea. reflexivity.
  - f_equal. rewrite !Hmm. apply DictFacts.dict_modify_ext. intros g.
    unfold Spec.bsc_group_step, Spec.bsc_totals_step, Spec.bsc_item_of, Spec.bsc_paired.
    rewrite Ea. reflexivity.
Qed.

Lemma bsc_fold_totals (s : Session) (its : list BSCIndicator.t) :
  forall t,
  fold_left (fun t i => Spec.bsc_totals_step s i t) its t
  = mkTotals
      (fold_left Dec.add (map BSCIndicator.weight its) (total_weight t))
      (fold_left Dec.add (map BSCActual.score (Spec.bsc_reported s its))
         (total_score t))
      (fold_left Dec.add (map BSCActual.active_weight (Spec.bsc_reported s its))
         (total_active_weight t))
      (fold_left Dec.add (map BSCActual.score_akhir (Spec.bsc_reported s its))
         (total_score_akhir t)).
Proof.
  induction its as [|i its IH]; intros t; cbn [fold_left map].
  - destruct t; reflexivity.
  - rewrite IH. unfold Spec.bsc_totals_step, Spec.bsc_reported. cbn [flat_map].
    destruct (Spec.bsc_paired s i); reflexivity.
Qed.

Lemma bsc_fold_group (s : Session) (its : list BSCIndicator.t) :
  forall g,
  fold_left (fun g i => Spec.bsc_group_step s i g) its g
  = mkGroup (items g ++ map (Spec.bsc_item_of s) its)
      (fold_left (fun t i => Spec.bsc_totals_step s i t) its (sums g)).
Proof.
  induction its as [|i its IH]; intros g; cbn [fold_left map].
  - rewrite app_nil_r. destruct g; reflexivity.
  - rewrite IH. cbn [Spec.bsc_group_step items sums]. rewrite <- app_assoc. reflexivity.
Qed.

(** The dashboard, bucket by bucket. *)
Lemma bsc_dashboard_shape (s : Session) (period_id : UUID) :
  exists d,
    get_dashboard_data period_id s = (s, Ok d)
    /\ NoDup (map fst (perspectives d))
    /\ (forall p,
          dict_getitem BSCPerspective_eqb (perspectives d) p
          = if existsb (fun i => BSCPerspective_eqb (BSCIndicator.perspective i) p)
                 (Spec.bsc_indicators s period_id)
            then Some (Spec.bsc_group_of s (Spec.bsc_in_perspective p
                                     (Spec.bsc_indicators s period_id)))
            else None)
    /\ totals d = Spec.bsc_sums s (Spec.bsc_indicators s period_id).
Proof.
  unfold get_dashboard_data, bind, get_by_period.
  change (filter _ (bsc_indicator s)) with (Spec.bsc_indicators s period_id).
  set (inds := Spec.bsc_indicators s period_id).
  rewrite (DictFacts.fold_left_ext _
             (fun acc i =>
                (dict_upsert BSCPerspective_eqb BSCIndicator.perspective
                   (Spec.bsc_group_step s) (mkGroup [] zero_totals) (fst acc) i,
                 (fun t i => Spec.bsc_totals_step s i t) (snd acc) i))
             _ _ (bsc_dashboard_step_eq s)).
  rewrite (DictFacts.fold_left_pair
             (dict_upsert BSCPerspective_eqb BSCIndicator.perspective
                (Spec.bsc_group_step s) (mkGroup [] zero_totals))
             (fun t i => Spec.bsc_totals_step s i t)).
  destruct (DictFacts.fold_upsert BSCPerspective_eqb
              DictFacts.BSCPerspective_eqb_eq BSCIndicator.perspective
              (Spec.bsc_group_step s) (mkGroup [] zero_totals) inds [])
    as [Hnd Hget]; [constructor|].
  eexists. split; [reflexivity|]. cbn [perspectives totals].
  split; [exact Hnd|]. split.
  - intros p. rewrite Hget. cbn [dict_getitem].
    destruct (existsb _ inds); [|reflexivity].
    unfold dict_group. rewrite bsc_fold_group, bsc_fold_totals. reflexivity.
  - rewrite bsc_fold_totals. reflexivity.
Qed.

End BSCDashboardFacts.

(* ================================================================== *)
(** ** The MPM dashboard *)

Module MPMDashboardFacts.
Import MPM.

Lemma mpm_dashboard_step_eq (s : Session)
  (acc : list (MPMBucketKey * Group) * Totals) (i : MPMIndicator.t) :
  dashboard_step s acc i
  = (dict_upsert MPMBucketKey_eqb bucket_key
       (Spec.mpm_group_step s) (mkGroup [] zero_totals) (fst acc) i,
     Spec.mpm_totals_step s i (snd acc)).
Proof.
  destruct acc as [d t]. unfold dashboard_step, dict_upsert. cbn [fst snd].
  unfold Spec.mpm_totals_step.
  pose proof (DictFacts.modify_modify (V := Group) MPMBucketKey_eqb
                DictFacts.MPMBucketKey_eqb_eq) as Hmm.
  destruct (latest_actual s i) as [a|] eqn:Ea.
  - f_equal. rewrite !Hmm. apply DictFacts.dict_modify_ext. intros g.
    unfold Spec.mpm_group_step, Spec.mpm_totals_step, Spec.mpm_item_of. rewrite Ea. reflexivity.
  - f_equal. rewrite !Hmm. apply DictFacts.dict_modify_ext. intros g.
    unfold Spec.mpm_group_step, Spec.mpm_totals_step, Spec.mpm_item_of. rewrite Ea. reflexivity.
Qed.

Lemma mpm_fold_totals (s : Session) (its : list MPMIndicator.t) :
  forall t,
  fold_left (fun t i => Spec.mpm_totals_step s i t) its t
  = mkTotals
      (fold_left Dec.add (map MPMIndicator.weight its) (total_weight t))
      (fold_left Dec.add (map MPMActual.score (Spec.mpm_reported s its))
         (total_score t)).
Proof.
  induction its as [|i its IH]; intros t; cbn [fold_left map].
  - destruct t; reflexivity.
  - rewrite IH. unfold Spec.mpm_totals_step, Spec.mpm_reported. cbn [flat_map].
    destruct (latest_actual s i); reflexivity.
Qed.

Lemma mpm_fold_group (s : Session) (its : list MPMIndicator.t) :
  forall g,
  fold_left (fun g i => Spec.mpm_group_step s i g) its g
  = mkGroup (items g ++ map (Spec.mpm_item_of s) its)
      (fold_left (fun t i => Spec.mpm_totals_step s i t) its (sums g)).
Proof.
  induction its as [|i its IH]; intros g; cbn [fold_left map].
  - rewrite app_nil_r. destruct g; reflexivity.
  - rewrite IH. cbn [Spec.mpm_group_step items sums]. rewrite <- app_assoc. reflexivity.
Qed.

Lemma mpm_dashboard_shape collation (s : Session) (period_id : UUID) :
  exists d,
    get_dashboard_data collation period_id s = (s, Ok d)
    /\ NoDup (map fst (perspectives d))
    /\ (forall k,
          dict_getitem MPMBucketKey_eqb (perspectives d) k
          = if existsb (fun i => MPMBucketKey_eqb (bucket_key i) k)
                 (Spec.mpm_indicators collation s period_id)
            then Some (Spec.mpm_group_of s (Spec.mpm_in_bucket k
                                     (Spec.mpm_indicators collation s period_id)))
            else None)
    /\ totals d = Spec.mpm_sums s (Spec.mpm_indicators collation s period_id).
Proof.
  unfold get_dashboard_data, bind, get_by_period.
  change (order_by _ collation _)
    with (Spec.mpm_indicators collation s period_id).
  set (inds := Spec.mpm_indicators collation s period_id).
  rewrite (DictFacts.fold_left_ext _
             (fun acc i =>
                (dict_upsert MPMBucketKey_eqb bucket_key
                   (Spec.mpm_group_step s) (mkGroup [] zero_totals) (fst acc) i,
                 (fun t i => Spec.mpm_totals_step s i t) (snd acc) i))
             _ _ (mpm_dashboard_step_eq s)).
  rewrite (DictFacts.fold_left_pair
             (dict_upsert MPMBucketKey_eqb bucket_key
                (Spec.mpm_group_step s) (mkGroup [] zero_totals))
             (fun t i => Spec.mpm_totals_step s i t)).
  destruct (DictFacts.fold_upsert MPMBucketKey_eqb
              DictFacts.MPMBucketKey_eqb_eq bucket_key
              (Spec.mpm_group_step s) (mkGroup [] zero_totals) inds [])
    as [Hnd Hget]; [constructor|].
  eexists. split; [reflexivity|]. cbn [perspectives totals].
  split; [exact Hnd|]. split.
  - intros k. rewrite Hget. cbn [dict_getitem].
    destruct (existsb _ inds); [|reflexivity].
    unfold dict_group. rewrite mpm_fold_group, mpm_fold_totals. reflexivity.
  - rewrite mpm_fold_totals. reflexivity.
Qed.

End MPMDashboardFacts.

(* ================================================================== *)
(** ** Which indicators a dashboard holds *)

Module MembershipFacts.

Lemma bsc_members (s : Session) (period_id : UUID) (d : BSC.Dashboard) :
  NoDup (map fst (BSC.perspectives d)) ->
  (forall p,
     dict_getitem BSCPerspective_eqb (BSC.perspectives d) p
     = if existsb (fun i => BSCPerspective_eqb (BSCIndicator.perspective i) p)
            (Spec.bsc_indicators s period_id)
       then Some (Spec.bsc_group_of s
                    (Spec.bsc_in_perspective p
                       (Spec.bsc_indicators s period_id)))
       else None) ->
  forall i, In i (Spec.bsc_dashboard_indicators d)
            <-> In i (Spec.bsc_indicators s period_id).
Proof.
  intros Hnd Hget i. unfold Spec.bsc_dashboard_indicators. split.
  - intros Hin. apply in_flat_map in Hin as [[p g] [Hpg Hi]]. cbn [snd] in Hi.
    apply (DictFacts.In_getitem BSCPerspective_eqb
             DictFacts.BSCPerspective_eqb_eq _ _ _ Hnd) in Hpg.
    rewrite Hget in Hpg. destruct (existsb _ _); [|discriminate].
    injection Hpg as <-. cbn in Hi. rewrite map_map in Hi. cbn in Hi.
    rewrite map_id in Hi. apply filter_In in Hi as [Hi _]. exact Hi.
  - intros Hin. apply in_flat_map.
    set (p := BSCIndicator.perspective i).
    assert (He : existsb
                   (fun j => BSCPerspective_eqb (BSCIndicator.perspective j) p)
                   (Spec.bsc_indicators s period_id) = true).
    { apply existsb_exists. exists i. split; [exact Hin|].
      apply DictFacts.BSCPerspective_eqb_eq. reflexivity. }
    specialize (Hget p). rewrite He in Hget.
    apply (DictFacts.In_getitem BSCPerspective_eqb
             DictFacts.BSCPerspective_eqb_eq _ _ _ Hnd) in Hget.
    eexists. split; [exact Hget|]. cbn. rewrite map_map. cbn. rewrite map_id.
    apply filter_In. split; [exact Hin|].
    apply DictFacts.BSCPerspective_eqb_eq. reflexivity.
Qed.

Lemma mpm_members collation (s : Session) (period_id : UUID)
  (d : MPM.Dashboard) :
  NoDup (map fst (MPM.perspectives d)) ->
  (forall k,
     dict_getitem MPMBucketKey_eqb (MPM.perspectives d) k
     = if existsb (fun i => MPMBucketKey_eqb (MPM.bucket_key i) k)
            (Spec.mpm_indicators collation s period_id)
       then Some (Spec.mpm_group_of s
                    (Spec.mpm_in_bucket k
                       (Spec.mpm_indicators collation s period_id)))
       else None) ->
  forall i, In i (Spec.mpm_dashboard_indicators d)
            <-> In i (Spec.mpm_indicators collation s period_id).
Proof.
  intros Hnd Hget i. unfold Spec.mpm_dashboard_indicators. split.
  - intros Hin. apply in_flat_map in Hin as [[k g] [Hkg Hi]]. cbn [snd] in Hi.
    apply (DictFacts.In_getitem MPMBucketKey_eqb
             DictFacts.MPMBucketKey_eqb_eq _ _ _ Hnd) in Hkg.
    rewrite Hget in Hkg. destruct (existsb _ _); [|discriminate].
    injection Hkg as <-. cbn in Hi. rewrite map_map in Hi. cbn in Hi.
    rewrite map_id in Hi. apply filter_In in Hi as [Hi _]. exact Hi.
  - intros Hin. apply in_flat_map.
    set (k := MPM.bucket_key i).
    assert (He : existsb (fun j => MPMBucketKey_eqb (MPM.bucket_key j) k)
                   (Spec.mpm_indicators collation s period_id) = true).
    { apply existsb_exists. exists i. split; [exact Hin|].
      apply DictFacts.MPMBucketKey_eqb_eq. reflexivity. }
    specialize (Hget k). rewrite He in Hget.
    apply (DictFacts.In_getitem MPMBucketKey_eqb
             DictFacts.MPMBucketKey_eqb_eq _ _ _ Hnd) in Hget.
    eexists. split; [exact Hget|]. cbn. rewrite map_map. cbn. rewrite map_id.
    apply filter_In. split; [exact Hin|].
    apply DictFacts.MPMBucketKey_eqb_eq. reflexivity.
Qed.

(** C6, as the code has it.  The indicators in the dashboard of a
    period, BSC and MPM, are exactly the indicators of that period that
    are not soft-deleted; the [is_active] flag is not looked at, and an
    inactive indicator is filed and summed like any other. *)
Theorem dashboard_holds_the_non_deleted_indicators :
  (forall s period_id,
     exists d,
       BSC.get_dashboard_data period_id s = (s, Ok d)
       /\ forall i,
            In i (Spec.bsc_dashboard_indicators d)
            <-> (In i (bsc_indicator s)
                 /\ BSCIndicator.period_id i = period_id
                 /\ BSCIndicator.is_deleted i = false))
  /\ (forall collation s period_id,
        exists d,
          MPM.get_dashboard_data collation period_id s = (s, Ok d)
          /\ forall i,
               In i (Spec.mpm_dashboard_indicators d)
               <-> (In i (mpm_indicator s)
                    /\ MPMIndicator.period_id i = period_id
                    /\ MPMIndicator.is_deleted i = false)).
Proof.
  split.
  - intros s period_id.
    destruct (BSCDashboardFacts.bsc_dashboard_shape s period_id)
      as [d [Hd [Hnd [Hget _]]]].
    exists d. split; [exact Hd|]. intros i.
    rewrite (bsc_members s period_id d Hnd Hget).
    unfold Spec.bsc_indicators. rewrite filter_In, andb_true_iff,
      Z.eqb_eq, negb_true_iff. tauto.
  - intros collation s period_id.
    destruct (MPMDashboardFacts.mpm_dashboard_shape collation s period_id)
      as [d [Hd [Hnd [Hget _]]]].
    exists d. split; [exact Hd|]. intros i.
    rewrite (mpm_members collation s period_id d Hnd Hget).
    unfold Spec.mpm_indicators. rewrite OrderFacts.In_order_by.
    unfold Spec.mpm_live_indicators. rewrite filter_In, andb_true_iff,
      Z.eqb_eq, negb_true_iff. tauto.
Qed.

(** C6 as stated fails: the indicator of weight 30 is inactive and not
    deleted; it is in the Financial bucket of the dashboard and its
    weight is in the total, 50. *)
Lemma dashboard_includes_inactive_indicator :
  BSCIndicator.is_active Examples.bsc_i2 = false
  /\ exists d,
       BSC.get_dashboard_data 10 Examples.bsc_dash = (Examples.bsc_dash, Ok d)
       /\ In Examples.bsc_i2 (Spec.bsc_dashboard_indicators d)
       /\ BSC.total_weight (BSC.totals d) = Examples.d_50.
Proof.
  split; [reflexivity|]. eexists. split; [vm_compute; reflexivity|].
  split; [right; left; reflexivity|reflexivity].
Qed.

End MembershipFacts.

(* ================================================================== *)
(** ** Which actual a dashboard pairs with an indicator *)

Module PairingFacts.

(** MPM: the paired actual is the most recent live actual of the
    indicator. *)
Lemma mpm_dashboard_pairs_latest collation (s : Session) (period_id : UUID) :
  exists d,
    MPM.get_dashboard_data collation period_id s = (s, Ok d)
    /\ forall k g item,
         In (k, g) (MPM.perspectives d) -> In item (MPM.items g) ->
         MPM.actual item = MPM.latest_actual s (MPM.indicator item)
         /\ forall a,
              MPM.actual item = Some a ->
              In a (mpm_actual s)
              /\ MPMActual.indicator_id a = MPMIndicator.id (MPM.indicator item)
              /\ MPMActual.is_deleted a = false
              /\ forall a',
                   In a' (mpm_actual s) ->
                   MPMActual.indicator_id a'
                   = MPMIndicator.id (MPM.indicator item) ->
                   MPMActual.is_deleted a' = false ->
                   MPMActual.created_at a' <= MPMActual.created_at a.
Proof.
  destruct (MPMDashboardFacts.mpm_dashboard_shape collation s period_id)
    as [d [Hd [Hnd [Hget _]]]].
  exists d. split; [exact Hd|]. intros k g item Hkg Hitem.
  apply (DictFacts.In_getitem MPMBucketKey_eqb
           DictFacts.MPMBucketKey_eqb_eq _ _ _ Hnd) in Hkg.
  rewrite Hget in Hkg. destruct (existsb _ _); [|discriminate].
  injection Hkg as <-. cbn in Hitem.
  apply in_map_iff in Hitem as [i [<- _]]. cbn.
  split; [reflexivity|]. intros a Ha. unfold MPM.latest_actual in Ha.
  set (live := filter _ (mpm_actual s)) in Ha.
  assert (Hin : In a live).
  { apply (OrderFacts.In_order_by_desc MPMActual.created_at Z.leb).
    apply PeriodFacts.first_In. exact Ha. }
  pose proof Hin as Hin'. apply filter_In in Hin' as [Hina Hc].
  apply andb_prop in Hc as [Hid Hdel]. apply Z.eqb_eq in Hid.
  apply negb_true_iff in Hdel.
  split; [exact Hina|]. split; [exact Hid|]. split; [exact Hdel|].
  intros a' Hina' Hid' Hdel'. apply Z.leb_le.
  apply (OrderFacts.first_order_by_desc_max MPMActual.created_at Z.leb) with (l := live).
  - intros x y. rewrite !Z.leb_le. lia.
  - intros x y z. rewrite !Z.leb_le. lia.
  - exact Ha.
  - apply filter_In. split; [exact Hina'|].
    rewrite Hid', Z.eqb_refl, Hdel'. reflexivity.
Qed.

(** BSC: the paired actual is the first live actual of the indicator in
    storage order; the statement of the loop has no ORDER BY. *)
Lemma bsc_dashboard_pairs_first_stored (s : Session) (period_id : UUID) :
  exists d,
    BSC.get_dashboard_data period_id s = (s, Ok d)
    /\ forall p g item,
         In (p, g) (BSC.perspectives d) -> In item (BSC.items g) ->
         BSC.actual item = first (BSC.actuals_of s (BSC.indicator item)).
Proof.
  destruct (BSCDashboardFacts.bsc_dashboard_shape s period_id)
    as [d [Hd [Hnd [Hget _]]]].
  exists d. split; [exact Hd|]. intros p g item Hpg Hitem.
  apply (DictFacts.In_getitem BSCPerspective_eqb
           DictFacts.BSCPerspective_eqb_eq _ _ _ Hnd) in Hpg.
  rewrite Hget in Hpg. destruct (existsb _ _); [|discriminate].
  injection Hpg as <-. cbn in Hitem.
  apply in_map_iff in Hitem as [i [<- _]]. reflexivity.
Qed.

(** C5 fails for BSC.  The indicator has two live actuals, created at
    times 1 and 2.  The dashboard pairs it with the one created at 1,
    the first stored, and sums its score 10; the most recent actual,
    which [get_latest_by_indicator] returns, is the one created at 2,
    scoring 15. *)
Theorem bsc_dashboard_pairs_oldest_actual :
  exists d g item,
    BSC.get_dashboard_data 10 Examples.bsc_two_actuals
    = (Examples.bsc_two_actuals, Ok d)
    /\ BSC.perspectives d = [(BSC_FINANCIAL, g)]
    /\ BSC.items g = [item]
    /\ BSC.indicator item = Examples.bsc_i1
    /\ BSC.actual item = Some Examples.bsc_a1
    /\ BSC.total_score (BSC.totals d) = Examples.d_10
    /\ BSC.get_latest_by_indicator 1 Examples.bsc_two_actuals
       = (Examples.bsc_two_actuals, Ok (Some Examples.bsc_a2))
    /\ BSCActual.created_at Examples.bsc_a1
       < BSCActual.created_at Examples.bsc_a2.
Proof.
  eexists; eexists; eexists.
  split; [vm_compute; reflexivity|].
  repeat (split; [reflexivity|]). reflexivity.
Qed.

End PairingFacts.

(* ================================================================== *)
(** ** Uniqueness of indicators *)

Module UniquenessFacts.

(** [create_indicator] refuses a code that a live indicator of the
    period already has, and a kpi likewise. *)
Lemma create_indicator_rejects_duplicate :
  (forall s indicator_in (existing : BSCIndicator.t),
     In existing (bsc_indicator s) ->
     BSCIndicator.is_deleted existing = false ->
     BSCIndicator.code existing = BSC.ic_code indicator_in ->
     BSCIndicator.period_id existing = BSC.ic_period_id indicator_in ->
     BSC.create_indicator indicator_in s
     = (s, Raise (HTTPException HTTP_400_BAD_REQUEST)))
  /\ (forall s indicator_in (existing : MPMIndicator.t),
        In existing (mpm_indicator s) ->
        MPMIndicator.is_deleted existing = false ->
        MPMIndicator.kpi existing = MPM.ic_kpi indicator_in ->
        MPMIndicator.period_id existing = MPM.ic_period_id indicator_in ->
        MPM.create_indicator indicator_in s
        = (s, Raise (HTTPException HTTP_400_BAD_REQUEST))).
Proof.
  split.
  - intros s indicator_in existing Hin Hdel Hcode Hper.
    unfold BSC.create_indicator, bind, BSC.get_by_code.
    destruct (first _) as [e|] eqn:E; [reflexivity|]. exfalso.
    assert (H : In existing
      (filter (fun r =>
          (BSCIndicator.code r =? BSC.ic_code indicator_in)%string
          && (BSCIndicator.period_id r =? BSC.ic_period_id indicator_in)
          && negb (BSCIndicator.is_deleted r)) (bsc_indicator s))).
    { apply filter_In. split; [exact Hin|].
      rewrite Hcode, Hper, Hdel, String.eqb_refl, Z.eqb_refl. reflexivity. }
    destruct (filter _ (bsc_indicator s)); [destruct H|discriminate].
  - intros s indicator_in existing Hin Hdel Hkpi Hper.
    unfold MPM.create_indicator, bind, MPM.get_by_kpi.
    destruct (first _) as [e|] eqn:E; [reflexivity|]. exfalso.
    assert (H : In existing
      (filter (fun r =>
          (MPMIndicator.kpi r =? MPM.ic_kpi indicator_in)%string
          && (MPMIndicator.period_id r =? MPM.ic_period_id indicator_in)
          && negb (MPMIndicator.is_deleted r)) (mpm_indicator s))).
    { apply filter_In. split; [exact Hin|].
      rewrite Hkpi, Hper, Hdel, String.eqb_refl, Z.eqb_refl. reflexivity. }
    destruct (filter _ (mpm_indicator s)); [destruct H|discriminate].
Qed.

Lemma filter_nil_none {A} (f : A -> bool) (l : list A) (x : A) :
  first (filter f l) = None -> In x l -> f x = false.
Proof.
  intros Hf Hin. destruct (f x) eqn:E; [|reflexivity].
  assert (H : In x (filter f l)) by (apply filter_In; auto).
  destruct (filter f l); [destruct H|discriminate].
Qed.

(** [create_indicator] keeps the invariant, for BSC and for MPM. *)
Lemma create_indicator_preserves_uniqueness :
  (forall s indicator_in,
     Spec.bsc_unique_code s ->
     Spec.bsc_unique_code (fst (BSC.create_indicator indicator_in s)))
  /\ (forall s indicator_in,
        Spec.mpm_unique_kpi s ->
        Spec.mpm_unique_kpi (fst (MPM.create_indicator indicator_in s))).
Proof.
  split.
  - intros s indicator_in Huniq.
    unfold BSC.create_indicator, bind, BSC.get_by_code.
    destruct (first _) as [e|] eqn:E; [exact Huniq|].
    unfold create. cbn.
    intros a b Ha Hb Hda Hdb Hcode Hper. cbn in Ha, Hb.
    apply in_app_or in Ha. apply in_app_or in Hb.
    destruct Ha as [Ha|[<-|[]]]; destruct Hb as [Hb|[<-|[]]]; cbn in *.
    + apply Huniq; assumption.
    + pose proof (filter_nil_none _ _ a E Ha) as Hf. cbn in Hf.
      rewrite Hcode, Hper, Hda, String.eqb_refl, Z.eqb_refl in Hf.
      discriminate.
    + pose proof (filter_nil_none _ _ b E Hb) as Hf. cbn in Hf.
      rewrite <- Hcode, <- Hper, Hdb, String.eqb_refl, Z.eqb_refl in Hf.
      discriminate.
    + reflexivity.
  - intros s indicator_in Huniq.
    unfold MPM.create_indicator, bind, MPM.get_by_kpi.
    destruct (first _) as [e|] eqn:E; [exact Huniq|].
    assert (Hnew : forall row,
              MPMIndicator.kpi row = MPM.ic_kpi indicator_in ->
              MPMIndicator.period_id row = MPM.ic_period_id indicator_in ->
              Spec.mpm_unique_kpi
                (advance (set_table (mpm_indicator s ++ [row]) s))).
    { intros row Hk Hp a b Ha Hb Hda Hdb Hkpi Hper. cbn in Ha, Hb.
      apply in_app_or in Ha. apply in_app_or in Hb.
      destruct Ha as [Ha|[<-|[]]]; destruct Hb as [Hb|[<-|[]]].
      - apply Huniq; assumption.
      - pose proof (filter_nil_none _ _ a E Ha) as Hf. cbn in Hf.
        rewrite Hkpi, Hper, Hk, Hp, Hda, String.eqb_refl, Z.eqb_refl in Hf.
        discriminate.
      - pose proof (filter_nil_none _ _ b E Hb) as Hf. cbn in Hf.
        rewrite <- Hkpi, <- Hper, Hk, Hp, Hdb, String.eqb_refl, Z.eqb_refl in Hf.
        discriminate.
      - reflexivity. }
    destruct (MPM.ic_perspective indicator_in) as [p|].
    + unfold MPM.get_next_kpi_number, create. cbn. apply Hnew; reflexivity.
    + unfold create. cbn. apply Hnew; reflexivity.
Qed.

(** C9 fails for a BSC update that changes [period_id] alone.  The
    session holds one indicator coded F1 in period 10 and one coded F1
    in period 20, so the invariant holds.  Updating the second with the
    payload [{"period_id": 10}] succeeds: the duplicate check is made
    only when the payload changes the code.  Afterwards two live
    indicators have the key (F1, period 10). *)
Theorem bsc_update_period_breaks_uniqueness :
  Spec.bsc_unique_code Examples.bsc_same_code
  /\ exists s' row,
       BSC.update_indicator 2 Examples.move_to_period_10 Examples.bsc_same_code
       = (s', Ok row)
       /\ BSCIndicator.code row = "F1"%string
       /\ BSCIndicator.period_id row = 10
       /\ In Examples.bsc_f1_p10 (bsc_indicator s')
       /\ In row (bsc_indicator s')
       /\ BSCIndicator.id row <> BSCIndicator.id Examples.bsc_f1_p10
       /\ ~ Spec.bsc_unique_code s'.
Proof.
  split.
  - intros a b [<-|[<-|[]]] [<-|[<-|[]]] _ _ _ Hper; cbn in *;
      try reflexivity; discriminate.
  - eexists; eexists. split; [vm_compute; reflexivity|].
    split; [reflexivity|]. split; [reflexivity|].
    split; [left; reflexivity|]. split; [right; left; reflexivity|].
    split; [discriminate|].
    intros Huniq.
    specialize (Huniq Examples.bsc_f1_p10
                  (BSCIndicator.mk 2 "F1" "Revenue" BSC_FINANCIAL Examples.d_20
                     true 10 0 (Some 1000) false)
                  (or_introl eq_refl) (or_intror (or_introl eq_refl))
                  eq_refl eq_refl eq_refl eq_refl).
    discriminate Huniq.
Qed.

(** The same check is skipped when the new code, or the new kpi, is the
    empty string: the guard tests its truth value. *)
Example update_to_empty_key_unchecked :
  (exists s' row,
     BSC.update_indicator 2
       (BSCIndicator.mkdict (Value EmptyString) Unset Unset Unset Unset Unset)
       (mkSession []
          [BSCIndicator.mk 1 EmptyString "Revenue" BSC_FINANCIAL Examples.d_20 true 10 0
             None false;
           BSCIndicator.mk 2 "F2" "Margin" BSC_FINANCIAL Examples.d_20 true 10 0
             None false] [] [] [] [] [] [] 100 1000)
     = (s', Ok row)
     /\ map (fun r => (BSCIndicator.code r, BSCIndicator.period_id r))
          (bsc_indicator s') = [(EmptyString, 10); (EmptyString, 10)])
  /\ (exists s' row,
        MPM.update_indicator 2
          {| MPM.iu_kpi := Value EmptyString; MPM.iu_weight := Unset;
             MPM.iu_kpi_number := Unset; MPM.iu_perspective := Unset;
             MPM.iu_is_active := Unset |}
          (mkSession [] [] []
             [MPMIndicator.mk 1 EmptyString Examples.d_20 None None true 10 0 None false;
              MPMIndicator.mk 2 "Margin" Examples.d_20 None None true 10 0 None
                false] [] [] [] [] 100 1000)
        = (s', Ok row)
        /\ map (fun r => (MPMIndicator.kpi r, MPMIndicator.period_id r))
             (mpm_indicator s') = [(EmptyString, 10); (EmptyString, 10)]).
Proof.
  split; eexists; eexists; (split; [vm_compute; reflexivity|reflexivity]).
Qed.

End UniquenessFacts.

(* ================================================================== *)
(** ** The table classes keep the repository's assumptions *)

Module RepositoryLaws.

Ltac model_laws := constructor; intros; reflexivity.

#[export] Instance Period_ModelLaws : ModelLaws Period.t.
Proof. model_laws. Qed.
#[export] Instance BSCIndicator_ModelLaws : ModelLaws BSCIndicator.t.
Proof. model_laws. Qed.
#[export] Instance BSCActual_ModelLaws : ModelLaws BSCActual.t.
Proof. model_laws. Qed.
#[export] Instance MPMIndicator_ModelLaws : ModelLaws MPMIndicator.t.
Proof. model_laws. Qed.
#[export] Instance MPMMonthlyTarget_ModelLaws : ModelLaws MPMMonthlyTarget.t.
Proof. model_laws. Qed.
#[export] Instance MPMActionPlan_ModelLaws : ModelLaws MPMActionPlan.t.
Proof. model_laws. Qed.
#[export] Instance MPMQuarterlyData_ModelLaws : ModelLaws MPMQuarterlyData.t.
Proof. model_laws. Qed.
#[export] Instance MPMActual_ModelLaws : ModelLaws MPMActual.t.
Proof. model_laws. Qed.

(** A row built by [let?] steps: every step that fails ends the
    construction, the last one gives the row. *)
Ltac built H :=
  repeat match type of H with
  | obind ?e _ = Some _ =>
      let E := fresh "E" in
      destruct e eqn:E; cbn [obind] in H; [|discriminate H]
  end;
  injection H as <-.

Ltac mapped_laws :=
  constructor;
  [ intros d i now o Hnew; cbn in Hnew;
    match type of Hnew with ?f d i now = _ => unfold f in Hnew end;
    built Hnew; reflexivity
  | intros d i now o Hnew; cbn in Hnew;
    match type of Hnew with ?f d i now = _ => unfold f in Hnew end;
    built Hnew; reflexivity
  | intros o d o' Hset; cbn in Hset;
    match type of Hset with ?f o d = _ => unfold f in Hset end;
    built Hset; reflexivity
  | intros o d o' Hset; cbn in Hset;
    match type of Hset with ?f o d = _ => unfold f in Hset end;
    built Hset; reflexivity
  | intros; reflexivity
  | intros; reflexivity ].

#[export] Instance BSCIndicator_MappedLaws
  : MappedLaws BSCIndicator.t BSCIndicator.dict.
Proof. mapped_laws. Qed.
#[export] Instance BSCActual_MappedLaws
  : MappedLaws BSCActual.t BSCActual.dict.
Proof. mapped_laws. Qed.
#[export] Instance MPMIndicator_MappedLaws
  : MappedLaws MPMIndicator.t MPMIndicator.dict.
Proof. mapped_laws. Qed.
#[export] Instance MPMActionPlan_MappedLaws
  : MappedLaws MPMActionPlan.t MPMActionPlan.dict.
Proof. mapped_laws. Qed.
#[export] Instance MPMQuarterlyData_MappedLaws
  : MappedLaws MPMQuarterlyData.t MPMQuarterlyData.dict.
Proof. mapped_laws. Qed.
#[export] Instance MPMActual_MappedLaws
  : MappedLaws MPMActual.t MPMActual.dict.
Proof. mapped_laws. Qed.

Ltac audit_laws := constructor; intros; reflexivity.

#[export] Instance Period_AuditLaws : AuditLaws Period.t.
Proof. audit_laws. Qed.
#[export] Instance BSCIndicator_AuditLaws : AuditLaws BSCIndicator.t.
Proof. audit_laws. Qed.
#[export] Instance BSCActual_AuditLaws : AuditLaws BSCActual.t.
Proof. audit_laws. Qed.
#[export] Instance MPMIndicator_AuditLaws : AuditLaws MPMIndicator.t.
Proof. audit_laws. Qed.
#[export] Instance MPMMonthlyTarget_AuditLaws : AuditLaws MPMMonthlyTarget.t.
Proof. audit_laws. Qed.
#[export] Instance MPMActionPlan_AuditLaws : AuditLaws MPMActionPlan.t.
Proof. audit_laws. Qed.
#[export] Instance MPMQuarterlyData_AuditLaws : AuditLaws MPMQuarterlyData.t.
Proof. audit_laws. Qed.
#[export] Instance MPMActual_AuditLaws : AuditLaws MPMActual.t.
Proof. audit_laws. Qed.

End RepositoryLaws.

(* ================================================================== *)
(** ** BaseRepository: what is stored is what is found *)

Module CrudFacts.
Import RepositoryLaws.

Section Tables.
Context {T : Type} `{ModelLaws T}.

Lemma lookup_commit (l : list T) (s : Session) (id : UUID) :
  Spec.lookup (advance (set_table l s)) id = first (filter (live_at id) l).
Proof.
  unfold Spec.lookup. rewrite table_advance, table_set_table. reflexivity.
Qed.

Lemma table_commit (l : list T) (s : Session) :
  table (advance (set_table l s)) = l.
Proof. rewrite table_advance, table_set_table. reflexivity. Qed.

Lemma filter_merge_other (o : T) (rows : list T) (id : UUID) :
  id <> row_id o ->
  filter (live_at id) (merge o rows) = filter (live_at id) rows.
Proof.
  intros Hne. unfold merge.
  induction rows as [|r rows IH]; [reflexivity|]. cbn [map filter].
  rewrite IH. destruct (Z.eqb_spec (row_id r) (row_id o)) as [E|E];
    [|reflexivity].
  unfold live_at.
  destruct (Z.eqb_spec (row_id o) id) as [E1|_]; [congruence|].
  destruct (Z.eqb_spec (row_id r) id) as [E2|_]; [congruence|].
  reflexivity.
Qed.

Lemma first_merge_deleted (o : T) (rows : list T) :
  row_is_deleted o = true ->
  first (filter (live_at (row_id o)) (merge o rows)) = None.
Proof.
  intros Hdel. unfold merge.
  induction rows as [|r rows IH]; [reflexivity|]. cbn [map filter].
  destruct (Z.eqb_spec (row_id r) (row_id o)) as [E|E].
  - unfold live_at at 1. rewrite Hdel, andb_false_r. exact IH.
  - unfold live_at at 1.
    destruct (Z.eqb_spec (row_id r) (row_id o)); [contradiction|].
    exact IH.
Qed.

Lemma first_merge_live (o db : T) (rows : list T) :
  row_is_deleted o = false -> In db rows -> row_id db = row_id o ->
  first (filter (live_at (row_id o)) (merge o rows)) = Some o.
Proof.
  intros Hlive Hin Hid. unfold merge.
  induction rows as [|r rows IH]; [destruct Hin|]. cbn [map filter].
  destruct (Z.eqb_spec (row_id r) (row_id o)) as [E|E].
  - unfold live_at at 1. rewrite Z.eqb_refl, Hlive. reflexivity.
  - unfold live_at at 1.
    destruct (Z.eqb_spec (row_id r) (row_id o)); [contradiction|].
    cbn [andb]. apply IH. destruct Hin as [->|Hin]; [congruence|exact Hin].
Qed.

Lemma length_merge (o : T) (rows : list T) :
  List.length (merge o rows) = List.length rows.
Proof. unfold merge. apply length_map. Qed.

Lemma lookup_fresh (s : Session) (id : UUID) :
  ~ In id (map row_id (table s)) -> Spec.lookup (T := T) s id = None.
Proof.
  intros Hfresh. unfold Spec.lookup.
  destruct (filter _ (table s)) as [|x l] eqn:E; [reflexivity|]. exfalso.
  assert (Hx : In x (filter (fun r => (row_id r =? id)
                                      && negb (row_is_deleted r)) (table s)))
    by (rewrite E; left; reflexivity).
  apply filter_In in Hx as [Hx Hc]. apply andb_prop in Hc as [Hc _].
  apply Z.eqb_eq in Hc. apply Hfresh. rewrite <- Hc. apply in_map. exact Hx.
Qed.

Lemma lookup_merge_live (s : Session) (o db : T) (id : UUID) :
  row_is_deleted o = false -> In db (table s) ->
  row_id db = id -> row_id o = id ->
  Spec.lookup (advance (set_table (merge o (table s)) s)) id = Some o.
Proof.
  intros Hlive Hin Hdb Ho. rewrite lookup_commit, <- Ho.
  apply (first_merge_live o db); [assumption..|congruence].
Qed.

Lemma In_merge_cases (o r : T) (rows : list T) :
  In r (merge o rows) -> r = o \/ (In r rows /\ row_id r <> row_id o).
Proof.
  unfold merge. intros Hin. apply in_map_iff in Hin as [x [Hx Hin]].
  destruct (Z.eqb_spec (row_id x) (row_id o)); subst; auto.
Qed.

End Tables.

Section Deletion.
Context {T : Type} `{ModelLaws T} `{!AuditMixin T} `{!AuditLaws T}.

Lemma delete_found (s : Session) (id : UUID) (o : T) :
  Spec.lookup s id = Some o ->
  delete id s
  = (advance (set_table (merge (mark_deleted o (utcnow s)) (table s)) s),
     Ok (mark_deleted o (utcnow s))).
Proof.
  intros Hl. unfold delete, bind.
  rewrite (RepoFacts.get_or_404_found _ _ _ Hl). reflexivity.
Qed.

End Deletion.

(** A soft delete hides the row and nothing else.  For a table class
    that keeps the repository's assumptions: when [get] finds a row
    under [id], [delete] returns that row marked deleted; afterwards
    [get] finds nothing under [id], every other identifier gives what it
    gave before, the table has as many rows as before, and a second
    [delete] of [id] raises HTTP 404 and changes nothing.  When [get]
    finds nothing, [delete] raises HTTP 404 and changes nothing. *)
Theorem delete_hides_the_row_only
    (T : Type) `{ModelLaws T} `{!AuditMixin T} `{!AuditLaws T}
    (s : Session) (id : UUID) :
  (forall o : T,
     Spec.lookup s id = Some o ->
     let s' := fst (delete (T := T) id s) in
     snd (delete (T := T) id s) = Ok (mark_deleted o (utcnow s))
     /\ Spec.lookup (T := T) s' id = None
     /\ (forall id', id' <> id ->
           Spec.lookup (T := T) s' id' = Spec.lookup s id')
     /\ List.length (table (T := T) s') = List.length (table (T := T) s)
     /\ delete (T := T) id s'
        = (s', Raise (HTTPException HTTP_404_NOT_FOUND)))
  /\ (Spec.lookup (T := T) s id = None ->
      delete (T := T) id s = (s, Raise (HTTPException HTTP_404_NOT_FOUND))).
Proof.
  split.
  - intros o Hl s'. subst s'. rewrite (delete_found _ _ _ Hl). cbn [fst snd].
    destruct (RepoFacts.lookup_In _ _ _ Hl) as [Hin [Hid Hlive]].
    set (o' := mark_deleted o (utcnow s)).
    assert (Hid' : row_id o' = id)
      by (unfold o'; rewrite mark_deleted_row_id; exact Hid).
    assert (Hnone :
      Spec.lookup (T := T) (advance (set_table (merge o' (table s)) s)) id
      = None).
    { rewrite lookup_commit, <- Hid'. apply first_merge_deleted.
      apply mark_deleted_row_is_deleted. }
    split; [reflexivity|]. split; [exact Hnone|]. split; [|split].
    + intros id' Hne. rewrite lookup_commit.
      rewrite filter_merge_other by congruence. reflexivity.
    + rewrite table_commit. apply length_merge.
    + unfold delete, bind.
      rewrite (RepoFacts.get_or_404_missing _ _ Hnone). reflexivity.
  - intros Hl. unfold delete, bind.
    rewrite (RepoFacts.get_or_404_missing _ _ Hl). reflexivity.
Qed.

Lemma delete_hides_the_row_only_witness :
  Spec.lookup (T := BSCIndicator.t)
    (fst (delete (T := BSCIndicator.t) 1 Examples.bsc_30)) 1 = None
  /\ delete (T := BSCIndicator.t) 2 Examples.bsc_30
     = (Examples.bsc_30, Raise (HTTPException HTTP_404_NOT_FOUND)).
Proof.
  split.
  - apply (proj1 (delete_hides_the_row_only BSCIndicator.t Examples.bsc_30 1)
             Examples.bsc_indicator_30).
    reflexivity.
  - apply (proj2 (delete_hides_the_row_only BSCIndicator.t Examples.bsc_30 2)).
    reflexivity.
Defined.

Section Writing.
Context {T D : Type} `{ModelLaws T} `{!Mapped T D} `{!MappedLaws T D}.

Lemma filter_live_at_app (id : UUID) (l : list T) (o : T) :
  filter (live_at id) (l ++ [o])
  = filter (live_at id) l ++ (if live_at id o then [o] else []).
Proof. rewrite filter_app. reflexivity. Qed.

End Writing.

(** What [create] stores, [get] finds.  For a table class that keeps
    the repository's assumptions and a session whose next identifier is
    borne by no row of the table: a [create] that returns a row has
    appended that row, live and under the next identifier, to the table;
    [get] of that identifier then returns the row, and every other
    identifier gives what it gave before.  A [create] that raises (a NOT
    NULL column would receive [None]) raises IntegrityError and changes
    nothing. *)
Theorem create_then_get
    (T D : Type) `{ModelLaws T} `{!Mapped T D} `{!MappedLaws T D}
    (s : Session) (obj_in : D) :
  ~ In (uuid4 s) (map (row_id (T := T)) (table s)) ->
  (forall s' (o : T),
     create obj_in s = (s', Ok o) ->
     row_id o = uuid4 s
     /\ row_is_deleted o = false
     /\ table s' = table s ++ [o]
     /\ get (row_id o) s' = (s', Ok (Some o))
     /\ (forall id, id <> uuid4 s ->
           Spec.lookup (T := T) s' id = Spec.lookup s id))
  /\ (forall s' e,
        create (T := T) obj_in s = (s', Raise e) ->
        s' = s /\ e = IntegrityError).
Proof.
  intros Hfresh. unfold create. split.
  - intros s' o Hc.
    destruct (new obj_in (uuid4 s) (utcnow s)) as [db_obj|] eqn:Hnew;
      [|discriminate].
    injection Hc as <- <-.
    pose proof (new_row_id _ _ _ _ Hnew) as Hid.
    pose proof (new_row_live _ _ _ _ Hnew) as Hlive.
    split; [exact Hid|]. split; [exact Hlive|]. split; [|split].
    + apply table_commit.
    + rewrite RepoFacts.get_lookup, lookup_commit, filter_live_at_app.
      pose proof (lookup_fresh s (uuid4 s) Hfresh) as Hnone.
      unfold Spec.lookup in Hnone. rewrite Hid.
      change (fun r : T => (row_id r =? uuid4 s) && negb (row_is_deleted r))
        with (live_at (T := T) (uuid4 s)) in Hnone.
      destruct (filter (live_at (uuid4 s)) (table s)); [|discriminate].
      unfold live_at. rewrite Hid, Z.eqb_refl, Hlive. reflexivity.
    + intros id Hne. rewrite lookup_commit, filter_live_at_app.
      unfold live_at at 2. rewrite Hid.
      destruct (Z.eqb_spec (uuid4 s) id) as [E|_]; [congruence|].
      cbn [andb]. rewrite app_nil_r. reflexivity.
  - intros s' e Hc.
    destruct (new obj_in (uuid4 s) (utcnow s)); [discriminate|].
    injection Hc as <- <-. auto.
Qed.

Lemma create_then_get_witness :
  get (T := BSCActual.t) 100
    (fst (create (T := BSCActual.t) Scenarios.actual_dict Examples.bsc_30))
  = (fst (create (T := BSCActual.t) Scenarios.actual_dict Examples.bsc_30),
     Ok (Some (BSCActual.mk 100 "90" Examples.d_90 Examples.d_30
                 Examples.d_40 Examples.d_2 Examples.d_2 1 1000 None false)))
  /\ fst (create (T := BSCActual.t) Scenarios.actual_dict_null
            Examples.bsc_30)
     = Examples.bsc_30.
Proof.
  assert (Hfresh : ~ In (uuid4 Examples.bsc_30)
                     (map (row_id (T := BSCActual.t))
                        (table Examples.bsc_30)))
    by (cbn; tauto).
  split.
  - destruct (create_then_get BSCActual.t BSCActual.dict Examples.bsc_30
                Scenarios.actual_dict Hfresh) as [Hok _].
    destruct (Hok _ _ eq_refl) as [_ [_ [_ [Hget _]]]]. exact Hget.
  - destruct (create_then_get BSCActual.t BSCActual.dict Examples.bsc_30
                Scenarios.actual_dict_null Hfresh) as [_ Herr].
    destruct (Herr _ _ eq_refl) as [Hs _]. exact Hs.
Defined.

(** What [update] stores, [get] finds; a payload neither deletes a row
    nor gives it another identifier.  For a table class that keeps the
    repository's assumptions and a row [db_obj] that [get] finds under
    [id]: an [update] that returns a row returns one with the same
    identifier, still live; [get] of [id] then returns it, every other
    identifier gives what it gave before and the table has as many rows
    as before.  An [update] that raises raises IntegrityError and
    changes nothing. *)
Theorem update_then_get
    (T D : Type) `{ModelLaws T} `{!Mapped T D} `{!MappedLaws T D}
    (s : Session) (id : UUID) (db_obj : T) (obj_in : D) :
  Spec.lookup s id = Some db_obj ->
  (forall s' (o : T),
     update db_obj obj_in s = (s', Ok o) ->
     row_id o = id
     /\ row_is_deleted o = false
     /\ get id s' = (s', Ok (Some o))
     /\ (forall id', id' <> id ->
           Spec.lookup (T := T) s' id' = Spec.lookup s id')
     /\ List.length (table (T := T) s') = List.length (table (T := T) s))
  /\ (forall s' e,
        update db_obj obj_in s = (s', Raise e) ->
        s' = s /\ e = IntegrityError).
Proof.
  intros Hl. destruct (RepoFacts.lookup_In _ _ _ Hl) as [Hin [Hid Hlive]].
  unfold update. split.
  - intros s' o Hu.
    destruct (setattrs db_obj obj_in) as [o1|] eqn:Hset; [|discriminate].
    injection Hu as <- <-.
    set (o := set_updated_at o1 (utcnow s)).
    assert (Hoid : row_id o = id).
    { unfold o. rewrite set_updated_at_row_id.
      rewrite (setattrs_row_id _ _ _ Hset). exact Hid. }
    assert (Holive : row_is_deleted o = false).
    { unfold o. rewrite set_updated_at_row_is_deleted.
      rewrite (setattrs_row_is_deleted _ _ _ Hset). exact Hlive. }
    split; [exact Hoid|]. split; [exact Holive|]. split; [|split].
    + rewrite RepoFacts.get_lookup, lookup_commit, <- Hoid.
      rewrite (first_merge_live o db_obj); [reflexivity|assumption..|].
      congruence.
    + intros id' Hne. rewrite lookup_commit.
      rewrite filter_merge_other by congruence. reflexivity.
    + rewrite table_commit. apply length_merge.
  - intros s' e Hu.
    destruct (setattrs db_obj obj_in); [discriminate|].
    injection Hu as <- <-. auto.
Qed.

Lemma update_then_get_witness :
  get (T := BSCIndicator.t) 2
    (fst (update Examples.bsc_f1_p20 Examples.move_to_period_10
            Examples.bsc_same_code))
  = (fst (update Examples.bsc_f1_p20 Examples.move_to_period_10
            Examples.bsc_same_code),
     Ok (Some (BSCIndicator.mk 2 "F1" "Revenue" BSC_FINANCIAL Examples.d_20
                 true 10 0 (Some 1000) false)))
  /\ fst (update Examples.bsc_f1_p20 Scenarios.code_null
            Examples.bsc_same_code)
     = Examples.bsc_same_code.
Proof.
  assert (Hl : Spec.lookup Examples.bsc_same_code 2
               = Some Examples.bsc_f1_p20) by reflexivity.
  split.
  - destruct (update_then_get BSCIndicator.t BSCIndicator.dict
                Examples.bsc_same_code 2 Examples.bsc_f1_p20
                Examples.move_to_period_10 Hl) as [Hok _].
    destruct (Hok _ _ eq_refl) as [_ [_ [Hget _]]]. exact Hget.
  - destruct (update_then_get BSCIndicator.t BSCIndicator.dict
                Examples.bsc_same_code 2 Examples.bsc_f1_p20
                Scenarios.code_null Hl) as [_ Herr].
    destruct (Herr _ _ eq_refl) as [Hs _]. exact Hs.
Defined.

End CrudFacts.

(* ================================================================== *)
(** ** Deleting an indicator and the actuals recorded for it *)

Module CascadeFacts.
Import RepositoryLaws.

Lemma lookup_after_delete {T : Type} `{ModelLaws T} `{!AuditMixin T}
    `{!AuditLaws T} (s : Session) (id : UUID) (o : T) :
  Spec.lookup s id = Some o ->
  Spec.lookup (T := T) (fst (delete (T := T) id s)) id = None.
Proof.
  intros Hl. rewrite (CrudFacts.delete_found _ _ _ Hl). cbn [fst].
  destruct (RepoFacts.lookup_In _ _ _ Hl) as [_ [Hid _]].
  rewrite CrudFacts.lookup_commit.
  replace id with (row_id (mark_deleted o (utcnow s)))
    by (rewrite mark_deleted_row_id; exact Hid).
  apply CrudFacts.first_merge_deleted. apply mark_deleted_row_is_deleted.
Qed.

(** The soft delete of an indicator does not reach its actuals, for BSC
    and for MPM alike.  After [delete] of a live indicator the table of
    actuals is what it was, so the actuals of the indicator are still
    live; [create_actual] for the indicator raises HTTP 404 and stores
    nothing; and [update_actual] of one of its actuals raises HTTP 404
    and stores nothing as soon as the payload carries [actual_value] or
    [achievement], because the score is then recomputed from the
    indicator. *)
Theorem delete_indicator_leaves_its_actuals :
  (forall s id (indicator : BSCIndicator.t),
     Spec.lookup s id = Some indicator ->
     let s' := fst (delete (T := BSCIndicator.t) id s) in
     bsc_actual s' = bsc_actual s
     /\ (forall actual_in,
           BSC.ac_indicator_id actual_in = id ->
           BSC.create_actual actual_in s'
           = (s', Raise (HTTPException HTTP_404_NOT_FOUND)))
     /\ (forall actual_id (db_actual : BSCActual.t) actual_in,
           Spec.lookup s actual_id = Some db_actual ->
           BSCActual.indicator_id db_actual = id ->
           is_set (BSC.au_actual_value actual_in)
           || is_set (BSC.au_achievement actual_in) = true ->
           BSC.update_actual actual_id actual_in s'
           = (s', Raise (HTTPException HTTP_404_NOT_FOUND))))
  /\ (forall s id (indicator : MPMIndicator.t),
        Spec.lookup s id = Some indicator ->
        let s' := fst (delete (T := MPMIndicator.t) id s) in
        mpm_actual s' = mpm_actual s
        /\ (forall actual_in,
              MPM.ac_indicator_id actual_in = id ->
              MPM.create_actual actual_in s'
              = (s', Raise (HTTPException HTTP_404_NOT_FOUND)))
        /\ (forall actual_id (db_actual : MPMActual.t) actual_in,
              Spec.lookup s actual_id = Some db_actual ->
              MPMActual.indicator_id db_actual = id ->
              is_set (MPM.au_actual_value actual_in)
              || is_set (MPM.au_achievement actual_in) = true ->
              MPM.update_actual actual_id actual_in s'
              = (s', Raise (HTTPException HTTP_404_NOT_FOUND)))).
Proof.
  split.
  - intros s id indicator Hl s'.
    pose proof (lookup_after_delete s id indicator Hl) as Hnone.
    fold s' in Hnone.
    assert (Htab : bsc_actual s' = bsc_actual s).
    { unfold s'. rewrite (CrudFacts.delete_found _ _ _ Hl). reflexivity. }
    split; [exact Htab|]. split.
    + intros actual_in <-. unfold BSC.create_actual, bind.
      rewrite (RepoFacts.get_or_404_missing _ _ Hnone). reflexivity.
    + intros actual_id db_actual actual_in Ha Hof Hset.
      assert (Ha' : Spec.lookup s' actual_id = Some db_actual).
      { unfold Spec.lookup in *. cbn [table BSCActual_Model] in *.
        rewrite Htab. exact Ha. }
      unfold BSC.update_actual, bind.
      rewrite (RepoFacts.get_or_404_found _ _ _ Ha').
      cbn [BSC.BSCActualUpdate_dict BSCActual.d_actual_value
           BSCActual.d_achievement].
      rewrite Hset, Hof.
      rewrite (RepoFacts.get_or_404_missing _ _ Hnone). reflexivity.
  - intros s id indicator Hl s'.
    pose proof (lookup_after_delete s id indicator Hl) as Hnone.
    fold s' in Hnone.
    assert (Htab : mpm_actual s' = mpm_actual s).
    { unfold s'. rewrite (CrudFacts.delete_found _ _ _ Hl). reflexivity. }
    split; [exact Htab|]. split.
    + intros actual_in <-. unfold MPM.create_actual, bind.
      rewrite (RepoFacts.get_or_404_missing _ _ Hnone). reflexivity.
    + intros actual_id db_actual actual_in Ha Hof Hset.
      assert (Ha' : Spec.lookup s' actual_id = Some db_actual).
      { unfold Spec.lookup in *. cbn [table MPMActual_Model] in *.
        rewrite Htab. exact Ha. }
      unfold MPM.update_actual, bind.
      rewrite (RepoFacts.get_or_404_found _ _ _ Ha').
      cbn [MPM.MPMActualUpdate_dict MPMActual.d_actual_value
           MPMActual.d_achievement].
      rewrite Hset, Hof.
      rewrite (RepoFacts.get_or_404_missing _ _ Hnone). reflexivity.
Qed.

Lemma delete_indicator_leaves_its_actuals_witness :
  BSC.update_actual 21 Examples.bsc_achievement_90
    (fst (delete (T := BSCIndicator.t) 1 Examples.bsc_30_recorded))
  = (fst (delete (T := BSCIndicator.t) 1 Examples.bsc_30_recorded),
     Raise (HTTPException HTTP_404_NOT_FOUND))
  /\ MPM.create_actual Examples.mpm_actual_in_80
       (fst (delete (T := MPMIndicator.t) 1 Examples.mpm_50))
     = (fst (delete (T := MPMIndicator.t) 1 Examples.mpm_50),
        Raise (HTTPException HTTP_404_NOT_FOUND)).
Proof.
  split.
  - destruct (proj1 delete_indicator_leaves_its_actuals
                Examples.bsc_30_recorded 1 Examples.bsc_indicator_30 eq_refl)
      as [_ [_ Hupd]].
    apply (Hupd 21 Examples.bsc_actual_50); reflexivity.
  - destruct (proj2 delete_indicator_leaves_its_actuals
                Examples.mpm_50 1 Examples.mpm_indicator_50 eq_refl)
      as [_ [Hcreate _]].
    apply Hcreate. reflexivity.
Defined.

End CascadeFacts.

(* ================================================================== *)
(** ** Search results, page by page *)

Module PagingFacts.
Import Paging.

Lemma length_page_of {A} (rows : list A) (page page_size : Z) :
  1 <= page -> 1 <= page_size ->
  Z.of_nat (List.length (page_of rows page page_size))
  = Z.min page_size
      (Z.max 0 (Z.of_nat (List.length rows) - (page - 1) * page_size)).
Proof.
  intros Hp Hs. unfold page_of. rewrite length_firstn, length_skipn.
  assert (0 <= (page - 1) * page_size) by nia. lia.
Qed.

Lemma pages_for_bounds (n : nat) (page_size : Z) :
  1 <= page_size ->
  (pages_for n page_size - 1) * page_size < Z.of_nat n
  /\ Z.of_nat n <= pages_for n page_size * page_size
  /\ 0 <= pages_for n page_size.
Proof.
  intros Hs. unfold pages_for.
  pose proof (Z.div_mod (Z.of_nat n + page_size - 1) page_size ltac:(lia))
    as Hdm.
  pose proof (Z.mod_pos_bound (Z.of_nat n + page_size - 1) page_size
                ltac:(lia)) as Hm.
  assert (0 <= (Z.of_nat n + page_size - 1) / page_size)
    by (apply Z.div_pos; lia).
  nia.
Qed.

Lemma offset_limit_page {A} (rows : list A) (page page_size : Z) :
  1 <= page -> 1 <= page_size ->
  offset_limit ((page - 1) * page_size) page_size rows
  = Returns (page_of rows page page_size).
Proof.
  intros Hp Hs. unfold offset_limit.
  destruct (Z.ltb_spec ((page - 1) * page_size) 0); [nia|].
  destruct (Z.ltb_spec page_size 0); [lia|]. reflexivity.
Qed.

Lemma floordiv_pages (n : nat) (page_size : Z) :
  1 <= page_size ->
  floordiv (Z.of_nat n + page_size - 1) page_size
  = Returns (pages_for n page_size).
Proof.
  intros Hs. unfold floordiv.
  destruct (Z.eqb_spec page_size 0); [lia|]. reflexivity.
Qed.

Lemma length_insert_asc {A K} (key : A -> K) (leb : K -> K -> bool)
    (x : A) (l : list A) :
  List.length (insert_asc key leb x l) = S (List.length l).
Proof.
  induction l as [|y l IH]; [reflexivity|]. cbn [insert_asc].
  destruct (leb (key x) (key y)); cbn [List.length]; congruence.
Qed.

Lemma length_order_by {A K} (key : A -> K) (leb : K -> K -> bool)
    (l : list A) :
  List.length (order_by key leb l) = List.length l.
Proof.
  induction l as [|x l IH]; [reflexivity|].
  change (order_by key leb (x :: l))
    with (insert_asc key leb x (order_by key leb l)).
  rewrite length_insert_asc, IH. reflexivity.
Qed.

Lemma bsc_search_indicators_eq contains perspective period_id code is_active
    (page page_size : Z) (s : Session) :
  1 <= page -> 1 <= page_size ->
  BSCSearch.search_indicators contains perspective period_id code is_active
    page page_size s
  = Returns
      (mkPage
         (page_of (BSCSearch.statement contains perspective period_id code
                     is_active s) page page_size)
         (Z.of_nat (List.length
                      (BSCSearch.statement contains perspective period_id
                         code is_active s)))
         page page_size
         (pages_for (List.length
                       (BSCSearch.statement contains perspective period_id
                          code is_active s)) page_size)).
Proof.
  intros Hp Hs. unfold BSCSearch.search_indicators, BSCSearch.search,
    BSCSearch.search_count.
  rewrite offset_limit_page, floordiv_pages by assumption. reflexivity.
Qed.

Lemma mpm_search_indicators_eq collation perspective period_id is_active
    (page page_size : Z) (s : Session) :
  1 <= page -> 1 <= page_size ->
  MPMSearch.search_indicators collation perspective period_id is_active
    page page_size s
  = Returns
      (mkPage
         (page_of
            (order_by
               (fun r => (MPMIndicator.perspective r,
                          MPMIndicator.kpi_number r))
               collation
               (MPMSearch.selected perspective period_id is_active s))
            page page_size)
         (Z.of_nat (List.length
                      (MPMSearch.selected perspective period_id is_active s)))
         page page_size
         (pages_for (List.length
                       (MPMSearch.selected perspective period_id is_active s))
            page_size)).
Proof.
  intros Hp Hs. unfold MPMSearch.search_indicators, MPMSearch.search,
    MPMSearch.search_count.
  rewrite offset_limit_page, floordiv_pages by assumption. reflexivity.
Qed.

Lemma In_page_of {A} (rows : list A) (page page_size : Z) (r : A) :
  In r (page_of rows page page_size) -> In r rows.
Proof.
  unfold page_of. intros Hin.
  set (k := Z.to_nat ((page - 1) * page_size)) in *.
  set (n := Z.to_nat page_size) in *.
  rewrite <- (firstn_skipn k rows). apply in_or_app. right.
  rewrite <- (firstn_skipn n (skipn k rows)). apply in_or_app. left.
  exact Hin.
Qed.

(** A page of search results, for BSC and for MPM.  With [page] and
    [page_size] at least 1 the search returns; [total] counts the
    indicators the filters select; the page holds
    [min(page_size, max(0, total - (page - 1) * page_size))] of them;
    [total_pages] is the least number of pages that hold [total] rows;
    and no row of the page is deleted. *)
Theorem search_indicators_page :
  (forall contains perspective period_id code is_active page page_size s,
     1 <= page -> 1 <= page_size ->
     exists p,
       BSCSearch.search_indicators contains perspective period_id code
         is_active page page_size s = Returns p
       /\ total p
          = Z.of_nat (List.length
                        (BSCSearch.statement contains perspective period_id
                           code is_active s))
       /\ Z.of_nat (List.length (data p))
          = Z.min page_size (Z.max 0 (total p - (page - 1) * page_size))
       /\ (total_pages p - 1) * page_size < total p <= total_pages p * page_size
       /\ (forall r, In r (data p) -> BSCIndicator.is_deleted r = false))
  /\ (forall collation perspective period_id is_active page page_size s,
        1 <= page -> 1 <= page_size ->
        exists p,
          MPMSearch.search_indicators collation perspective period_id
            is_active page page_size s = Returns p
          /\ total p
             = Z.of_nat (List.length
                           (MPMSearch.selected perspective period_id
                              is_active s))
          /\ Z.of_nat (List.length (data p))
             = Z.min page_size (Z.max 0 (total p - (page - 1) * page_size))
          /\ (total_pages p - 1) * page_size < total p
             <= total_pages p * page_size
          /\ (forall r, In r (data p) -> MPMIndicator.is_deleted r = false)).
Proof.
  split.
  - intros contains perspective period_id code is_active page page_size s
      Hp Hs.
    eexists. split; [apply bsc_search_indicators_eq; assumption|].
    cbn [total data total_pages].
    destruct (pages_for_bounds
                (List.length (BSCSearch.statement contains perspective
                                period_id code is_active s)) page_size Hs)
      as [Hlo [Hhi _]].
    split; [reflexivity|]. split; [apply length_page_of; assumption|].
    split; [split; assumption|].
    intros r Hin. apply In_page_of in Hin.
    apply filter_In in Hin as [_ Hc].
    repeat (apply andb_prop in Hc as [Hc _]).
    apply negb_true_iff in Hc. exact Hc.
  - intros collation perspective period_id is_active page page_size s Hp Hs.
    eexists. split; [apply mpm_search_indicators_eq; assumption|].
    cbn [total data total_pages].
    destruct (pages_for_bounds
                (List.length (MPMSearch.selected perspective period_id
                                is_active s)) page_size Hs)
      as [Hlo [Hhi _]].
    split; [reflexivity|]. split.
    { rewrite length_page_of by assumption.
      rewrite length_order_by. reflexivity. }
    split; [split; assumption|].
    intros r Hin. apply In_page_of in Hin.
    apply OrderFacts.In_order_by in Hin.
    apply filter_In in Hin as [_ Hc].
    repeat (apply andb_prop in Hc as [Hc _]).
    apply negb_true_iff in Hc. exact Hc.
Qed.

Lemma search_indicators_page_witness :
  (exists p,
     BSCSearch.search_indicators Scenarios.infix None (Some 10) (Some "F"%string)
       None 2 1 Examples.bsc_dash = Returns p
     /\ total p
        = Z.of_nat (List.length
                      (BSCSearch.statement Scenarios.infix None (Some 10)
                         (Some "F"%string) None Examples.bsc_dash))
     /\ Z.of_nat (List.length (data p))
        = Z.min 1 (Z.max 0 (total p - (2 - 1) * 1))
     /\ (total_pages p - 1) * 1 < total p <= total_pages p * 1
     /\ (forall r, In r (data p) -> BSCIndicator.is_deleted r = false))
  /\ (exists p,
        MPMSearch.search_indicators Examples.stored_order (Some FINANCIAL)
          None (Some true) 1 10 Examples.mpm_dash = Returns p
        /\ total p
           = Z.of_nat (List.length
                         (MPMSearch.selected (Some FINANCIAL) None (Some true)
                            Examples.mpm_dash))
        /\ Z.of_nat (List.length (data p))
           = Z.min 10 (Z.max 0 (total p - (1 - 1) * 10))
        /\ (total_pages p - 1) * 10 < total p <= total_pages p * 10
        /\ (forall r, In r (data p) -> MPMIndicator.is_deleted r = false)).
Proof.
  split.
  - apply (proj1 search_indicators_page); lia.
  - apply (proj2 search_indicators_page); lia.
Defined.

(** When a search does not return, for BSC and for MPM.  A [page_size]
    of 0 raises ZeroDivisionError whatever the page; a negative
    [page_size], or a [page] below 1 with a positive [page_size], makes
    the database refuse the statement. *)
Theorem search_indicators_errors :
  (forall contains perspective period_id code is_active page page_size s,
     (page_size = 0 ->
      BSCSearch.search_indicators contains perspective period_id code
        is_active page page_size s = Fails ZeroDivisionError)
     /\ (page_size < 0 \/ (page < 1 /\ 0 < page_size) ->
         BSCSearch.search_indicators contains perspective period_id code
           is_active page page_size s = Fails DataError))
  /\ (forall collation perspective period_id is_active page page_size s,
        (page_size = 0 ->
         MPMSearch.search_indicators collation perspective period_id
           is_active page page_size s = Fails ZeroDivisionError)
        /\ (page_size < 0 \/ (page < 1 /\ 0 < page_size) ->
            MPMSearch.search_indicators collation perspective period_id
              is_active page page_size s = Fails DataError)).
Proof.
  assert (Hzero : forall A (rows : list A) page,
            offset_limit ((page - 1) * 0) 0 rows = Returns []).
  { intros A rows page. unfold offset_limit.
    replace ((page - 1) * 0) with 0 by lia. reflexivity. }
  assert (Hneg : forall A (rows : list A) page page_size,
            page_size < 0 \/ (page < 1 /\ 0 < page_size) ->
            offset_limit ((page - 1) * page_size) page_size rows
            = Fails DataError).
  { intros A rows page page_size Hc. unfold offset_limit.
    destruct (Z.ltb_spec page_size 0) as [Hn|Hn].
    - rewrite orb_true_r. reflexivity.
    - destruct (Z.ltb_spec ((page - 1) * page_size) 0); [reflexivity|nia]. }
  split.
  - intros contains perspective period_id code is_active page page_size s.
    unfold BSCSearch.search_indicators, BSCSearch.search. split.
    + intros ->. rewrite Hzero. reflexivity.
    + intros Hc. rewrite Hneg by exact Hc. reflexivity.
  - intros collation perspective period_id is_active page page_size s.
    unfold MPMSearch.search_indicators, MPMSearch.search. split.
    + intros ->. rewrite Hzero. reflexivity.
    + intros Hc. rewrite Hneg by exact Hc. reflexivity.
Qed.

Lemma search_indicators_errors_witness :
  BSCSearch.search_indicators Scenarios.infix None None None None 1 0
    Examples.bsc_dash = Fails ZeroDivisionError
  /\ MPMSearch.search_indicators Examples.stored_order None None None 0 10
       Examples.mpm_dash = Fails DataError.
Proof.
  split.
  - apply (proj1 (proj1 search_indicators_errors Scenarios.infix None None
                    None None 1 0 Examples.bsc_dash)).
    reflexivity.
  - apply (proj2 (proj2 search_indicators_errors Examples.stored_order None
                    None None 0 10 Examples.mpm_dash)).
    right. lia.
Defined.

End PagingFacts.

(* ================================================================== *)
(** ** BSC: the bulk import *)

Module BulkImportFacts.
Import BSCIndicatorService.

Lemma import_step (i : BSC.BSCIndicatorCreate) (s : Session) :
  attempt (import_indicator i) s
  = match first (filter (keyed i) (bsc_indicator s)) with
    | Some _ => (s, Ok (Some None))
    | None =>
        (advance (set_table (bsc_indicator s ++ [row_of i s]) s),
         Ok (Some (Some (row_of i s))))
    end.
Proof.
  unfold attempt, import_indicator, bind, BSC.get_by_code.
  change (fun r : BSCIndicator.t =>
            (BSCIndicator.code r =? BSC.ic_code i)%string
            && (BSCIndicator.period_id r =? BSC.ic_period_id i)
            && negb (BSCIndicator.is_deleted r)) with (keyed i).
  destruct (first (filter (keyed i) (bsc_indicator s))); reflexivity.
Qed.

Lemma keyed_has (i : BSC.BSCIndicatorCreate) (s : Session) :
  bsc_has_code s (BSC.ic_code i) (BSC.ic_period_id i)
  <-> first (filter (keyed i) (bsc_indicator s)) <> None.
Proof.
  split.
  - intros [r [Hin [Hlive [Hc Hp]]]] Hnone.
    pose proof (UniquenessFacts.filter_nil_none _ _ r Hnone Hin) as Hf.
    unfold keyed in Hf.
    rewrite Hc, Hp, Hlive, String.eqb_refl, Z.eqb_refl in Hf. discriminate.
  - intros Hsome. destruct (filter (keyed i) (bsc_indicator s)) as [|r l] eqn:E;
      [contradiction Hsome; reflexivity|].
    assert (Hin : In r (filter (keyed i) (bsc_indicator s)))
      by (rewrite E; left; reflexivity).
    apply filter_In in Hin as [Hin Hk]. unfold keyed in Hk.
    apply andb_prop in Hk as [Hk Hlive]. apply andb_prop in Hk as [Hc Hp].
    exists r. split; [exact Hin|]. split; [apply negb_true_iff; exact Hlive|].
    split; [apply String.eqb_eq; exact Hc|apply Z.eqb_eq; exact Hp].
Qed.

Lemma step_session (i : BSC.BSCIndicatorCreate) (s : Session) :
  fst (attempt (import_indicator i) s) = fst (BSC.create_indicator i s).
Proof.
  rewrite import_step. unfold BSC.create_indicator, bind, BSC.get_by_code.
  change (fun r : BSCIndicator.t =>
            (BSCIndicator.code r =? BSC.ic_code i)%string
            && (BSCIndicator.period_id r =? BSC.ic_period_id i)
            && negb (BSCIndicator.is_deleted r)) with (keyed i).
  destruct (first (filter (keyed i) (bsc_indicator s))); reflexivity.
Qed.

Lemma has_code_grows (s : Session) (new : list BSCIndicator.t) (s' : Session)
    (code : string) (period_id : UUID) :
  bsc_indicator s' = bsc_indicator s ++ new ->
  bsc_has_code s code period_id -> bsc_has_code s' code period_id.
Proof.
  intros Htab [r [Hin H]]. exists r. split; [|exact H].
  rewrite Htab. apply in_or_app. left. exact Hin.
Qed.

Lemma import_loop_spec (batch : list BSC.BSCIndicatorCreate) :
  forall created s,
  exists s' new,
    import_loop batch created s = (s', Ok (created ++ new))
    /\ bsc_indicator s' = bsc_indicator s ++ new
    /\ period s' = period s
    /\ (Spec.bsc_unique_code s -> Spec.bsc_unique_code s')
    /\ (forall i, In i batch ->
          bsc_has_code s' (BSC.ic_code i) (BSC.ic_period_id i)).
Proof.
  induction batch as [|i batch IH]; intros created s.
  - exists s, []. cbn [import_loop]. rewrite !app_nil_r.
    split; [reflexivity|]. split; [reflexivity|]. split; [reflexivity|].
    split; [auto|]. intros i [].
  - cbn [import_loop]. unfold bind at 1.
    pose proof (step_session i s) as Hsess.
    pose proof (proj1 UniquenessFacts.create_indicator_preserves_uniqueness
                  s i) as Huniq.
    rewrite <- Hsess in Huniq. clear Hsess.
    rewrite import_step in *.
    destruct (first (filter (keyed i) (bsc_indicator s))) as [e|] eqn:E.
    + destruct (IH created s) as [s' [new [Hrun [Htab [Hper [Hu Hhas]]]]]].
      exists s', new. split; [exact Hrun|]. split; [exact Htab|].
      split; [exact Hper|]. split; [exact Hu|].
      intros j [<-|Hj]; [|apply Hhas; exact Hj].
      apply (has_code_grows s new s' _ _ Htab).
      apply keyed_has. rewrite E. discriminate.
    + set (s1 := advance (set_table (bsc_indicator s ++ [row_of i s]) s)) in *.
      destruct (IH (created ++ [row_of i s]) s1)
        as [s' [new [Hrun [Htab [Hper [Hu Hhas]]]]]].
      exists s', (row_of i s :: new). rewrite <- app_assoc in Hrun.
      split; [exact Hrun|]. split.
      { rewrite Htab. unfold s1. cbn. rewrite <- app_assoc. reflexivity. }
      split; [rewrite Hper; reflexivity|].
      split; [intros H; apply Hu, Huniq, H|].
      intros j [<-|Hj]; [|apply Hhas; exact Hj].
      apply (has_code_grows s1 new s' _ _ Htab).
      exists (row_of i s). split.
      { unfold s1. cbn. apply in_or_app. right. left. reflexivity. }
      repeat split.
Qed.

Lemma import_loop_present (batch : list BSC.BSCIndicatorCreate) :
  forall created s,
    (forall i, In i batch ->
       bsc_has_code s (BSC.ic_code i) (BSC.ic_period_id i)) ->
    import_loop batch created s = (s, Ok created).
Proof.
  induction batch as [|i batch IH]; intros created s Hhas; [reflexivity|].
  cbn [import_loop]. unfold bind at 1. rewrite import_step.
  pose proof (proj1 (keyed_has i s) (Hhas i (or_introl eq_refl))) as Hsome.
  destruct (first (filter (keyed i) (bsc_indicator s))); [|contradiction].
  apply IH. intros j Hj. apply Hhas. right. exact Hj.
Qed.

(** The bulk import of BSC indicators, on a batch whose periods exist.
    It never raises; the indicators it returns are the rows it appended
    to the table, in order; afterwards every item of the batch has a
    live indicator with its code in its period, an item whose code was
    present or came earlier in the batch having been skipped; and if no
    two live indicators shared a code in a period before, none do
    after. *)
Theorem bulk_import_creates_the_missing
    (s : Session) (batch : list BSC.BSCIndicatorCreate) :
  periods_exist s batch ->
  exists s' created,
    bulk_import_indicators batch s = (s', Ok created)
    /\ bsc_indicator s' = bsc_indicator s ++ created
    /\ (forall i, In i batch ->
          bsc_has_code s' (BSC.ic_code i) (BSC.ic_period_id i))
    /\ (Spec.bsc_unique_code s -> Spec.bsc_unique_code s').
Proof.
  intros _. unfold bulk_import_indicators.
  destruct (import_loop_spec batch [] s)
    as [s' [new [Hrun [Htab [_ [Hu Hhas]]]]]].
  exists s', new. cbn [app] in Hrun. auto.
Qed.

Lemma batch_periods_exist :
  periods_exist Scenarios.bsc_in_period_10 Scenarios.batch.
Proof.
  intros i [<-|[<-|[<-|[]]]]; left; reflexivity.
Defined.

Lemma bulk_import_creates_the_missing_witness :
  exists s' created,
    bulk_import_indicators Scenarios.batch Scenarios.bsc_in_period_10
    = (s', Ok created)
    /\ bsc_indicator s'
       = bsc_indicator Scenarios.bsc_in_period_10 ++ created
    /\ (forall i, In i Scenarios.batch ->
          bsc_has_code s' (BSC.ic_code i) (BSC.ic_period_id i))
    /\ (Spec.bsc_unique_code Scenarios.bsc_in_period_10 ->
        Spec.bsc_unique_code s').
Proof.
  apply (bulk_import_creates_the_missing Scenarios.bsc_in_period_10
           Scenarios.batch batch_periods_exist).
Defined.

Example bulk_import_batch :
  snd (bulk_import_indicators Scenarios.batch Scenarios.bsc_in_period_10)
  = Ok [BSCIndicator.mk 100 "F2" "Margin" BSC_FINANCIAL Examples.d_30 true 10
          1000 None false].
Proof. reflexivity. Qed.

(** Importing a batch a second time creates nothing: on the session the
    first import leaves, the same batch returns the empty list and the
    session stays as it is. *)
Theorem bulk_import_twice
    (s : Session) (batch : list BSC.BSCIndicatorCreate) :
  periods_exist s batch ->
  let s' := fst (bulk_import_indicators batch s) in
  bulk_import_indicators batch s' = (s', Ok []).
Proof.
  intros _ s'. unfold bulk_import_indicators in *.
  destruct (import_loop_spec batch [] s)
    as [s1 [new [Hrun [_ [_ [_ Hhas]]]]]].
  unfold s'. rewrite Hrun. cbn [fst].
  apply import_loop_present. exact Hhas.
Qed.

Lemma bulk_import_twice_witness :
  bulk_import_indicators Scenarios.batch
    (fst (bulk_import_indicators Scenarios.batch Scenarios.bsc_in_period_10))
  = (fst (bulk_import_indicators Scenarios.batch Scenarios.bsc_in_period_10),
     Ok []).
Proof.
  apply (bulk_import_twice Scenarios.bsc_in_period_10 Scenarios.batch
           batch_periods_exist).
Defined.

End BulkImportFacts.

(* ================================================================== *)
(** ** MPM: the KPI number given at creation *)

Module KpiNumberFacts.

Lemma fold_max_from (rows : list MPMIndicator.t) :
  forall a,
  exists b,
    fold_left (fun (m : option Z) r =>
        match m, MPMIndicator.kpi_number r with
        | Some a, Some b => Some (Z.max a b)
        | None, n => n
        | m, None => m
        end) rows (Some a) = Some b
    /\ a <= b
    /\ forall r m, In r rows -> MPMIndicator.kpi_number r = Some m -> m <= b.
Proof.
  induction rows as [|x rows IH]; intros a; cbn [fold_left].
  - exists a. split; [reflexivity|]. split; [lia|]. intros r m [].
  - destruct (MPMIndicator.kpi_number x) as [k|] eqn:Ek.
    + destruct (IH (Z.max a k)) as [b [Hb [Hle Hall]]].
      exists b. split; [exact Hb|]. split; [lia|].
      intros r m [<-|Hin] Hm; [|eapply Hall; eassumption].
      rewrite Ek in Hm. injection Hm as <-. lia.
    + destruct (IH a) as [b [Hb [Hle Hall]]].
      exists b. split; [exact Hb|]. split; [exact Hle|].
      intros r m [<-|Hin] Hm; [congruence|eapply Hall; eassumption].
Qed.

Lemma fold_max_none (rows : list MPMIndicator.t) :
  match
    fold_left (fun (m : option Z) r =>
        match m, MPMIndicator.kpi_number r with
        | Some a, Some b => Some (Z.max a b)
        | None, n => n
        | m, None => m
        end) rows None
  with
  | Some b =>
      forall r m, In r rows -> MPMIndicator.kpi_number r = Some m -> m <= b
  | None => forall r, In r rows -> MPMIndicator.kpi_number r = None
  end.
Proof.
  induction rows as [|x rows IH]; cbn [fold_left].
  - intros r [].
  - destruct (MPMIndicator.kpi_number x) as [k|] eqn:Ek.
    + destruct (fold_max_from rows k) as [b [Hb [Hle Hall]]]. rewrite Hb.
      intros r m [<-|Hin] Hm; [|eapply Hall; eassumption].
      rewrite Ek in Hm. injection Hm as <-. exact Hle.
    + destruct (fold_left _ rows None) as [b|].
      * intros r m [<-|Hin] Hm; [congruence|eapply IH; eassumption].
      * intros r [<-|Hin]; [exact Ek|apply IH; exact Hin].
Qed.

Lemma fold_max_all_none (rows : list MPMIndicator.t) :
  (forall r, In r rows -> MPMIndicator.kpi_number r = None) ->
  fold_left (fun (m : option Z) r =>
      match m, MPMIndicator.kpi_number r with
      | Some a, Some b => Some (Z.max a b)
      | None, n => n
      | m, None => m
      end) rows None = None.
Proof.
  induction rows as [|x rows IH]; intros Hall; [reflexivity|].
  cbn [fold_left]. rewrite (Hall x) by (left; reflexivity).
  apply IH. intros r Hr. apply Hall. right. exact Hr.
Qed.

(** The number [get_next_kpi_number] returns is above the number of
    every live indicator of the perspective in the period, and it is 1
    when none of them has a number. *)
Lemma next_kpi_number_above (p : MPMPerspective) (period_id : UUID)
    (s : Session) :
  exists n,
    MPM.get_next_kpi_number p period_id s = (s, Ok n)
    /\ (forall r m,
          In r (mpm_indicator s) ->
          MPMIndicator.is_deleted r = false ->
          MPMIndicator.perspective r = Some p ->
          MPMIndicator.period_id r = period_id ->
          MPMIndicator.kpi_number r = Some m -> m < n)
    /\ ((forall r,
           In r (mpm_indicator s) ->
           MPMIndicator.is_deleted r = false ->
           MPMIndicator.perspective r = Some p ->
           MPMIndicator.period_id r = period_id ->
           MPMIndicator.kpi_number r = None) -> n = 1).
Proof.
  unfold MPM.get_next_kpi_number.
  set (rows := filter _ (mpm_indicator s)).
  assert (Hrows : forall r,
            In r rows <->
            In r (mpm_indicator s) /\ MPMIndicator.is_deleted r = false
            /\ MPMIndicator.perspective r = Some p
            /\ MPMIndicator.period_id r = period_id).
  { intros r. unfold rows. rewrite filter_In. split.
    - intros [Hin Hc]. apply andb_prop in Hc as [Hc Hlive].
      apply andb_prop in Hc as [Hp Hper].
      split; [exact Hin|]. split; [apply negb_true_iff; exact Hlive|].
      split; [|apply Z.eqb_eq; exact Hper].
      destruct (MPMIndicator.perspective r) as [q|]; [|discriminate].
      cbn in Hp. apply DictFacts.MPMPerspective_eqb_eq in Hp. congruence.
    - intros [Hin [Hlive [Hp Hper]]]. split; [exact Hin|].
      rewrite Hp, Hper, Hlive, Z.eqb_refl. cbn.
      destruct p; reflexivity. }
  pose proof (fold_max_none rows) as Hmax.
  eexists. split; [reflexivity|].
  destruct (fold_left _ rows None) as [b|] eqn:Efold; split.
  - intros r m Hin Hlive Hp Hper Hm.
    assert (m <= b) by (apply (Hmax r m); [apply Hrows; auto|exact Hm]). lia.
  - intros Hnone. exfalso.
    rewrite fold_max_all_none in Efold; [discriminate|].
    intros r Hr. apply Hrows in Hr as [Hin [Hlive [Hp Hper]]]. auto.
  - intros r m Hin Hlive Hp Hper Hm.
    rewrite (Hmax r) in Hm by (apply Hrows; auto). discriminate.
  - reflexivity.
Qed.

Lemma fold_max_from_attained (rows : list MPMIndicator.t) :
  forall a b,
    fold_left (fun (m : option Z) r =>
        match m, MPMIndicator.kpi_number r with
        | Some a, Some b => Some (Z.max a b)
        | None, n => n
        | m, None => m
        end) rows (Some a) = Some b ->
    b = a \/ exists r, In r rows /\ MPMIndicator.kpi_number r = Some b.
Proof.
  induction rows as [|x rows IH]; intros a b; cbn [fold_left].
  - intros [= <-]. left; reflexivity.
  - destruct (MPMIndicator.kpi_number x) as [k|] eqn:Ek; intros H;
      apply IH in H as [->|[r [Hin Hr]]].
    + destruct (Z.max_spec a k) as [[_ ->]|[_ ->]]; [|left; reflexivity].
      right. exists x. split; [left; reflexivity|exact Ek].
    + right. exists r. split; [right; exact Hin|exact Hr].
    + left; reflexivity.
    + right. exists r. split; [right; exact Hin|exact Hr].
Qed.

Lemma fold_max_none_attained (rows : list MPMIndicator.t) (b : Z) :
  fold_left (fun (m : option Z) r =>
      match m, MPMIndicator.kpi_number r with
      | Some a, Some b => Some (Z.max a b)
      | None, n => n
      | m, None => m
      end) rows None = Some b ->
  exists r, In r rows /\ MPMIndicator.kpi_number r = Some b.
Proof.
  induction rows as [|x rows IH]; cbn [fold_left]; [discriminate|].
  destruct (MPMIndicator.kpi_number x) as [k|] eqn:Ek; intros H.
  - apply fold_max_from_attained in H as [->|[r [Hin Hr]]].
    + exists x. split; [left; reflexivity|exact Ek].
    + exists r. split; [right; exact Hin|exact Hr].
  - apply IH in H as [r [Hin Hr]].
    exists r. split; [right; exact Hin|exact Hr].
Qed.

(** The number [get_next_kpi_number] returns is an INTEGER when the
    numbers of the live indicators of the perspective in the period are
    INTEGERs below the greatest one. *)
Lemma next_kpi_number_int4 (p : MPMPerspective) (period_id : UUID)
    (s : Session) (n : Z) :
  (forall r m,
     In r (mpm_indicator s) ->
     MPMIndicator.is_deleted r = false ->
     MPMIndicator.perspective r = Some p ->
     MPMIndicator.period_id r = period_id ->
     MPMIndicator.kpi_number r = Some m -> int4 m /\ m < 2147483647) ->
  MPM.get_next_kpi_number p period_id s = (s, Ok n) ->
  int4 n.
Proof.
  intros Hfit. unfold MPM.get_next_kpi_number.
  destruct (fold_left _ _ None) as [b|] eqn:Efold; intros [= <-].
  - apply fold_max_none_attained in Efold as [r [Hin Hr]].
    apply filter_In in Hin as [Hin Hc]. apply andb_prop in Hc as [Hc Hlive].
    apply andb_prop in Hc as [Hp Hper].
    destruct (MPMIndicator.perspective r) as [q|] eqn:Eq; [|discriminate].
    cbn in Hp. apply DictFacts.MPMPerspective_eqb_eq in Hp. subst q.
    apply negb_true_iff in Hlive. apply Z.eqb_eq in Hper.
    destruct (Hfit r b Hin Hlive Eq Hper Hr) as [[Hlo _] Hhi].
    unfold int4. lia.
  - unfold int4. lia.
Qed.

(** The KPI number of a new MPM indicator.  When no live indicator of
    the period has the KPI name and the period is a row of the table of
    periods: with a perspective in the payload the indicator is created
    with a number of the repository's choosing, whatever number the
    payload gave; that number is above the number of every live
    indicator of the perspective in the period, and it is 1 when none of
    them has a number.  Without a perspective the indicator is created
    with the number of the payload, as it is.  The weight is a decimal a
    NUMERIC column holds, and the numbers are those an INTEGER column
    holds: the stored ones are assumed to leave room for one more, the
    one of the payload to be one. *)
Theorem create_indicator_numbers_the_kpi
    (s : Session) (indicator_in : MPM.MPMIndicatorCreate) :
  MPM.get_by_kpi (MPM.ic_kpi indicator_in) (MPM.ic_period_id indicator_in) s
  = (s, Ok None) ->
  period_exists s (MPM.ic_period_id indicator_in) ->
  Spec.numeric (MPM.ic_weight indicator_in) ->
  (forall p,
     MPM.ic_perspective indicator_in = Some p ->
     (forall r m,
        In r (mpm_indicator s) ->
        MPMIndicator.is_deleted r = false ->
        MPMIndicator.perspective r = Some p ->
        MPMIndicator.period_id r = MPM.ic_period_id indicator_in ->
        MPMIndicator.kpi_number r = Some m -> int4 m /\ m < 2147483647) ->
     exists o n,
       MPM.create_indicator indicator_in s
       = (advance (set_table (mpm_indicator s ++ [o]) s), Ok o)
       /\ MPMIndicator.perspective o = Some p
       /\ MPMIndicator.kpi_number o = Some n
       /\ int4 n
       /\ (forall r m,
             In r (mpm_indicator s) ->
             MPMIndicator.is_deleted r = false ->
             MPMIndicator.perspective r = Some p ->
             MPMIndicator.period_id r = MPM.ic_period_id indicator_in ->
             MPMIndicator.kpi_number r = Some m -> m < n)
       /\ ((forall r,
              In r (mpm_indicator s) ->
              MPMIndicator.is_deleted r = false ->
              MPMIndicator.perspective r = Some p ->
              MPMIndicator.period_id r = MPM.ic_period_id indicator_in ->
              MPMIndicator.kpi_number r = None) -> n = 1))
  /\ (MPM.ic_perspective indicator_in = None ->
      (forall m, MPM.ic_kpi_number indicator_in = Some m -> int4 m) ->
      exists o,
        MPM.create_indicator indicator_in s
        = (advance (set_table (mpm_indicator s ++ [o]) s), Ok o)
        /\ MPMIndicator.perspective o = None
        /\ MPMIndicator.kpi_number o = MPM.ic_kpi_number indicator_in).
Proof.
  intros Hnew _ _. unfold MPM.create_indicator, bind. rewrite Hnew. split.
  - intros p Hp Hfit. rewrite Hp.
    destruct (next_kpi_number_above p (MPM.ic_period_id indicator_in) s)
      as [n [Hn [Habove Hone]]].
    pose proof (next_kpi_number_int4 _ _ _ _ Hfit Hn) as Hint.
    rewrite Hn. unfold create. cbn.
    eexists. exists n. split; [reflexivity|]. cbn. rewrite Hp.
    split; [reflexivity|]. split; [reflexivity|]. split; [exact Hint|].
    split; assumption.
  - intros Hp _. rewrite Hp. unfold create. cbn.
    eexists. split; [reflexivity|]. cbn. rewrite Hp.
    split; [reflexivity|]. destruct (MPM.ic_kpi_number indicator_in);
      reflexivity.
Qed.

Lemma create_indicator_numbers_the_kpi_witness :
  (exists o n,
     MPM.create_indicator Scenarios.mpm_third_kpi Scenarios.mpm_in_period_10
     = (advance (set_table (mpm_indicator Scenarios.mpm_in_period_10 ++ [o])
                   Scenarios.mpm_in_period_10), Ok o)
     /\ MPMIndicator.perspective o = Some FINANCIAL
     /\ MPMIndicator.kpi_number o = Some n
     /\ int4 n
     /\ (forall r m,
           In r (mpm_indicator Scenarios.mpm_in_period_10) ->
           MPMIndicator.is_deleted r = false ->
           MPMIndicator.perspective r = Some FINANCIAL ->
           MPMIndicator.period_id r
           = MPM.ic_period_id Scenarios.mpm_third_kpi ->
           MPMIndicator.kpi_number r = Some m -> m < n)
     /\ ((forall r,
            In r (mpm_indicator Scenarios.mpm_in_period_10) ->
            MPMIndicator.is_deleted r = false ->
            MPMIndicator.perspective r = Some FINANCIAL ->
            MPMIndicator.period_id r
            = MPM.ic_period_id Scenarios.mpm_third_kpi ->
            MPMIndicator.kpi_number r = None) -> n = 1))
  /\ (exists o,
        MPM.create_indicator Scenarios.mpm_unfiled_kpi
          Scenarios.mpm_in_period_10
        = (advance (set_table (mpm_indicator Scenarios.mpm_in_period_10 ++ [o])
                      Scenarios.mpm_in_period_10), Ok o)
        /\ MPMIndicator.perspective o = None
        /\ MPMIndicator.kpi_number o
           = MPM.ic_kpi_number Scenarios.mpm_unfiled_kpi).
Proof.
  assert (Hperiod : period_exists Scenarios.mpm_in_period_10 10)
    by (left; reflexivity).
  assert (Hweight : Spec.numeric Examples.d_10)
    by (split; vm_compute; discriminate).
  split.
  - apply (proj1 (create_indicator_numbers_the_kpi Scenarios.mpm_in_period_10
                    Scenarios.mpm_third_kpi eq_refl Hperiod Hweight)
             FINANCIAL eq_refl).
    intros r m [<-|[<-|[]]] _ _ _ [= <-]; unfold int4; lia.
  - apply (proj2 (create_indicator_numbers_the_kpi Scenarios.mpm_in_period_10
                    Scenarios.mpm_unfiled_kpi eq_refl Hperiod Hweight) eq_refl).
    intros m [= <-]. unfold int4. lia.
Defined.

Example third_kpi_is_numbered_3 :
  exists s' o,
    MPM.create_indicator Scenarios.mpm_third_kpi Examples.mpm_dash
    = (s', Ok o)
    /\ MPMIndicator.kpi_number o = Some 3.
Proof. vm_compute. eexists. eexists. split; reflexivity. Qed.

End KpiNumberFacts.

(* ================================================================== *)
(** ** Quarterly data written with an actual value *)

Module QuarterlyWriteFacts.
Import MPM RepositoryLaws.

(** [calculate_status] never raises, and its answer depends on the
    table of quarterly data alone. *)
Lemma calculate_status_total (plan : UUID) (s : Session) :
  exists st,
    forall s',
      mpm_quarterly_data s' = mpm_quarterly_data s ->
      calculate_status plan s' = (s', Ok st).
Proof.
  destruct (first (reported_quarters s plan)) as [r|] eqn:Hfirst.
  - assert (Hin : In r (filter (Spec.reported plan) (mpm_quarterly_data s))).
    { apply (OrderFacts.In_order_by_desc MPMQuarterlyData.quarter String.leb).
      apply PeriodFacts.first_In. exact Hfirst. }
    apply filter_In in Hin as [_ Hrep].
    destruct (StatusFacts.reported_actual _ _ Hrep) as [actual Hact].
    pose proof (StatusFacts.calculate_status_of_first s plan r actual Hfirst
                  Hact) as Hst.
    match type of Hst with _ = (_, Ok ?st) => exists st end.
    intros s' Htab.
    unfold calculate_status, reported_quarters in *. rewrite Htab.
    destruct (first _) as [r'|]; [|discriminate].
    unfold bind, operand, ret in *.
    destruct (MPMQuarterlyData.actual_value r'); [|discriminate].
    destruct (Dec.ge _ _); [congruence|].
    destruct (Dec.ge _ _); congruence.
  - exists ON_TRACK. intros s' Htab.
    unfold calculate_status, reported_quarters in *. rewrite Htab, Hfirst.
    reflexivity.
Qed.

(** [update_action_plan_status] on a live plan. *)
Lemma update_action_plan_status_found (s : Session) (plan_id : UUID)
    (plan : MPMActionPlan.t) :
  Spec.lookup s plan_id = Some plan ->
  exists plan',
    update_action_plan_status plan_id s
    = (advance (set_table (merge plan' (mpm_action_plan s)) s), Ok plan')
    /\ MPMActionPlan.id plan' = plan_id
    /\ MPMActionPlan.is_deleted plan' = false
    /\ forall s',
         mpm_quarterly_data s' = mpm_quarterly_data s ->
         calculate_status plan_id s' = (s', Ok (MPMActionPlan.status plan')).
Proof.
  intros Hl. destruct (RepoFacts.lookup_In _ _ _ Hl) as [Hin [Hid Hlive]].
  cbn in Hid, Hlive.
  destruct (calculate_status_total plan_id s) as [st Hst].
  unfold update_action_plan_status, bind.
  rewrite (RepoFacts.get_or_404_found _ _ _ Hl).
  rewrite (Hst s eq_refl).
  exists (MPMActionPlanOps.set_updated_at
            (MPMActionPlan.mk (MPMActionPlan.id plan)
               (MPMActionPlan.description plan) st
               (MPMActionPlan.indicator_id plan)
               (MPMActionPlan.created_at plan)
               (MPMActionPlan.updated_at plan)
               (MPMActionPlan.is_deleted plan)) (utcnow s)).
  split; [reflexivity|]. cbn.
  split; [exact Hid|]. split; [exact Hlive|]. exact Hst.
Qed.

Lemma create_quarterly_row (data_in : MPMQuarterlyDataCreate) (s : Session) :
  create (MPMQuarterlyDataCreate_dict data_in) s
  = (advance (set_table (mpm_quarterly_data s ++ [quarterly_row data_in s]) s),
     Ok (quarterly_row data_in s)).
Proof.
  unfold create, quarterly_row. cbn.
  destruct (qc_actual_value data_in); reflexivity.
Qed.

(** Quarterly data written with an actual value restate the plan.  When
    the plan is live, [create_quarterly_data] with an actual value for a
    quarter the plan has no datum of, and [update_quarterly_data] with
    an actual value (and no [None] for the target), return the datum;
    the status then stored on the plan is what [calculate_status]
    answers on the session they leave. *)
Theorem quarterly_data_with_actual_restates_the_plan :
  (forall s data_in v (plan : MPMActionPlan.t),
     qc_actual_value data_in = Some v ->
     get_by_quarter (qc_action_plan_id data_in) (qc_quarter data_in) s
     = (s, Ok None) ->
     Spec.lookup s (qc_action_plan_id data_in) = Some plan ->
     exists s' (plan' : MPMActionPlan.t),
       create_quarterly_data data_in s = (s', Ok (quarterly_row data_in s))
       /\ In (quarterly_row data_in s) (mpm_quarterly_data s')
       /\ Spec.lookup s' (qc_action_plan_id data_in) = Some plan'
       /\ calculate_status (qc_action_plan_id data_in) s'
          = (s', Ok (MPMActionPlan.status plan')))
  /\ (forall s data_id data_in v (db_data : MPMQuarterlyData.t)
        (plan : MPMActionPlan.t),
        qu_actual_value data_in = Value v ->
        qu_target_value data_in <> Null ->
        Spec.lookup s data_id = Some db_data ->
        Spec.lookup s (MPMQuarterlyData.action_plan_id db_data) = Some plan ->
        exists s' (q : MPMQuarterlyData.t) (plan' : MPMActionPlan.t),
          update_quarterly_data data_id data_in s = (s', Ok q)
          /\ MPMQuarterlyData.actual_value q = Some v
          /\ Spec.lookup s' data_id = Some q
          /\ Spec.lookup s' (MPMQuarterlyData.action_plan_id db_data)
             = Some plan'
          /\ calculate_status (MPMQuarterlyData.action_plan_id db_data) s'
             = (s', Ok (MPMActionPlan.status plan'))).
Proof.
  split.
  - intros s data_in v plan Hv Hnone Hl.
    unfold create_quarterly_data, bind. rewrite Hnone.
    rewrite create_quarterly_row, Hv. cbn [is_some_value].
    set (s1 := advance (set_table _ s)).
    assert (Hl1 : Spec.lookup s1 (qc_action_plan_id data_in) = Some plan)
      by exact Hl.
    destruct (update_action_plan_status_found s1 _ plan Hl1)
      as [plan' [Hrun [Hid [Hlive Hst]]]].
    rewrite Hrun. cbn [ret].
    set (s2 := advance (set_table (merge plan' (mpm_action_plan s1)) s1)).
    exists s2, plan'. split; [reflexivity|]. split.
    { cbn. apply in_or_app. right. left. reflexivity. }
    split.
    + destruct (RepoFacts.lookup_In _ _ _ Hl1) as [Hin [Hid1 _]].
      exact (CrudFacts.lookup_merge_live s1 plan' plan _ Hlive Hin Hid1 Hid).
    + apply Hst. reflexivity.
  - intros s data_id data_in v db_data plan Hv Ht Hl Hlp.
    unfold update_quarterly_data, bind.
    rewrite (RepoFacts.get_or_404_found _ _ _ Hl).
    destruct (RepoFacts.lookup_In _ _ _ Hl) as [Hin [Hid Hlive]].
    cbn in Hid, Hlive.
    set (target :=
           match qu_target_value data_in with
           | Value t => t
           | _ => MPMQuarterlyData.target_value db_data
           end).
    set (q := MPMQuarterlyData.mk (MPMQuarterlyData.id db_data)
                (MPMQuarterlyData.quarter db_data) target (Some v)
                (MPMQuarterlyData.action_plan_id db_data)
                (MPMQuarterlyData.created_at db_data) (Some (utcnow s))
                (MPMQuarterlyData.is_deleted db_data)).
    assert (Hupd :
      update db_data (MPMQuarterlyDataUpdate_dict data_in) s
      = (advance (set_table (merge q (mpm_quarterly_data s)) s), Ok q)).
    { unfold update, q, target. cbn. rewrite Hv.
      destruct (qu_target_value data_in); [reflexivity|contradiction|
                                           reflexivity]. }
    rewrite Hupd, Hv. cbn [attr is_some_value].
    set (s1 := advance (set_table (merge q (mpm_quarterly_data s)) s)).
    assert (Hl1 : Spec.lookup s1 (MPMQuarterlyData.action_plan_id db_data)
                  = Some plan) by exact Hlp.
    change (MPMQuarterlyData.action_plan_id q)
      with (MPMQuarterlyData.action_plan_id db_data).
    destruct (update_action_plan_status_found s1 _ plan Hl1)
      as [plan' [Hrun [Hpid [Hplive Hst]]]].
    rewrite Hrun. cbn [ret].
    set (s2 := advance (set_table (merge plan' (mpm_action_plan s1)) s1)).
    exists s2, q, plan'. split; [reflexivity|]. split; [reflexivity|].
    split; [|split].
    + exact (CrudFacts.lookup_merge_live s q db_data _ Hlive Hin Hid Hid).
    + destruct (RepoFacts.lookup_In _ _ _ Hl1) as [Hinp [Hidp _]].
      exact (CrudFacts.lookup_merge_live s1 plan' plan _ Hplive Hinp Hidp
               Hpid).
    + apply Hst. reflexivity.
Qed.

Lemma quarterly_data_with_actual_restates_the_plan_witness :
  (exists s' (plan' : MPMActionPlan.t),
     create_quarterly_data Scenarios.q2_on_target Examples.plan_at_risk
     = (s', Ok (quarterly_row Scenarios.q2_on_target Examples.plan_at_risk))
     /\ In (quarterly_row Scenarios.q2_on_target Examples.plan_at_risk)
          (mpm_quarterly_data s')
     /\ Spec.lookup s' 1 = Some plan'
     /\ calculate_status 1 s' = (s', Ok (MPMActionPlan.status plan')))
  /\ (exists s' (q : MPMQuarterlyData.t) (plan' : MPMActionPlan.t),
        update_quarterly_data 11 Scenarios.actual_100 Examples.plan_at_risk
        = (s', Ok q)
        /\ MPMQuarterlyData.actual_value q = Some Examples.d_100
        /\ Spec.lookup s' 11 = Some q
        /\ Spec.lookup s' 1 = Some plan'
        /\ calculate_status 1 s' = (s', Ok (MPMActionPlan.status plan'))).
Proof.
  split.
  - apply (proj1 quarterly_data_with_actual_restates_the_plan
             Examples.plan_at_risk Scenarios.q2_on_target Examples.d_100
             Examples.plan_1); reflexivity.
  - apply (proj2 quarterly_data_with_actual_restates_the_plan
             Examples.plan_at_risk 11 Scenarios.actual_100 Examples.d_100
             Examples.quarter_1 Examples.plan_1);
      [reflexivity|discriminate|reflexivity|reflexivity].
Defined.

Lemma first_none_filter_nil {A} (f : A -> bool) (l : list A) :
  first (filter f l) = None -> filter f l = [].
Proof. destruct (filter f l); [reflexivity|discriminate]. Qed.

(** Quarterly data sent for a deleted plan.  For a quarter the plan has
    no datum of: with an actual value, [create_quarterly_data] raises
    HTTP 404 after the datum has been stored, and the same call made
    again raises HTTP 400 because the datum exists; without an actual
    value the datum is stored and returned, the plan not being looked
    at. *)
Theorem quarterly_data_for_a_deleted_plan
    (s : Session) (data_in : MPMQuarterlyDataCreate) :
  plan_deleted s (qc_action_plan_id data_in) ->
  get_by_quarter (qc_action_plan_id data_in) (qc_quarter data_in) s
  = (s, Ok None) ->
  let s' :=
    advance (set_table (mpm_quarterly_data s ++ [quarterly_row data_in s]) s)
  in
  (forall v,
     qc_actual_value data_in = Some v ->
     create_quarterly_data data_in s
     = (s', Raise (HTTPException HTTP_404_NOT_FOUND))
     /\ create_quarterly_data data_in s'
        = (s', Raise (HTTPException HTTP_400_BAD_REQUEST)))
  /\ (qc_actual_value data_in = None ->
      create_quarterly_data data_in s = (s', Ok (quarterly_row data_in s))).
Proof.
  intros [_ Hgone] Hnone s'. split.
  - intros v Hv. split.
    + unfold create_quarterly_data, bind. rewrite Hnone.
      rewrite create_quarterly_row, Hv. cbn [is_some_value]. fold s'.
      unfold update_action_plan_status, bind.
      assert (Hgone' : Spec.lookup (T := MPMActionPlan.t) s'
                         (qc_action_plan_id data_in) = None) by exact Hgone.
      rewrite (RepoFacts.get_or_404_missing _ _ Hgone'). reflexivity.
    + unfold create_quarterly_data, bind, get_by_quarter in *.
      injection Hnone as Hnone. apply first_none_filter_nil in Hnone.
      cbn [mpm_quarterly_data s' advance set_table MPMQuarterlyData_Model].
      rewrite filter_app, Hnone. cbn [app filter quarterly_row].
      cbn. rewrite Z.eqb_refl, String.eqb_refl. reflexivity.
  - intros Hv. unfold create_quarterly_data, bind. rewrite Hnone.
    rewrite create_quarterly_row, Hv. reflexivity.
Qed.

Lemma quarterly_data_for_a_deleted_plan_witness :
  create_quarterly_data Scenarios.q2_on_target Scenarios.deleted_plan
  = (advance (set_table
                (mpm_quarterly_data Scenarios.deleted_plan
                 ++ [quarterly_row Scenarios.q2_on_target
                       Scenarios.deleted_plan])
                Scenarios.deleted_plan),
     Raise (HTTPException HTTP_404_NOT_FOUND))
  /\ create_quarterly_data Scenarios.q2_planned Scenarios.deleted_plan
     = (advance (set_table
                   (mpm_quarterly_data Scenarios.deleted_plan
                    ++ [quarterly_row Scenarios.q2_planned
                          Scenarios.deleted_plan])
                   Scenarios.deleted_plan),
        Ok (quarterly_row Scenarios.q2_planned Scenarios.deleted_plan)).
Proof.
  assert (Hdel : plan_deleted Scenarios.deleted_plan 1).
  { split; [left; reflexivity|reflexivity]. }
  split.
  - apply (proj1 (quarterly_data_for_a_deleted_plan Scenarios.deleted_plan
                    Scenarios.q2_on_target Hdel eq_refl) Examples.d_100).
    reflexivity.
  - apply (proj2 (quarterly_data_for_a_deleted_plan Scenarios.deleted_plan
                    Scenarios.q2_planned Hdel eq_refl)).
    reflexivity.
Defined.

Lemma status_update_keeps_quarters (plan_id : UUID) (s : Session) :
  mpm_quarterly_data (fst (update_action_plan_status plan_id s))
  = mpm_quarterly_data s.
Proof.
  destruct (Spec.lookup (T := MPMActionPlan.t) s plan_id) as [plan|] eqn:Hl.
  - destruct (update_action_plan_status_found s plan_id plan Hl)
      as [plan' [Hrun _]].
    rewrite Hrun. reflexivity.
  - unfold update_action_plan_status, bind.
    rewrite (RepoFacts.get_or_404_missing _ _ Hl). reflexivity.
Qed.

Lemma quarter_unique_merge (o db : MPMQuarterlyData.t)
    (rows : list MPMQuarterlyData.t) :
  In db rows ->
  MPMQuarterlyData.id o = MPMQuarterlyData.id db ->
  (MPMQuarterlyData.is_deleted o = false ->
   MPMQuarterlyData.is_deleted db = false
   /\ MPMQuarterlyData.action_plan_id o = MPMQuarterlyData.action_plan_id db
   /\ MPMQuarterlyData.quarter o = MPMQuarterlyData.quarter db) ->
  quarter_unique_in rows -> quarter_unique_in (merge o rows).
Proof.
  intros Hdb Hid Hsame Huniq a b Ha Hb Hla Hlb Hplan Hq.
  apply CrudFacts.In_merge_cases in Ha. apply CrudFacts.In_merge_cases in Hb.
  cbn [row_id MPMQuarterlyData_Model] in Ha, Hb.
  destruct Ha as [->|[Ha Hna]]; destruct Hb as [->|[Hb Hnb]].
  - reflexivity.
  - exfalso. apply Hnb. rewrite Hid. symmetry.
    destruct (Hsame Hla) as [Hldb [Hp Hqq]].
    apply Huniq; try assumption; congruence.
  - exfalso. apply Hna. rewrite Hid.
    destruct (Hsame Hlb) as [Hldb [Hp Hqq]].
    apply Huniq; try assumption; congruence.
  - apply Huniq; assumption.
Qed.

(** One datum per plan and quarter.  If no two live quarterly data of a
    plan are of the same quarter, that is still so after
    [create_quarterly_data], after [update_quarterly_data] and after
    [delete], whatever the payload and whether the call returns or
    raises. *)
Theorem quarterly_data_stay_one_per_quarter (s : Session) :
  quarter_unique s ->
  (forall data_in, quarter_unique (fst (create_quarterly_data data_in s)))
  /\ (forall data_id data_in,
        quarter_unique (fst (update_quarterly_data data_id data_in s)))
  /\ (forall data_id,
        quarter_unique (fst (delete (T := MPMQuarterlyData.t) data_id s))).
Proof.
  intros Huniq. split; [|split].
  - intros data_in. unfold create_quarterly_data, bind, get_by_quarter.
    destruct (first _) as [e|] eqn:E; [exact Huniq|].
    rewrite create_quarterly_row.
    set (s1 := advance (set_table _ s)).
    assert (H1 : quarter_unique s1).
    { intros a b Ha Hb Hla Hlb Hplan Hq. cbn in Ha, Hb.
      apply in_app_or in Ha. apply in_app_or in Hb.
      destruct Ha as [Ha|[<-|[]]]; destruct Hb as [Hb|[<-|[]]].
      - apply Huniq; assumption.
      - pose proof (UniquenessFacts.filter_nil_none _ _ a E Ha) as Hf.
        cbn in Hf, Hplan, Hq.
        rewrite Hplan, Hq, Hla, Z.eqb_refl, String.eqb_refl in Hf.
        discriminate.
      - pose proof (UniquenessFacts.filter_nil_none _ _ b E Hb) as Hf.
        cbn in Hf, Hplan, Hq.
        rewrite <- Hplan, <- Hq, Hlb, Z.eqb_refl, String.eqb_refl in Hf.
        discriminate.
      - reflexivity. }
    destruct (is_some_value (qc_actual_value data_in)); [|exact H1].
    unfold quarter_unique.
    pose proof (status_update_keeps_quarters (qc_action_plan_id data_in) s1)
      as Hk.
    destruct (update_action_plan_status (qc_action_plan_id data_in) s1)
      as [s2 [p|e]]; unfold ret; cbn [fst] in *; rewrite Hk; exact H1.
  - intros data_id data_in. unfold update_quarterly_data, bind.
    destruct (Spec.lookup (T := MPMQuarterlyData.t) s data_id) as [db|] eqn:Hl.
    2:{ rewrite (RepoFacts.get_or_404_missing _ _ Hl). exact Huniq. }
    rewrite (RepoFacts.get_or_404_found _ _ _ Hl).
    destruct (RepoFacts.lookup_In _ _ _ Hl) as [Hin [Hid Hlive]].
    unfold update.
    destruct (setattrs db (MPMQuarterlyDataUpdate_dict data_in))
      as [o|] eqn:Hset; [|exact Huniq].
    set (q := set_updated_at o (utcnow s)).
    set (s1 := advance (set_table (merge q (table s)) s)).
    assert (Hq : MPMQuarterlyData.id q = MPMQuarterlyData.id db
                 /\ MPMQuarterlyData.is_deleted q
                    = MPMQuarterlyData.is_deleted db
                 /\ MPMQuarterlyData.action_plan_id q
                    = MPMQuarterlyData.action_plan_id db
                 /\ MPMQuarterlyData.quarter q = MPMQuarterlyData.quarter db).
    { unfold q. cbn in Hset. unfold MPMQuarterlyDataOps.setattrs in Hset.
      cbn in Hset.
      destruct (set_not_null (qu_target_value data_in) _);
        [|discriminate].
      injection Hset as <-. cbn. auto. }
    destruct Hq as [Hqid [Hqdel [Hqplan Hqq]]].
    assert (H1 : quarter_unique s1).
    { unfold quarter_unique, s1. cbn [mpm_quarterly_data advance set_table
                                       MPMQuarterlyData_Model].
      apply (quarter_unique_merge q db); [exact Hin|exact Hqid| |exact Huniq].
      intros Hlq. cbn in Hlive. split; [congruence|]. auto. }
    destruct (is_some_value (attr (qu_actual_value data_in))); [|exact H1].
    unfold quarter_unique.
    pose proof (status_update_keeps_quarters
                  (MPMQuarterlyData.action_plan_id q) s1) as Hk.
    destruct (update_action_plan_status (MPMQuarterlyData.action_plan_id q) s1)
      as [s2 [p|e]]; unfold ret; cbn [fst] in *; rewrite Hk; exact H1.
  - intros data_id.
    destruct (Spec.lookup (T := MPMQuarterlyData.t) s data_id) as [db|] eqn:Hl.
    2:{ unfold delete, bind.
        rewrite (RepoFacts.get_or_404_missing _ _ Hl). exact Huniq. }
    rewrite (CrudFacts.delete_found _ _ _ Hl).
    destruct (RepoFacts.lookup_In _ _ _ Hl) as [Hin _].
    unfold quarter_unique.
    cbn [fst mpm_quarterly_data advance set_table MPMQuarterlyData_Model].
    apply (quarter_unique_merge _ db); [exact Hin|reflexivity| |exact Huniq].
    cbn. discriminate.
Qed.

Lemma quarterly_data_stay_one_per_quarter_witness :
  quarter_unique
    (fst (create_quarterly_data Scenarios.q2_on_target Examples.two_quarters))
  /\ quarter_unique
       (fst (update_quarterly_data 11 Scenarios.actual_100
               Examples.two_quarters))
  /\ quarter_unique
       (fst (delete (T := MPMQuarterlyData.t) 12 Examples.two_quarters)).
Proof.
  assert (Huniq : quarter_unique Examples.two_quarters).
  { intros a b [<-|[<-|[]]] [<-|[<-|[]]] _ _ _ Hq;
      solve [reflexivity | discriminate Hq]. }
  destruct (quarterly_data_stay_one_per_quarter Examples.two_quarters Huniq)
    as [Hc [Hu Hd]].
  split; [apply Hc|]. split; [apply Hu|apply Hd].
Defined.

End QuarterlyWriteFacts.

(* ================================================================== *)
(** ** Updates that keep the key of an indicator unique *)

Module UpdateKeyFacts.
Import RepositoryLaws.

Lemma first_some_In {A} (f : A -> bool) (l : list A) (x : A) :
  first (filter f l) = Some x -> In x l /\ f x = true.
Proof.
  intros H. apply PeriodFacts.first_In in H. apply filter_In in H. exact H.
Qed.

Lemma bsc_unique_merge (s : Session) (o db : BSCIndicator.t) :
  In db (bsc_indicator s) ->
  BSCIndicator.id o = BSCIndicator.id db ->
  (BSCIndicator.is_deleted o = false ->
   forall b, In b (bsc_indicator s) -> BSCIndicator.is_deleted b = false ->
             BSCIndicator.code b = BSCIndicator.code o ->
             BSCIndicator.period_id b = BSCIndicator.period_id o ->
             BSCIndicator.id b = BSCIndicator.id o) ->
  Spec.bsc_unique_code s ->
  Spec.bsc_unique_code
    (advance (set_table (merge o (bsc_indicator s)) s)).
Proof.
  intros Hdb Hid Hkey Huniq a b Ha Hb Hla Hlb Hc Hp.
  cbn [bsc_indicator advance set_table BSCIndicator_Model] in Ha, Hb.
  apply CrudFacts.In_merge_cases in Ha. apply CrudFacts.In_merge_cases in Hb.
  cbn [row_id BSCIndicator_Model] in Ha, Hb.
  destruct Ha as [->|[Ha Hna]]; destruct Hb as [->|[Hb Hnb]].
  - reflexivity.
  - symmetry. apply Hkey; auto.
  - apply Hkey; auto.
  - apply Huniq; assumption.
Qed.

Lemma mpm_unique_merge (s : Session) (o db : MPMIndicator.t) :
  In db (mpm_indicator s) ->
  MPMIndicator.id o = MPMIndicator.id db ->
  (MPMIndicator.is_deleted o = false ->
   forall b, In b (mpm_indicator s) -> MPMIndicator.is_deleted b = false ->
             MPMIndicator.kpi b = MPMIndicator.kpi o ->
             MPMIndicator.period_id b = MPMIndicator.period_id o ->
             MPMIndicator.id b = MPMIndicator.id o) ->
  Spec.mpm_unique_kpi s ->
  Spec.mpm_unique_kpi
    (advance (set_table (merge o (mpm_indicator s)) s)).
Proof.
  intros Hdb Hid Hkey Huniq a b Ha Hb Hla Hlb Hc Hp.
  cbn [mpm_indicator advance set_table MPMIndicator_Model] in Ha, Hb.
  apply CrudFacts.In_merge_cases in Ha. apply CrudFacts.In_merge_cases in Hb.
  cbn [row_id MPMIndicator_Model] in Ha, Hb.
  destruct Ha as [->|[Ha Hna]]; destruct Hb as [->|[Hb Hnb]].
  - reflexivity.
  - symmetry. apply Hkey; auto.
  - apply Hkey; auto.
  - apply Huniq; assumption.
Qed.

Lemma mpm_setattrs_facts (db o : MPMIndicator.t)
    (indicator_in : MPM.MPMIndicatorUpdate) :
  setattrs db (MPM.MPMIndicatorUpdate_dict indicator_in) = Some o ->
  MPMIndicator.id o = MPMIndicator.id db
  /\ MPMIndicator.period_id o = MPMIndicator.period_id db
  /\ MPMIndicator.is_deleted o = MPMIndicator.is_deleted db
  /\ MPMIndicator.kpi o
     = match MPM.iu_kpi indicator_in with
       | Value k => k
       | _ => MPMIndicator.kpi db
       end.
Proof.
  cbn. unfold MPMIndicatorOps.setattrs. cbn. intros Hset.
  destruct (MPM.iu_kpi indicator_in); cbn in Hset; try discriminate;
    destruct (set_not_null (MPM.iu_weight indicator_in) _); cbn in Hset;
    try discriminate;
    destruct (set_not_null (MPM.iu_is_active indicator_in) _); cbn in Hset;
    try discriminate;
    injection Hset as <-; cbn; auto.
Qed.

Lemma bsc_setattrs_facts (db o : BSCIndicator.t)
    (indicator_in : BSC.BSCIndicatorUpdate) :
  BSCIndicator.d_period_id indicator_in = Unset ->
  setattrs db indicator_in = Some o ->
  BSCIndicator.id o = BSCIndicator.id db
  /\ BSCIndicator.period_id o = BSCIndicator.period_id db
  /\ BSCIndicator.is_deleted o = BSCIndicator.is_deleted db
  /\ BSCIndicator.code o
     = match BSCIndicator.d_code indicator_in with
       | Value c => c
       | _ => BSCIndicator.code db
       end.
Proof.
  cbn. unfold BSCIndicatorOps.setattrs. intros Hper Hset. rewrite Hper in Hset.
  destruct (BSCIndicator.d_code indicator_in); cbn in Hset; try discriminate;
    destruct (set_not_null (BSCIndicator.d_kpi indicator_in) _);
    cbn in Hset; try discriminate;
    destruct (set_not_null (BSCIndicator.d_perspective indicator_in) _);
    cbn in Hset; try discriminate;
    destruct (set_not_null (BSCIndicator.d_weight indicator_in) _);
    cbn in Hset; try discriminate;
    destruct (set_not_null (BSCIndicator.d_is_active indicator_in) _);
    cbn in Hset; try discriminate;
    injection Hset as <-; cbn; auto.
Qed.

(** Updates that keep the key of an indicator unique.  If no two live
    BSC indicators share a code in a period, that is still so after
    [update_indicator] with a payload that carries no [period_id] and
    whose code is not the empty string; if no two live MPM indicators
    share a KPI name in a period, that is still so after
    [update_indicator] with a payload whose KPI name is not the empty
    string.  Whether the call returns or raises does not matter. *)
Theorem update_indicator_keeps_keys_unique :
  (forall s indicator_id (indicator_in : BSC.BSCIndicatorUpdate),
     Spec.bsc_unique_code s ->
     BSCIndicator.d_period_id indicator_in = Unset ->
     BSCIndicator.d_code indicator_in <> Value EmptyString ->
     Spec.bsc_unique_code
       (fst (BSC.update_indicator indicator_id indicator_in s)))
  /\ (forall s indicator_id (indicator_in : MPM.MPMIndicatorUpdate),
        Spec.mpm_unique_kpi s ->
        MPM.iu_kpi indicator_in <> Value EmptyString ->
        Spec.mpm_unique_kpi
          (fst (MPM.update_indicator indicator_id indicator_in s))).
Proof.
  split.
  - intros s id indicator_in Huniq Hper Hcode.
    unfold BSC.update_indicator, bind.
    destruct (Spec.lookup (T := BSCIndicator.t) s id) as [db|] eqn:Hl.
    2:{ rewrite (RepoFacts.get_or_404_missing _ _ Hl). exact Huniq. }
    rewrite (RepoFacts.get_or_404_found _ _ _ Hl).
    destruct (RepoFacts.lookup_In _ _ _ Hl) as [Hin [Hid Hlive]].
    cbn in Hin, Hid, Hlive.
    assert (Hupd : forall
        (Hfree : forall c b,
           BSCIndicator.d_code indicator_in = Value c ->
           c <> BSCIndicator.code db ->
           In b (bsc_indicator s) -> BSCIndicator.is_deleted b = false ->
           BSCIndicator.code b = c ->
           BSCIndicator.period_id b = BSCIndicator.period_id db ->
           BSCIndicator.id b = id),
        Spec.bsc_unique_code (fst (update db indicator_in s))).
    { intros Hfree. unfold update.
      destruct (setattrs db indicator_in) as [o|] eqn:Hset; [|exact Huniq].
      destruct (bsc_setattrs_facts db o indicator_in Hper Hset)
        as [Hoid [Hoper [Hodel Hocode]]].
      cbn [fst]. apply (bsc_unique_merge s _ db); [exact Hin|exact Hoid| |
                                                  exact Huniq].
      cbn. intros _ b Hb Hlb Hcb Hpb. rewrite Hoid, Hid.
      rewrite Hocode in Hcb. rewrite Hoper in Hpb.
      destruct (BSCIndicator.d_code indicator_in) as [| |c] eqn:Ec.
      - rewrite <- Hid. apply Huniq; auto.
      - rewrite <- Hid. apply Huniq; auto.
      - destruct (String.eqb_spec c (BSCIndicator.code db)) as [E|E].
        + rewrite <- Hid. apply Huniq; auto. congruence.
        + apply (Hfree c b); auto. }
    destruct (BSCIndicator.d_code indicator_in) as [| |c] eqn:Ec;
      cbn [attr].
    + apply Hupd. intros; discriminate.
    + apply Hupd. intros; discriminate.
    + assert (Htruthy : truthy c = true).
      { unfold truthy. destruct (String.eqb_spec c EmptyString);
          [congruence|reflexivity]. }
      rewrite Htruthy. cbn [andb].
      destruct (String.eqb_spec c (BSCIndicator.code db)) as [E|E];
        cbn [negb].
      * apply Hupd. intros c' b [= <-] Hne. contradiction.
      * rewrite Hper. cbn [attr]. unfold BSC.get_by_code.
        destruct (first (filter _ (bsc_indicator s))) as [e|] eqn:Efirst.
        -- destruct (Z.eqb_spec (BSCIndicator.id e) id) as [Ee|Ee];
             cbn [negb]; [|exact Huniq].
           apply Hupd. intros c' b [= <-] _ Hb Hlb Hcb Hpb.
           apply first_some_In in Efirst as [Hine Hke].
           apply andb_prop in Hke as [Hke Hle].
           apply andb_prop in Hke as [Hce Hpe].
           apply String.eqb_eq in Hce. apply Z.eqb_eq in Hpe.
           apply negb_true_iff in Hle.
           rewrite <- Ee. apply Huniq; auto; congruence.
        -- apply Hupd. intros c' b [= <-] _ Hb Hlb Hcb Hpb. exfalso.
           pose proof (UniquenessFacts.filter_nil_none _ _ b Efirst Hb) as Hf.
           cbn in Hf.
           rewrite Hcb, Hpb, Hlb, String.eqb_refl, Z.eqb_refl in Hf.
           discriminate.
  - intros s id indicator_in Huniq Hkpi.
    unfold MPM.update_indicator, bind.
    destruct (Spec.lookup (T := MPMIndicator.t) s id) as [db|] eqn:Hl.
    2:{ rewrite (RepoFacts.get_or_404_missing _ _ Hl). exact Huniq. }
    rewrite (RepoFacts.get_or_404_found _ _ _ Hl).
    destruct (RepoFacts.lookup_In _ _ _ Hl) as [Hin [Hid Hlive]].
    cbn in Hin, Hid, Hlive.
    assert (Hupd : forall
        (Hfree : forall k b,
           MPM.iu_kpi indicator_in = Value k ->
           k <> MPMIndicator.kpi db ->
           In b (mpm_indicator s) -> MPMIndicator.is_deleted b = false ->
           MPMIndicator.kpi b = k ->
           MPMIndicator.period_id b = MPMIndicator.period_id db ->
           MPMIndicator.id b = id),
        Spec.mpm_unique_kpi
          (fst (update db (MPM.MPMIndicatorUpdate_dict indicator_in) s))).
    { intros Hfree. unfold update.
      destruct (setattrs db (MPM.MPMIndicatorUpdate_dict indicator_in))
        as [o|] eqn:Hset; [|exact Huniq].
      destruct (mpm_setattrs_facts db o indicator_in Hset)
        as [Hoid [Hoper [Hodel Hokpi]]].
      cbn [fst]. apply (mpm_unique_merge s _ db); [exact Hin|exact Hoid| |
                                                  exact Huniq].
      cbn. intros _ b Hb Hlb Hkb Hpb. rewrite Hoid, Hid.
      rewrite Hokpi in Hkb. rewrite Hoper in Hpb.
      destruct (MPM.iu_kpi indicator_in) as [| |k] eqn:Ek.
      - rewrite <- Hid. apply Huniq; auto.
      - rewrite <- Hid. apply Huniq; auto.
      - destruct (String.eqb_spec k (MPMIndicator.kpi db)) as [E|E].
        + rewrite <- Hid. apply Huniq; auto. congruence.
        + apply (Hfree k b); auto. }
    destruct (MPM.iu_kpi indicator_in) as [| |k] eqn:Ek; cbn [attr].
    + apply Hupd. intros; discriminate.
    + apply Hupd. intros; discriminate.
    + assert (Htruthy : truthy k = true).
      { unfold truthy. destruct (String.eqb_spec k EmptyString);
          [congruence|reflexivity]. }
      rewrite Htruthy. cbn [andb].
      destruct (String.eqb_spec k (MPMIndicator.kpi db)) as [E|E];
        cbn [negb].
      * apply Hupd. intros k' b [= <-] Hne. contradiction.
      * unfold MPM.get_by_kpi.
        destruct (first (filter _ (mpm_indicator s))) as [e|] eqn:Efirst.
        -- destruct (Z.eqb_spec (MPMIndicator.id e) id) as [Ee|Ee];
             cbn [negb]; [|exact Huniq].
           apply Hupd. intros k' b [= <-] _ Hb Hlb Hkb Hpb.
           apply first_some_In in Efirst as [Hine Hke].
           apply andb_prop in Hke as [Hke Hle].
           apply andb_prop in Hke as [Hce Hpe].
           apply String.eqb_eq in Hce. apply Z.eqb_eq in Hpe.
           apply negb_true_iff in Hle.
           rewrite <- Ee. apply Huniq; auto; congruence.
        -- apply Hupd. intros k' b [= <-] _ Hb Hlb Hkb Hpb. exfalso.
           pose proof (UniquenessFacts.filter_nil_none _ _ b Efirst Hb) as Hf.
           cbn in Hf.
           rewrite Hkb, Hpb, Hlb, String.eqb_refl, Z.eqb_refl in Hf.
           discriminate.
Qed.

Lemma update_indicator_keeps_keys_unique_witness :
  Spec.bsc_unique_code
    (fst (BSC.update_indicator 2 Scenarios.code_f9 Examples.bsc_same_code))
  /\ Spec.mpm_unique_kpi
       (fst (MPM.update_indicator 2 Scenarios.kpi_revenue Examples.mpm_dash)).
Proof.
  split.
  - apply (proj1 update_indicator_keeps_keys_unique).
    + intros a b [<-|[<-|[]]] [<-|[<-|[]]] _ _ _ Hp;
        solve [reflexivity | discriminate Hp].
    + reflexivity.
    + discriminate.
  - apply (proj2 update_indicator_keeps_keys_unique).
    + intros a b [<-|[<-|[]]] [<-|[<-|[]]] _ _ Hk _;
        solve [reflexivity | discriminate Hk].
    + discriminate.
Defined.

Example rename_to_taken_kpi_refused :
  MPM.update_indicator 2 Scenarios.kpi_revenue Examples.mpm_dash
  = (Examples.mpm_dash, Raise (HTTPException HTTP_400_BAD_REQUEST)).
Proof. reflexivity. Qed.

End UpdateKeyFacts.

(* ================================================================== *)
(** ** MPM: monthly targets *)

Module MonthlyTargetFacts.
Import MonthlyTarget RepositoryLaws.

#[export] Instance MPMMonthlyTarget_MappedLaws
  : MappedLaws MPMMonthlyTarget.t MonthlyTarget.dict.
Proof.
  constructor.
  - intros d i now o Hnew. cbn in Hnew. unfold new in Hnew.
    built Hnew. reflexivity.
  - intros d i now o Hnew. cbn in Hnew. unfold new in Hnew.
    built Hnew. reflexivity.
  - intros o d o' Hset. cbn in Hset. unfold setattrs in Hset.
    built Hset. reflexivity.
  - intros o d o' Hset. cbn in Hset. unfold setattrs in Hset.
    built Hset. reflexivity.
  - intros; reflexivity.
  - intros; reflexivity.
Qed.

Lemma month_unique_merge (s : Session) (o db : MPMMonthlyTarget.t) :
  In db (mpm_monthly_target s) ->
  MPMMonthlyTarget.id o = MPMMonthlyTarget.id db ->
  (MPMMonthlyTarget.is_deleted o = false ->
   MPMMonthlyTarget.is_deleted db = false
   /\ MPMMonthlyTarget.indicator_id o = MPMMonthlyTarget.indicator_id db
   /\ MPMMonthlyTarget.month o = MPMMonthlyTarget.month db) ->
  month_unique s ->
  month_unique (advance (set_table (merge o (mpm_monthly_target s)) s)).
Proof.
  intros Hdb Hid Hsame Huniq a b Ha Hb Hla Hlb Hind Hm.
  cbn [mpm_monthly_target advance set_table MPMMonthlyTarget_Model] in Ha, Hb.
  apply CrudFacts.In_merge_cases in Ha. apply CrudFacts.In_merge_cases in Hb.
  cbn [row_id MPMMonthlyTarget_Model] in Ha, Hb.
  destruct Ha as [->|[Ha Hna]]; destruct Hb as [->|[Hb Hnb]].
  - reflexivity.
  - exfalso. apply Hnb. rewrite Hid. symmetry.
    destruct (Hsame Hla) as [Hldb [Hi Hmm]].
    apply Huniq; try assumption; congruence.
  - exfalso. apply Hna. rewrite Hid.
    destruct (Hsame Hlb) as [Hldb [Hi Hmm]].
    apply Huniq; try assumption; congruence.
  - apply Huniq; assumption.
Qed.

(** One target per indicator and month.  If no two live monthly targets
    of an indicator are of the same month, that is still so after
    [create_monthly_target], after [update_monthly_target] and after
    [delete], whatever the payload and whether the call returns or
    raises. *)
Theorem monthly_targets_stay_one_per_month (s : Session) :
  month_unique s ->
  (forall target_in, month_unique (fst (create_monthly_target target_in s)))
  /\ (forall target_id target_in,
        month_unique (fst (update_monthly_target target_id target_in s)))
  /\ (forall target_id,
        month_unique (fst (delete (T := MPMMonthlyTarget.t) target_id s))).
Proof.
  intros Huniq. split; [|split].
  - intros target_in. unfold create_monthly_target, bind, get_by_month.
    destruct (first _) as [e|] eqn:E; [exact Huniq|].
    unfold create. cbn.
    intros a b Ha Hb Hla Hlb Hind Hm. cbn in Ha, Hb.
    apply in_app_or in Ha. apply in_app_or in Hb.
    destruct Ha as [Ha|[<-|[]]]; destruct Hb as [Hb|[<-|[]]].
    + apply Huniq; assumption.
    + pose proof (UniquenessFacts.filter_nil_none _ _ a E Ha) as Hf.
      cbn in Hf, Hind, Hm.
      rewrite Hind, Hm, Hla, Z.eqb_refl, String.eqb_refl in Hf.
      discriminate.
    + pose proof (UniquenessFacts.filter_nil_none _ _ b E Hb) as Hf.
      cbn in Hf, Hind, Hm.
      rewrite <- Hind, <- Hm, Hlb, Z.eqb_refl, String.eqb_refl in Hf.
      discriminate.
    + reflexivity.
  - intros target_id target_in. unfold update_monthly_target, bind.
    destruct (Spec.lookup (T := MPMMonthlyTarget.t) s target_id)
      as [db|] eqn:Hl.
    2:{ rewrite (RepoFacts.get_or_404_missing _ _ Hl). exact Huniq. }
    rewrite (RepoFacts.get_or_404_found _ _ _ Hl).
    destruct (RepoFacts.lookup_In _ _ _ Hl) as [Hin [Hid Hlive]].
    unfold update. cbn -[merge advance]. unfold setattrs. cbn -[merge advance].
    destruct (set_not_null (tu_target_value target_in) _) as [tv|];
      [|exact Huniq].
    cbn -[merge advance].
    apply (month_unique_merge s _ db); [exact Hin|reflexivity| |exact Huniq].
    cbn. intros Hlo. auto.
  - intros target_id.
    destruct (Spec.lookup (T := MPMMonthlyTarget.t) s target_id)
      as [db|] eqn:Hl.
    2:{ unfold delete, bind.
        rewrite (RepoFacts.get_or_404_missing _ _ Hl). exact Huniq. }
    rewrite (CrudFacts.delete_found _ _ _ Hl).
    destruct (RepoFacts.lookup_In _ _ _ Hl) as [Hin _].
    cbn [fst].
    apply (month_unique_merge s _ db); [exact Hin|reflexivity| |exact Huniq].
    cbn. discriminate.
Qed.

Lemma monthly_targets_stay_one_per_month_witness :
  month_unique
    (fst (create_monthly_target Scenarios.mar_25 Scenarios.mpm_with_targets))
  /\ month_unique
       (fst (update_monthly_target 31 Scenarios.target_40
               Scenarios.mpm_with_targets))
  /\ month_unique
       (fst (delete (T := MPMMonthlyTarget.t) 32
               Scenarios.mpm_with_targets)).
Proof.
  assert (Huniq : month_unique Scenarios.mpm_with_targets).
  { intros a b [<-|[<-|[]]] [<-|[<-|[]]] _ _ _ Hm;
      solve [reflexivity | discriminate Hm]. }
  destruct (monthly_targets_stay_one_per_month Scenarios.mpm_with_targets
              Huniq) as [Hc [Hu Hd]].
  split; [apply Hc|]. split; [apply Hu|apply Hd].
Defined.

Section LastWins.
Context {X V : Type} (key : X -> string) (val : X -> V).

Lemma getitem_fold_other (l : list X) (d : list (string * V)) (k : string) :
  (forall u, In u l -> key u <> k) ->
  dict_getitem String.eqb
    (fold_left (fun d t => dict_setitem String.eqb d (key t) (val t)) l d) k
  = dict_getitem String.eqb d k.
Proof.
  revert d. induction l as [|x l IH]; intros d Hne; [reflexivity|].
  cbn [fold_left]. rewrite IH by (intros u Hu; apply Hne; right; exact Hu).
  rewrite (DictFacts.getitem_setitem String.eqb String.eqb_eq).
  destruct (String.eqb_spec (key x) k) as [E|_]; [|reflexivity].
  exfalso. apply (Hne x); [left; reflexivity|exact E].
Qed.

Lemma getitem_fold_last (l1 l2 : list X) (t : X) (d : list (string * V)) :
  (forall u, In u l2 -> key u <> key t) ->
  dict_getitem String.eqb
    (fold_left (fun d t => dict_setitem String.eqb d (key t) (val t))
       (l1 ++ t :: l2) d) (key t)
  = Some (val t).
Proof.
  intros Hne. rewrite fold_left_app. cbn [fold_left].
  rewrite getitem_fold_other by exact Hne.
  rewrite (DictFacts.getitem_setitem String.eqb String.eqb_eq).
  rewrite String.eqb_refl. reflexivity.
Qed.

End LastWins.

Lemma NoDup_map_split {A B} (f : A -> B) (l1 l2 : list A) (t u : A) :
  NoDup (map f (l1 ++ t :: l2)) -> In u l2 -> f u <> f t.
Proof.
  rewrite map_app. cbn [map]. intros Hnd Hu E.
  apply NoDup_remove_2 in Hnd. apply Hnd. apply in_or_app. right.
  rewrite <- E. apply in_map. exact Hu.
Qed.

(** The monthly targets shown on the MPM dashboard.  For every item of
    the dashboard, the dictionary [monthly_targets] is read off the live
    monthly targets of the indicator in storage order: a month has the
    value of the last target stored for it, and a month without target
    is absent.  When the identifiers of the targets are distinct and no
    two live targets of an indicator are of the same month, the
    dictionary has the value of every live target under its month. *)
Theorem dashboard_monthly_targets collation (s : Session) (period_id : UUID) :
  exists d,
    MPM.get_dashboard_data collation period_id s = (s, Ok d)
    /\ forall k g item,
         In (k, g) (MPM.perspectives d) -> In item (MPM.items g) ->
         (forall l1 t l2,
            live_targets s (MPM.indicator item) = l1 ++ t :: l2 ->
            (forall u, In u l2 ->
                       MPMMonthlyTarget.month u <> MPMMonthlyTarget.month t) ->
            dict_getitem String.eqb (MPM.monthly_targets item)
              (MPMMonthlyTarget.month t)
            = Some (MPMMonthlyTarget.target_value t))
         /\ (forall m,
               (forall t, In t (live_targets s (MPM.indicator item)) ->
                          MPMMonthlyTarget.month t <> m) ->
               dict_getitem String.eqb (MPM.monthly_targets item) m = None)
         /\ (NoDup (map MPMMonthlyTarget.id (mpm_monthly_target s)) ->
             month_unique s ->
             forall t,
               In t (live_targets s (MPM.indicator item)) ->
               dict_getitem String.eqb (MPM.monthly_targets item)
                 (MPMMonthlyTarget.month t)
               = Some (MPMMonthlyTarget.target_value t)).
Proof.
  destruct (MPMDashboardFacts.mpm_dashboard_shape collation s period_id)
    as [d [Hd [Hnd [Hget _]]]].
  exists d. split; [exact Hd|]. intros k g item Hkg Hitem.
  apply (DictFacts.In_getitem MPMBucketKey_eqb
           DictFacts.MPMBucketKey_eqb_eq _ _ _ Hnd) in Hkg.
  rewrite Hget in Hkg. destruct (existsb _ _); [|discriminate].
  injection Hkg as <-. cbn in Hitem.
  apply in_map_iff in Hitem as [i [<- _]].
  cbn [Spec.mpm_item_of MPM.indicator MPM.monthly_targets].
  unfold MPM.monthly_targets_dict. fold (live_targets s i).
  assert (Hlast : forall l1 t l2,
            live_targets s i = l1 ++ t :: l2 ->
            (forall u, In u l2 ->
                       MPMMonthlyTarget.month u <> MPMMonthlyTarget.month t) ->
            dict_getitem String.eqb
              (fold_left
                 (fun d target =>
                    dict_setitem String.eqb d (MPMMonthlyTarget.month target)
                      (MPMMonthlyTarget.target_value target))
                 (live_targets s i) []) (MPMMonthlyTarget.month t)
            = Some (MPMMonthlyTarget.target_value t)).
  { intros l1 t l2 Hsplit Hne. rewrite Hsplit.
    apply (getitem_fold_last MPMMonthlyTarget.month
             MPMMonthlyTarget.target_value). exact Hne. }
  split; [exact Hlast|]. split.
  - intros m Hne.
    rewrite (getitem_fold_other MPMMonthlyTarget.month
               MPMMonthlyTarget.target_value) by exact Hne.
    reflexivity.
  - intros Hpk Huniq t Ht.
    destruct (in_split _ _ Ht) as [l1 [l2 Hsplit]].
    apply (Hlast l1 t l2 Hsplit). intros u Hu Hm.
    assert (Hnd' : NoDup (map MPMMonthlyTarget.id (live_targets s i)))
      by (apply PeriodFacts.NoDup_map_filter; exact Hpk).
    rewrite Hsplit in Hnd'.
    apply (NoDup_map_split _ _ _ _ _ Hnd' Hu).
    assert (Hu' : In u (live_targets s i))
      by (rewrite Hsplit; apply in_or_app; right; right; exact Hu).
    apply filter_In in Hu' as [Hinu Hcu]. apply filter_In in Ht as [Hint Hct].
    apply andb_prop in Hcu as [Hiu Hlu]. apply andb_prop in Hct as [Hit Hlt].
    apply Z.eqb_eq in Hiu, Hit. apply negb_true_iff in Hlu, Hlt.
    apply Huniq; try assumption. congruence.
Qed.

Lemma dashboard_monthly_targets_witness :
  exists d,
    MPM.get_dashboard_data Examples.stored_order 10
      Scenarios.mpm_with_targets = (Scenarios.mpm_with_targets, Ok d)
    /\ forall k g item,
         In (k, g) (MPM.perspectives d) -> In item (MPM.items g) ->
         dict_getitem String.eqb (MPM.monthly_targets item) "Feb-25"%string
         = Some Examples.d_20
         /\ dict_getitem String.eqb (MPM.monthly_targets item) "Mar-25"%string
            = None.
Proof.
  destruct (dashboard_monthly_targets Examples.stored_order
              Scenarios.mpm_with_targets 10) as [d [Hd H]].
  exists d. split; [exact Hd|]. intros k g item Hk Hi.
  destruct (H k g item Hk Hi) as [Hlast [Hnone _]].
  vm_compute in Hd. injection Hd as <-.
  destruct Hk as [[= <- <-]|[]]. destruct Hi as [<-|[]].
  split.
  - apply (Hlast [Scenarios.jan_25] Scenarios.feb_25 []); [reflexivity|].
    intros u [].
  - apply Hnone. intros t [<-|[<-|[]]]; discriminate.
Defined.

End MonthlyTargetFacts.

(* ================================================================== *)
(** ** Periods: the two ways to change a status *)

Module PeriodUpdateFacts.
Import RepositoryLaws.

#[export] Instance Period_MappedLaws : MappedLaws Period.t PeriodOps.dict.
Proof.
  constructor.
  - intros d i now o Hnew. cbn in Hnew. unfold PeriodOps.new in Hnew.
    built Hnew. reflexivity.
  - intros d i now o Hnew. cbn in Hnew. unfold PeriodOps.new in Hnew.
    built Hnew. reflexivity.
  - intros o d o' Hset. cbn in Hset. unfold PeriodOps.setattrs in Hset.
    built Hset. reflexivity.
  - intros o d o' Hset. cbn in Hset. unfold PeriodOps.setattrs in Hset.
    built Hset. reflexivity.
  - intros; reflexivity.
  - intros; reflexivity.
Qed.

Lemma two_in_length {A} (l : list A) (x y : A) :
  In x l -> In y l -> x <> y -> (2 <= List.length l)%nat.
Proof.
  intros Hx Hy Hne. destruct l as [|a [|b l]]; cbn in *.
  - destruct Hx.
  - destruct Hx as [<-|[]], Hy as [<-|[]]. contradiction.
  - lia.
Qed.

Lemma In_merge_other {T : Type} `{Model T} (o r : T) (rows : list T) :
  In r rows -> row_id r <> row_id o -> In r (merge o rows).
Proof.
  intros Hin Hne. unfold merge. apply in_map_iff. exists r.
  destruct (Z.eqb_spec (row_id r) (row_id o)); [contradiction|]. auto.
Qed.

(** The generic update sets a status unchecked.  When a live period is
    Active, [BaseService.update] of another live period with the payload
    [{"status": "Active"}], the call behind PATCH /periods/{id}, returns
    that period with the status Active; both periods are then live and
    Active, and the session has more than one Active period. *)
Theorem generic_update_activates_unchecked
    (s : Session) (id : UUID) (db_obj active : Period.t) :
  Spec.lookup s id = Some db_obj ->
  In active (Spec.active_periods s) ->
  Period.id active <> id ->
  exists s' o,
    BaseService.update id (PeriodOps.mkdict Unset Unset (Value ACTIVE)) s
    = (s', Ok o)
    /\ Period.id o = id
    /\ Period.status o = ACTIVE
    /\ In active (Spec.active_periods s')
    /\ In o (Spec.active_periods s')
    /\ ~ Spec.single_active s'.
Proof.
  intros Hl Hact Hne.
  destruct (RepoFacts.lookup_In _ _ _ Hl) as [Hin [Hid Hlive]].
  cbn in Hin, Hid, Hlive.
  unfold BaseService.update, bind.
  rewrite (RepoFacts.get_or_404_found _ _ _ Hl).
  set (o := Period.mk (Period.id db_obj) (Period.year db_obj)
              (Period.period db_obj) ACTIVE (Period.created_at db_obj)
              (Some (utcnow s)) (Period.is_deleted db_obj)).
  exists (advance (set_table (merge o (period s)) s)), o.
  split; [reflexivity|]. split; [exact Hid|]. split; [reflexivity|].
  apply filter_In in Hact as [Hina Hla].
  assert (Ha : In active
                 (Spec.active_periods
                    (advance (set_table (merge o (period s)) s)))).
  { apply filter_In. split; [|exact Hla]. cbn.
    apply In_merge_other; [exact Hina|]. cbn. congruence. }
  assert (Ho : In o
                 (Spec.active_periods
                    (advance (set_table (merge o (period s)) s)))).
  { apply filter_In. split.
    - cbn. apply (RepoFacts.In_merge o db_obj); [exact Hin|reflexivity].
    - unfold Spec.live_active. cbn. rewrite Hlive. reflexivity. }
  split; [exact Ha|]. split; [exact Ho|].
  unfold Spec.single_active. intros Hone.
  assert (active <> o) by (intros ->; apply Hne; exact Hid).
  pose proof (two_in_length _ _ _ Ha Ho H). lia.
Qed.

Lemma generic_update_activates_unchecked_witness :
  exists s' o,
    BaseService.update 2 (PeriodOps.mkdict Unset Unset (Value ACTIVE))
      Examples.two_periods = (s', Ok o)
    /\ Period.id o = 2
    /\ Period.status o = ACTIVE
    /\ In Examples.period_1 (Spec.active_periods s')
    /\ In o (Spec.active_periods s')
    /\ ~ Spec.single_active s'.
Proof.
  apply (generic_update_activates_unchecked Examples.two_periods 2
           Examples.period_2 Examples.period_1).
  - reflexivity.
  - left. reflexivity.
  - discriminate.
Defined.

Lemma merge_absent {T : Type} `{Model T} (o : T) (rows : list T) :
  (forall r, In r rows -> row_id r <> row_id o) -> merge o rows = rows.
Proof.
  intros Hne. unfold merge. induction rows as [|x rows IH]; [reflexivity|].
  cbn [map]. rewrite IH by (intros r Hr; apply Hne; right; exact Hr).
  destruct (Z.eqb_spec (row_id x) (row_id o)) as [E|_]; [|reflexivity].
  exfalso. apply (Hne x); [left; reflexivity|exact E].
Qed.

Lemma filter_merge_single (f : Period.t -> bool) (o db : Period.t)
    (rows : list Period.t) :
  NoDup (map Period.id rows) -> In db rows -> Period.id db = Period.id o ->
  f o = true ->
  (forall r, In r rows -> Period.id r <> Period.id o -> f r = false) ->
  filter f (merge o rows) = [o].
Proof.
  intros Hnd Hin Hid Hfo Hothers.
  induction rows as [|x rows IH]; [destruct Hin|].
  cbn [map] in Hnd. inversion Hnd as [|? ? Hnotin Hnd']; subst.
  unfold merge. cbn [map filter]. fold (merge o rows).
  change (row_id x) with (Period.id x). change (row_id o) with (Period.id o).
  destruct (Z.eqb_spec (Period.id x) (Period.id o)) as [E|E].
  - rewrite Hfo. f_equal.
    assert (Habs : forall r, In r rows -> row_id r <> row_id o).
    { intros r Hr Er. apply Hnotin. cbn in Er. rewrite E, <- Er.
      apply in_map. exact Hr. }
    rewrite (merge_absent o rows Habs).
    apply StatusFacts.filter_none. intros r Hr.
    apply Hothers; [right; exact Hr|]. apply (Habs r Hr).
  - rewrite (Hothers x (or_introl eq_refl) E).
    apply IH; [exact Hnd'| |].
    + destruct Hin as [->|Hin]; [congruence|exact Hin].
    + intros r Hr. apply Hothers. right. exact Hr.
Qed.

Lemma lookup_of_In (s : Session) (p : Period.t) :
  Spec.period_ids_unique s -> In p (period s) -> Period.is_deleted p = false ->
  Spec.lookup s (Period.id p) = Some p.
Proof.
  unfold Spec.period_ids_unique, Spec.lookup. cbn [table Period_Model row_id
                                                   row_is_deleted].
  induction (period s) as [|x rows IH]; intros Hnd Hin Hlive; [destruct Hin|].
  cbn [map] in Hnd. inversion Hnd as [|? ? Hnotin Hnd']; subst.
  cbn [filter]. destruct Hin as [->|Hin].
  - rewrite Z.eqb_refl, Hlive. reflexivity.
  - destruct (Z.eqb_spec (Period.id x) (Period.id p)) as [E|_].
    + exfalso. apply Hnotin. rewrite E. apply in_map. exact Hin.
    + cbn [andb]. apply IH; assumption.
Qed.

(** Closing the Active period frees the way: with [id] the primary key
    of the periods and at most one live Active period, [update_status]
    to Closed on the Active period followed by [update_status] to Active
    on another live period both return; afterwards that other period is
    the one live Active period, the one [get_active_period] returns. *)
Theorem close_then_activate
    (s : Session) (active : Period.t) (id : UUID) (db_obj : Period.t) :
  Spec.period_ids_unique s -> Spec.single_active s ->
  In active (Spec.active_periods s) ->
  Spec.lookup s id = Some db_obj ->
  id <> Period.id active ->
  exists s1 closed s2 o,
    PeriodRepository.update_status (Period.id active) CLOSED s
    = (s1, Ok closed)
    /\ Period.status closed = CLOSED
    /\ PeriodRepository.update_status id ACTIVE s1 = (s2, Ok o)
    /\ Period.id o = id
    /\ Period.status o = ACTIVE
    /\ Spec.active_periods s2 = [o]
    /\ PeriodRepository.get_active_period s2 = (s2, Ok (Some o)).
Proof.
  intros Hpk Hone Hact Hl Hne.
  apply filter_In in Hact as [Hina Hla].
  assert (Hlivea : Period.is_deleted active = false).
  { unfold Spec.live_active in Hla. apply andb_prop in Hla as [_ Hd].
    apply negb_true_iff. exact Hd. }
  pose proof (lookup_of_In s active Hpk Hina Hlivea) as Hla'.
  destruct (RepoFacts.lookup_In _ _ _ Hl) as [Hinb [Hidb Hliveb]].
  cbn in Hinb, Hidb, Hliveb.
  set (closed := Spec.with_status active CLOSED (utcnow s)).
  set (s1 := advance (set_table (merge closed (period s)) s)).
  assert (H1 : PeriodRepository.update_status (Period.id active) CLOSED s
               = (s1, Ok closed)).
  { rewrite PeriodFacts.update_status_unfold, Hla'. reflexivity. }
  assert (Hnone : Spec.active_periods s1 = []).
  { unfold Spec.active_periods. apply StatusFacts.filter_none.
    intros r Hr. cbn in Hr. apply CrudFacts.In_merge_cases in Hr.
    destruct Hr as [->|[Hr Hnr]]; [reflexivity|].
    destruct (Spec.live_active r) eqn:Er; [|reflexivity]. exfalso.
    apply Hnr. cbn.
    apply (PeriodFacts.share_of_single _ Hone); assumption. }
  assert (Hl1 : Spec.lookup s1 id = Some db_obj).
  { unfold s1. rewrite CrudFacts.lookup_commit.
    rewrite CrudFacts.filter_merge_other by (cbn; exact Hne). exact Hl. }
  set (o := Spec.with_status db_obj ACTIVE (utcnow s1)).
  set (s2 := advance (set_table (merge o (period s1)) s1)).
  assert (H2 : PeriodRepository.update_status id ACTIVE s1 = (s2, Ok o)).
  { rewrite PeriodFacts.update_status_unfold, Hl1. cbn [PeriodStatus_eqb].
    rewrite Hnone. reflexivity. }
  assert (Hact2 : Spec.active_periods s2 = [o]).
  { unfold Spec.active_periods, s2.
    cbn [period advance set_table Period_Model].
    destruct (RepoFacts.lookup_In _ _ _ Hl1) as [Hinb1 _].
    apply (filter_merge_single _ o db_obj).
    - unfold s1. cbn [period advance set_table Period_Model].
      rewrite PeriodFacts.map_id_merge. exact Hpk.
    - exact Hinb1.
    - reflexivity.
    - unfold Spec.live_active. cbn. rewrite Hliveb. reflexivity.
    - intros r Hr _. destruct (Spec.live_active r) eqn:Er; [|reflexivity].
      assert (Hin : In r (Spec.active_periods s1))
        by (apply filter_In; split; [exact Hr|exact Er]).
      rewrite Hnone in Hin. destruct Hin. }
  exists s1, closed, s2, o.
  split; [exact H1|]. split; [reflexivity|]. split; [exact H2|].
  split; [exact Hidb|]. split; [reflexivity|]. split; [exact Hact2|].
  unfold PeriodRepository.get_active_period.
  change (filter _ (period s2)) with (Spec.active_periods s2).
  rewrite Hact2. reflexivity.
Qed.

Lemma close_then_activate_witness :
  exists s1 closed s2 o,
    PeriodRepository.update_status 1 CLOSED Examples.two_periods
    = (s1, Ok closed)
    /\ Period.status closed = CLOSED
    /\ PeriodRepository.update_status 2 ACTIVE s1 = (s2, Ok o)
    /\ Period.id o = 2
    /\ Period.status o = ACTIVE
    /\ Spec.active_periods s2 = [o]
    /\ PeriodRepository.get_active_period s2 = (s2, Ok (Some o)).
Proof.
  apply (close_then_activate Examples.two_periods Examples.period_1 2
           Examples.period_2).
  - unfold Spec.period_ids_unique. cbn.
    repeat constructor; cbn; intuition discriminate.
  - unfold Spec.single_active. cbn. lia.
  - left. reflexivity.
  - reflexivity.
  - discriminate.
Defined.

End PeriodUpdateFacts.

(* ================================================================== *)
(** ** Sums that are exact *)

Module SumFacts.
Import Dec.

Lemma pow10_pos (k : Z) : 0 <= k -> 0 < 10 ^ k.
Proof. intros Hk. apply Z.pow_pos_nonneg; lia. Qed.

Lemma len_fits (n : Z) : 0 <= n -> n < 10 ^ prec -> len n <= prec.
Proof.
  intros H0 Hlt. destruct (Z.eq_dec n 0) as [->|Hne].
  - rewrite DecFacts.len_nonpos by lia. unfold prec. lia.
  - apply DecFacts.len_le_iff; [lia|unfold prec; lia|exact Hlt].
Qed.

(** A positive coefficient times a power of ten below [10^prec]: the
    digits of the coefficient and the power add up to at most [prec]. *)
Lemma scaled_fits (c k : Z) :
  0 < c -> 0 <= k -> c * 10 ^ k < 10 ^ prec -> len c + k <= prec.
Proof.
  intros Hc Hk Hlt. pose proof (DecFacts.len_bounds c Hc) as [Hlo _].
  pose proof (DecFacts.len_pos c) as Hl.
  destruct (Z.le_gt_cases (len c + k) prec) as [|Hgt]; [assumption|].
  exfalso.
  assert (Hp : 10 ^ prec <= 10 ^ (len c - 1 + k))
    by (apply Z.pow_le_mono_r; lia).
  rewrite Z.pow_add_r in Hp by lia.
  pose proof (pow10_pos k Hk). nia.
Qed.

Lemma value_aligned (d : Decimal) (e : Z) :
  dsign d = false -> e <= dexp d ->
  (value d == inject_Z (aligned e d) * inject_Z 10 ^ e)%Q.
Proof.
  intros Hs He. rewrite (DecOrder.value_on_exp d e He).
  unfold aligned, sint. rewrite Hs. reflexivity.
Qed.

(** The sum of two non-negative decimals that fit the precision together
    is their sum, written on the lower exponent. *)
Lemma add_fits (a b : Decimal) :
  dsign a = false -> dsign b = false -> 0 <= dint a -> 0 <= dint b ->
  let e := Z.min (dexp a) (dexp b) in
  aligned e a + aligned e b < 10 ^ prec ->
  add a b = mk false (aligned e a + aligned e b) e.
Proof.
  intros Hsa Hsb Ha Hb e Hlt. unfold aligned in *.
  assert (Hea : 0 <= dexp a - e) by (unfold e; lia).
  assert (Heb : 0 <= dexp b - e) by (unfold e; lia).
  pose proof (pow10_pos _ Hea) as Hpa. pose proof (pow10_pos _ Heb) as Hpb.
  unfold add. fold e.
  destruct (Z.eqb_spec (dint a) 0) as [Za|Za];
    destruct (Z.eqb_spec (dint b) 0) as [Zb|Zb]; cbn [andb].
  - rewrite Hsa, Hsb, Za, Zb. cbn [andb]. rewrite !Z.mul_0_l.
    apply DecFacts.fix_exact. cbn. unfold prec. lia.
  - rewrite Za, Z.mul_0_l, Z.add_0_l in *.
    assert (Hfit : len (dint b) + (dexp b - e) <= prec)
      by (apply scaled_fits; lia).
    pose proof (DecFacts.len_pos (dint b)).
    replace (Z.max e (dexp b - prec - 1)) with e by lia.
    unfold rescale. rewrite Hsb.
    apply DecFacts.fix_exact. cbn [dint]. apply len_fits; nia.
  - rewrite Zb, Z.mul_0_l, Z.add_0_r in *.
    assert (Hfit : len (dint a) + (dexp a - e) <= prec)
      by (apply scaled_fits; lia).
    pose proof (DecFacts.len_pos (dint a)).
    replace (Z.max e (dexp a - prec - 1)) with e by lia.
    unfold rescale. rewrite Hsa.
    apply DecFacts.fix_exact. cbn [dint]. apply len_fits; nia.
  - pose proof (DecFacts.len_pos (dint a)) as Hla.
    pose proof (DecFacts.len_pos (dint b)) as Hlb.
    assert (Hfa : len (dint a) + (dexp a - e) <= prec)
      by (apply scaled_fits; nia).
    assert (Hfb : len (dint b) + (dexp b - e) <= prec)
      by (apply scaled_fits; nia).
    unfold normalize.
    destruct (Z.ltb_spec (dexp a) (dexp b)) as [Hsw|Hsw].
    + assert (He : e = dexp a) by (unfold e; lia).
      destruct (Z.ltb_spec (len (dint a) + dexp a - 1)
                  (dexp b + Z.min (-1) (len (dint b) - prec - 2)))
        as [Hst|Hst]; [lia|].
      cbn [dsign dint dexp]. rewrite Hsa, Hsb. cbn [Bool.eqb].
      rewrite He in *. rewrite Z.sub_diag, Z.mul_1_r in *.
      apply DecFacts.fix_exact. cbn [dint]. apply len_fits; nia.
    + assert (He : e = dexp b) by (unfold e; lia).
      destruct (Z.ltb_spec (len (dint b) + dexp b - 1)
                  (dexp a + Z.min (-1) (len (dint a) - prec - 2)))
        as [Hst|Hst]; [lia|].
      cbn [dsign dint dexp]. rewrite Hsa, Hsb. cbn [Bool.eqb].
      rewrite He in *. rewrite Z.sub_diag, Z.mul_1_r in *.
      apply DecFacts.fix_exact. cbn [dint]. apply len_fits; nia.
Qed.

Lemma aligned_nonneg (e : Z) (d : Decimal) :
  0 <= dint d -> e <= dexp d -> 0 <= aligned e d.
Proof.
  intros Hd He. unfold aligned.
  pose proof (pow10_pos (dexp d - e) ltac:(lia)). nia.
Qed.

Lemma aligned_lower (e e' : Z) (d : Decimal) :
  e <= e' -> e' <= dexp d -> aligned e d = aligned e' d * 10 ^ (e' - e).
Proof.
  intros H1 H2. unfold aligned.
  replace (dexp d - e) with ((dexp d - e') + (e' - e)) by lia.
  rewrite Z.pow_add_r by lia. ring.
Qed.

Lemma sum_aligned_nonneg (e : Z) (l : list Decimal) :
  (forall x, In x l -> dsign x = false /\ 0 <= dint x /\ e <= dexp x) ->
  0 <= fold_right Z.add 0 (map (aligned e) l).
Proof.
  induction l as [|x l IH]; intros Hall; cbn; [lia|].
  destruct (Hall x (or_introl eq_refl)) as [_ [Hd He]].
  pose proof (aligned_nonneg e x Hd He).
  assert (0 <= fold_right Z.add 0 (map (aligned e) l))
    by (apply IH; intros y Hy; apply Hall; right; exact Hy).
  lia.
Qed.

Lemma fold_add_fits (e : Z) (l : list Decimal) :
  forall acc,
    dsign acc = false -> 0 <= dint acc -> e <= dexp acc ->
    (forall x, In x l -> dsign x = false /\ 0 <= dint x /\ e <= dexp x) ->
    aligned e acc + fold_right Z.add 0 (map (aligned e) l) < 10 ^ prec ->
    dsign (fold_left add l acc) = false
    /\ e <= dexp (fold_left add l acc)
    /\ aligned e (fold_left add l acc)
       = aligned e acc + fold_right Z.add 0 (map (aligned e) l).
Proof.
  induction l as [|x l IH]; intros acc Hs Hd He Hall Hlt; cbn [fold_left].
  - cbn. split; [exact Hs|]. split; [exact He|]. lia.
  - cbn [map fold_right] in Hlt.
    destruct (Hall x (or_introl eq_refl)) as [Hsx [Hdx Hex]].
    assert (Hrest : 0 <= fold_right Z.add 0 (map (aligned e) l))
      by (apply sum_aligned_nonneg; intros y Hy; apply Hall; right; exact Hy).
    set (e' := Z.min (dexp acc) (dexp x)).
    assert (He' : e <= e') by (unfold e'; lia).
    pose proof (aligned_lower e e' acc He' ltac:(unfold e'; lia)) as Ea.
    pose proof (aligned_lower e e' x He' ltac:(unfold e'; lia)) as Ex.
    pose proof (aligned_nonneg e' acc Hd ltac:(unfold e'; lia)) as Na.
    pose proof (aligned_nonneg e' x Hdx ltac:(unfold e'; lia)) as Nx.
    pose proof (pow10_pos (e' - e) ltac:(lia)) as Hp.
    assert (Hstep : aligned e' acc + aligned e' x < 10 ^ prec) by nia.
    rewrite (add_fits acc x Hs Hsx Hd Hdx Hstep). fold e'.
    set (r := mk false (aligned e' acc + aligned e' x) e').
    assert (Er : aligned e r = aligned e acc + aligned e x).
    { unfold r, aligned at 1. cbn [dint dexp]. rewrite Ea, Ex. ring. }
    destruct (IH r eq_refl ltac:(cbn; lia) He'
                (fun y Hy => Hall y (or_intror Hy))
                ltac:(rewrite Er; lia)) as [H1 [H2 H3]].
    split; [exact H1|]. split; [exact H2|]. rewrite H3, Er. cbn [map fold_right]. lia.
Qed.

Lemma Qsum_aligned (e : Z) (l : list Decimal) :
  (forall x, In x l -> dsign x = false /\ 0 <= dint x /\ e <= dexp x) ->
  (Qsum l
   == inject_Z (fold_right Z.add 0%Z (map (aligned e) l)) * inject_Z 10 ^ e)%Q.
Proof.
  unfold Qsum. induction l as [|x l IH]; intros Hall; cbn [map fold_right].
  - cbn. ring.
  - destruct (Hall x (or_introl eq_refl)) as [Hsx [_ Hex]].
    rewrite IH by (intros y Hy; apply Hall; right; exact Hy).
    rewrite (value_aligned x e Hsx Hex), inject_Z_plus. ring.
Qed.

(** The sum built by a [+=] loop from [Decimal(0)] is the sum of the
    numbers when these are non-negative and fit the precision
    together. *)
Lemma sum_exact (e : Z) (l : list Decimal) :
  sum_fits e l -> (value (sum l) == Qsum l)%Q.
Proof.
  intros [He [Hall Hlt]]. unfold sum.
  assert (Hzero : aligned e (of_int 0) = 0) by reflexivity.
  assert (Hlt0 : aligned e (of_int 0)
                 + fold_right Z.add 0 (map (aligned e) l) < 10 ^ prec)
    by (rewrite Hzero; exact Hlt).
  destruct (fold_add_fits e l (of_int 0) eq_refl ltac:(cbn; lia) He Hall
              Hlt0) as [Hs [Hexp Hal]].
  rewrite (value_aligned _ e Hs Hexp), Hal, Hzero, Z.add_0_l.
  rewrite (Qsum_aligned e l Hall). reflexivity.
Qed.

Lemma sum_fits_filter {A} (e : Z) (w : A -> Decimal) (f : A -> bool)
    (l : list A) :
  sum_fits e (map w l) -> sum_fits e (map w (filter f l)).
Proof.
  intros [He [Hall Hlt]]. split; [exact He|].
  assert (Hall' : forall x, In x (map w (filter f l)) ->
                            dsign x = false /\ 0 <= dint x /\ e <= dexp x).
  { intros x Hx. apply Hall. apply in_map_iff in Hx as [i [<- Hi]].
    apply filter_In in Hi as [Hi _]. apply in_map. exact Hi. }
  split; [exact Hall'|].
  eapply Z.le_lt_trans; [|exact Hlt]. clear Hlt Hall'.
  induction l as [|i l IH]; cbn [filter map fold_right]; [lia|].
  assert (Hi : 0 <= aligned e (w i)).
  { destruct (Hall (w i) (or_introl eq_refl)) as [_ [Hd Hx]].
    apply aligned_nonneg; assumption. }
  assert (IH' : fold_right Z.add 0 (map (aligned e) (map w (filter f l)))
                <= fold_right Z.add 0 (map (aligned e) (map w l)))
    by (apply IH; intros x Hx; apply Hall; right; exact Hx).
  destruct (f i); cbn [map fold_right]; lia.
Qed.

(** The weight totals of a dashboard as numbers, for BSC and for MPM.
    When the weights of the indicators of the period are non-negative
    and their sum fits the precision of the context, the [total_weight]
    of the period denotes the sum of the weights of its indicators, and
    the [total_weight] of every perspective bucket the sum of the
    weights of the indicators of the bucket: no rounding enters, and
    the order of the indicators does not matter. *)
Theorem dashboard_total_weight_is_the_sum :
  (forall s period_id e,
     let its := Spec.bsc_indicators s period_id in
     sum_fits e (map BSCIndicator.weight its) ->
     exists d,
       BSC.get_dashboard_data period_id s = (s, Ok d)
       /\ (value (BSC.total_weight (BSC.totals d))
           == Qsum (map BSCIndicator.weight its))%Q
       /\ forall p g,
            In (p, g) (BSC.perspectives d) ->
            (value (BSC.total_weight (BSC.sums g))
             == Qsum (map BSCIndicator.weight
                        (Spec.bsc_in_perspective p its)))%Q)
  /\ (forall collation s period_id e,
        let its := Spec.mpm_indicators collation s period_id in
        sum_fits e (map MPMIndicator.weight its) ->
        exists d,
          MPM.get_dashboard_data collation period_id s = (s, Ok d)
          /\ (value (MPM.total_weight (MPM.totals d))
              == Qsum (map MPMIndicator.weight its))%Q
          /\ forall k g,
               In (k, g) (MPM.perspectives d) ->
               (value (MPM.total_weight (MPM.sums g))
                == Qsum (map MPMIndicator.weight
                           (Spec.mpm_in_bucket k its)))%Q).
Proof.
  split.
  - intros s period_id e its Hfit.
    destruct (BSCDashboardFacts.bsc_dashboard_shape s period_id)
      as [d [Hd [Hnd [Hget Htot]]]].
    exists d. split; [exact Hd|]. split.
    + rewrite Htot. cbn [Spec.bsc_sums BSC.total_weight].
      apply (sum_exact e). exact Hfit.
    + intros p g Hpg.
      apply (DictFacts.In_getitem BSCPerspective_eqb
               DictFacts.BSCPerspective_eqb_eq _ _ _ Hnd) in Hpg.
      rewrite Hget in Hpg. destruct (existsb _ _); [|discriminate].
      injection Hpg as <-.
      cbn [Spec.bsc_group_of BSC.sums Spec.bsc_sums BSC.total_weight].
      apply (sum_exact e). unfold Spec.bsc_in_perspective.
      apply sum_fits_filter. exact Hfit.
  - intros collation s period_id e its Hfit.
    destruct (MPMDashboardFacts.mpm_dashboard_shape collation s period_id)
      as [d [Hd [Hnd [Hget Htot]]]].
    exists d. split; [exact Hd|]. split.
    + rewrite Htot. cbn [Spec.mpm_sums MPM.total_weight].
      apply (sum_exact e). exact Hfit.
    + intros k g Hkg.
      apply (DictFacts.In_getitem MPMBucketKey_eqb
               DictFacts.MPMBucketKey_eqb_eq _ _ _ Hnd) in Hkg.
      rewrite Hget in Hkg. destruct (existsb _ _); [|discriminate].
      injection Hkg as <-.
      cbn [Spec.mpm_group_of MPM.sums Spec.mpm_sums MPM.total_weight].
      apply (sum_exact e). unfold Spec.mpm_in_bucket.
      apply sum_fits_filter. exact Hfit.
Qed.

Lemma dashboard_total_weight_is_the_sum_witness :
  (exists d,
     BSC.get_dashboard_data 10 Examples.bsc_dash = (Examples.bsc_dash, Ok d)
     /\ (value (BSC.total_weight (BSC.totals d))
         == Qsum (map BSCIndicator.weight
                    (Spec.bsc_indicators Examples.bsc_dash 10%Z)))%Q
     /\ forall p g,
          In (p, g) (BSC.perspectives d) ->
          (value (BSC.total_weight (BSC.sums g))
           == Qsum (map BSCIndicator.weight
                      (Spec.bsc_in_perspective p
                         (Spec.bsc_indicators Examples.bsc_dash 10%Z))))%Q)
  /\ (exists d,
        MPM.get_dashboard_data Examples.stored_order 10 Examples.mpm_dash
        = (Examples.mpm_dash, Ok d)
        /\ (value (MPM.total_weight (MPM.totals d))
            == Qsum (map MPMIndicator.weight
                       (Spec.mpm_indicators Examples.stored_order
                          Examples.mpm_dash 10%Z)))%Q
        /\ forall k g,
             In (k, g) (MPM.perspectives d) ->
             (value (MPM.total_weight (MPM.sums g))
              == Qsum (map MPMIndicator.weight
                         (Spec.mpm_in_bucket k
                            (Spec.mpm_indicators Examples.stored_order
                               Examples.mpm_dash 10%Z))))%Q).
Proof.
  assert (Hfit : sum_fits 0 [Examples.d_20; Examples.d_30]).
  { split; [lia|]. split.
    - intros x [<-|[<-|[]]]; cbn; lia.
    - reflexivity. }
  split.
  - apply (proj1 dashboard_total_weight_is_the_sum Examples.bsc_dash 10 0).
    exact Hfit.
  - apply (proj2 dashboard_total_weight_is_the_sum Examples.stored_order
             Examples.mpm_dash 10 0).
    exact Hfit.
Defined.

Example total_weight_is_50 :
  (value (sum [Examples.d_20; Examples.d_30]) == 50)%Q.
Proof. reflexivity. Qed.

End SumFacts.

(* ================================================================== *)
(** ** Dashboard sums *)

Module DashboardFacts.
Import DashboardSpec.

(** *** A grouping is a rearrangement *)

Lemma filter_split_perm {A} (f : A -> bool) (l : list A) :
  Permutation (filter f l ++ filter (fun x => negb (f x)) l) l.
Proof.
  induction l as [|x l IH]; cbn; [constructor|].
  destruct (f x); cbn.
  - constructor. exact IH.
  - apply Permutation_sym, Permutation_cons_app, Permutation_sym. exact IH.
Qed.

Lemma flat_map_ext_In {A B} (f g : A -> list B) (l : list A) :
  (forall a, In a l -> f a = g a) -> flat_map f l = flat_map g l.
Proof.
  induction l as [|a l IH]; cbn; intros H; [reflexivity|].
  rewrite (H a) by (left; reflexivity).
  rewrite IH; [reflexivity|]. intros b Hb. apply H. right. exact Hb.
Qed.

Section Grouped.
Context {X K : Type} (eqb : K -> K -> bool)
        (eqb_eq : forall a b, eqb a b = true <-> a = b) (key : X -> K).

Lemma filter_other_key (k k' : K) (l : list X) :
  k' <> k ->
  filter (fun x => eqb (key x) k') (filter (fun x => negb (eqb (key x) k)) l)
  = filter (fun x => eqb (key x) k') l.
Proof.
  intros Hne. induction l as [|x l IH]; cbn; [reflexivity|].
  destruct (eqb (key x) k) eqn:E; cbn.
  - apply eqb_eq in E. destruct (eqb (key x) k') eqn:E'; [|exact IH].
    apply eqb_eq in E'. congruence.
  - destruct (eqb (key x) k'); rewrite IH; reflexivity.
Qed.

(** The elements of [l], taken key by key, are the elements of [l]. *)
Lemma by_key_perm (ks : list K) :
  forall l, NoDup ks -> (forall x, In x l -> In (key x) ks) ->
  Permutation (flat_map (fun k => filter (fun x => eqb (key x) k) l) ks) l.
Proof.
  induction ks as [|k ks IH]; intros l Hnd Hall.
  - destruct l as [|x l]; [constructor|].
    destruct (Hall x (or_introl eq_refl)).
  - cbn [flat_map]. inversion Hnd as [|? ? Hnotin Hnd']; subst.
    set (rest := filter (fun x => negb (eqb (key x) k)) l).
    rewrite (flat_map_ext_In _
               (fun k' => filter (fun x => eqb (key x) k') rest)).
    2:{ intros k' Hk'. symmetry. apply filter_other_key.
        intros ->. contradiction. }
    eapply Permutation_trans;
      [|apply (filter_split_perm (fun x => eqb (key x) k))].
    apply Permutation_app_head. apply IH; [exact Hnd'|].
    intros x Hx. apply filter_In in Hx as [Hx Hk].
    destruct (Hall x Hx) as [Heq|H]; [|exact H].
    rewrite <- Heq, (proj2 (eqb_eq k k) eq_refl) in Hk. discriminate.
Qed.

Context {G I : Type} (item_of : X -> I) (items : G -> list I)
        (group : list X -> G).

(** The items of a dictionary of groups, bucket after bucket, are the
    items of the elements that were grouped. *)
Lemma grouped_items_perm (d : list (K * G)) (its : list X) :
  NoDup (map fst d) ->
  (forall k, dict_getitem eqb d k
             = if existsb (fun x => eqb (key x) k) its
               then Some (group (filter (fun x => eqb (key x) k) its))
               else None) ->
  (forall l, items (group l) = map item_of l) ->
  Permutation (flat_map (fun pg => items (snd pg)) d) (map item_of its).
Proof.
  intros Hnd Hget Hitems.
  rewrite (flat_map_ext_In _
             (fun pg => map item_of
                          (filter (fun x => eqb (key x) (fst pg)) its))).
  2:{ intros [k g] Hin. cbn [fst snd].
      apply (DictFacts.In_getitem eqb eqb_eq _ _ _ Hnd) in Hin.
      rewrite Hget in Hin. destruct (existsb _ _); [|discriminate].
      injection Hin as <-. apply Hitems. }
  assert (E : flat_map (fun pg => map item_of
                          (filter (fun x => eqb (key x) (fst pg)) its)) d
              = map item_of
                  (flat_map (fun k => filter (fun x => eqb (key x) k) its)
                     (map fst d))).
  { clear Hnd Hget. induction d as [|[k g] d IH]; cbn; [reflexivity|].
    rewrite map_app, IH. reflexivity. }
  rewrite E. apply Permutation_map. apply by_key_perm; [exact Hnd|].
  intros x Hx.
  destruct (dict_getitem eqb d (key x)) as [g|] eqn:Eg.
  - apply (DictFacts.In_getitem eqb eqb_eq _ _ _ Hnd) in Eg.
    apply (in_map fst) in Eg. exact Eg.
  - rewrite Hget in Eg. replace (existsb _ its) with true in Eg;
      [discriminate|].
    symmetry. apply existsb_exists. exists x. split; [exact Hx|].
    apply eqb_eq. reflexivity.
Qed.

End Grouped.

(** *** Sums do not depend on the order *)

Lemma Qsum_perm (l l' : list Dec.Decimal) :
  Permutation l l' -> (Qsum l == Qsum l')%Q.
Proof.
  unfold Qsum. induction 1; cbn [map fold_right].
  - reflexivity.
  - rewrite IHPermutation. reflexivity.
  - ring.
  - etransitivity; eassumption.
Qed.

Lemma aligned_sum_perm (e : Z) (l l' : list Dec.Decimal) :
  Permutation l l' ->
  fold_right Z.add 0 (map (aligned e) l)
  = fold_right Z.add 0 (map (aligned e) l').
Proof. induction 1; cbn [map fold_right]; lia. Qed.

Lemma sum_fits_perm (e : Z) (l l' : list Dec.Decimal) :
  Permutation l l' -> sum_fits e l -> sum_fits e l'.
Proof.
  intros Hp [He [Hall Hlt]]. split; [exact He|]. split.
  - intros x Hx. apply Hall.
    apply (Permutation_in x (Permutation_sym Hp)). exact Hx.
  - rewrite <- (aligned_sum_perm e _ _ Hp). exact Hlt.
Qed.

(** The sum the [+=] loop builds over [l] is the sum of any
    rearrangement of [l]. *)
Lemma sums_to_sum (l l' : list Dec.Decimal) :
  Permutation l l' -> sums_to (Dec.sum l) l'.
Proof.
  intros Hp e _ Hfit.
  rewrite (SumFacts.sum_exact e l).
  - apply Qsum_perm. exact Hp.
  - apply (sum_fits_perm e l' l); [apply Permutation_sym; exact Hp|exact Hfit].
Qed.

(** *** The items the loops file *)

Lemma bsc_item_actuals_of (s : Session) (its : list BSCIndicator.t) :
  bsc_item_actuals (map (Spec.bsc_item_of s) its) = Spec.bsc_reported s its.
Proof.
  unfold bsc_item_actuals, Spec.bsc_reported.
  induction its as [|i its IH]; cbn; [reflexivity|].
  rewrite IH. reflexivity.
Qed.

Lemma mpm_item_actuals_of (s : Session) (its : list MPMIndicator.t) :
  mpm_item_actuals (map (Spec.mpm_item_of s) its) = Spec.mpm_reported s its.
Proof.
  unfold mpm_item_actuals, Spec.mpm_reported.
  induction its as [|i its IH]; cbn; [reflexivity|].
  rewrite IH. reflexivity.
Qed.

Lemma bsc_item_of_paired (s : Session) (i : BSCIndicator.t) :
  bsc_item_paired s (Spec.bsc_item_of s i).
Proof.
  unfold bsc_item_paired, Spec.bsc_item_of, Spec.bsc_paired, BSC.actuals_of.
  cbn [BSC.actual BSC.indicator].
  destruct (first (filter _ (bsc_actual s))) as [a|] eqn:E.
  - apply PeriodFacts.first_In in E. apply filter_In in E as [Hin Hc].
    apply andb_prop in Hc as [Hid Hd].
    apply Z.eqb_eq in Hid. apply negb_true_iff in Hd. auto.
  - intros [a [Hin [Hid Hd]]].
    pose proof (UniquenessFacts.filter_nil_none _ _ a E Hin) as Hf.
    cbn in Hf. rewrite Hid, Z.eqb_refl, Hd in Hf. discriminate.
Qed.

Lemma mpm_item_of_paired (s : Session) (i : MPMIndicator.t) :
  mpm_item_paired s (Spec.mpm_item_of s i).
Proof.
  unfold mpm_item_paired, Spec.mpm_item_of, MPM.latest_actual.
  cbn [MPM.actual MPM.indicator].
  destruct (first (order_by_desc _ _ _)) as [a|] eqn:E.
  - apply PeriodFacts.first_In in E.
    apply (proj1 (OrderFacts.In_order_by_desc MPMActual.created_at Z.leb
                    a _)) in E.
    apply filter_In in E as [Hin Hc].
    apply andb_prop in Hc as [Hid Hd].
    apply Z.eqb_eq in Hid. apply negb_true_iff in Hd. auto.
  - apply OrderFacts.first_order_by_desc_nil in E.
    intros [a [Hin [Hid Hd]]].
    assert (H : In a (filter (fun a =>
                          (MPMActual.indicator_id a =? MPMIndicator.id i)
                          && negb (MPMActual.is_deleted a)) (mpm_actual s))).
    { apply filter_In. split; [exact Hin|].
      rewrite Hid, Z.eqb_refl, Hd. reflexivity. }
    rewrite E in H. destruct H.
Qed.

Lemma bsc_sums_of_items (s : Session) (its : list BSCIndicator.t)
    (items : list BSC.Item) :
  Permutation items (map (Spec.bsc_item_of s) its) ->
  bsc_sums_of items (Spec.bsc_sums s its).
Proof.
  intros Hp. apply Permutation_sym in Hp.
  assert (Hact : Permutation (Spec.bsc_reported s its)
                   (bsc_item_actuals items)).
  { rewrite <- bsc_item_actuals_of. apply Permutation_flat_map. exact Hp. }
  unfold bsc_sums_of, Spec.bsc_sums.
  cbn [BSC.total_weight BSC.total_score BSC.total_active_weight
       BSC.total_score_akhir].
  split; [|split; [|split]]; apply sums_to_sum.
  - apply (Permutation_map
             (fun item => BSCIndicator.weight (BSC.indicator item))) in Hp.
    rewrite map_map in Hp. exact Hp.
  - apply Permutation_map. exact Hact.
  - apply Permutation_map. exact Hact.
  - apply Permutation_map. exact Hact.
Qed.

Lemma mpm_sums_of_items (s : Session) (its : list MPMIndicator.t)
    (items : list MPM.Item) :
  Permutation items (map (Spec.mpm_item_of s) its) ->
  mpm_sums_of items (Spec.mpm_sums s its).
Proof.
  intros Hp. apply Permutation_sym in Hp.
  assert (Hact : Permutation (Spec.mpm_reported s its)
                   (mpm_item_actuals items)).
  { rewrite <- mpm_item_actuals_of. apply Permutation_flat_map. exact Hp. }
  unfold mpm_sums_of, Spec.mpm_sums.
  cbn [MPM.total_weight MPM.total_score].
  split; apply sums_to_sum.
  - apply (Permutation_map
             (fun item => MPMIndicator.weight (MPM.indicator item))) in Hp.
    rewrite map_map in Hp. exact Hp.
  - apply Permutation_map. exact Hact.
Qed.

(** C4, as the code has it.  In the dashboard of a period, BSC and MPM,
    every item of a perspective bucket is an indicator of that
    perspective, and it carries an actual exactly when a non-deleted row
    of the table of actuals bears its identifier, that actual being one
    of these rows.  The [total_weight] of the bucket is the sum of the
    weights of all its items, with or without an actual, and its score
    sums ([total_score], and for BSC [total_active_weight] and
    [total_score_akhir]) are the sums over the actuals of the items that
    carry one: an indicator without an actual adds nothing to them.  The
    totals of the period are the same sums over the items of all the
    buckets.  Each sum is the sum of the numbers provided these are not
    negative and their sum fits the 28 digits of the decimal context,
    within its exponent range ([DashboardSpec.sums_to]). *)
Theorem dashboard_sums_by_perspective :
  (forall s period_id,
     exists d,
       BSC.get_dashboard_data period_id s = (s, Ok d)
       /\ (forall p g,
             In (p, g) (BSC.perspectives d) ->
             (forall item,
                In item (BSC.items g) ->
                BSCIndicator.perspective (BSC.indicator item) = p
                /\ bsc_item_paired s item)
             /\ bsc_sums_of (BSC.items g) (BSC.sums g))
       /\ bsc_sums_of (bsc_dashboard_items d) (BSC.totals d))
  /\ (forall collation s period_id,
        exists d,
          MPM.get_dashboard_data collation period_id s = (s, Ok d)
          /\ (forall k g,
                In (k, g) (MPM.perspectives d) ->
                (forall item,
                   In item (MPM.items g) ->
                   MPM.bucket_key (MPM.indicator item) = k
                   /\ mpm_item_paired s item)
                /\ mpm_sums_of (MPM.items g) (MPM.sums g))
          /\ mpm_sums_of (mpm_dashboard_items d) (MPM.totals d)).
Proof.
  split.
  - intros s period_id.
    destruct (BSCDashboardFacts.bsc_dashboard_shape s period_id)
      as [d [Hd [Hnd [Hget Htot]]]].
    exists d. split; [exact Hd|]. split.
    + intros p g Hin.
      apply (DictFacts.In_getitem BSCPerspective_eqb
               DictFacts.BSCPerspective_eqb_eq _ _ _ Hnd) in Hin.
      rewrite Hget in Hin. destruct (existsb _ _); [|discriminate].
      injection Hin as <-. cbn [Spec.bsc_group_of BSC.items BSC.sums].
      split.
      * intros item Hitem. apply in_map_iff in Hitem as [i [<- Hi]].
        split; [|apply bsc_item_of_paired].
        apply filter_In in Hi as [_ Hp].
        apply DictFacts.BSCPerspective_eqb_eq. exact Hp.
      * apply bsc_sums_of_items. apply Permutation_refl.
    + rewrite Htot. apply bsc_sums_of_items.
      apply (grouped_items_perm BSCPerspective_eqb
               DictFacts.BSCPerspective_eqb_eq BSCIndicator.perspective
               (Spec.bsc_item_of s) BSC.items (Spec.bsc_group_of s)
               _ _ Hnd Hget).
      reflexivity.
  - intros collation s period_id.
    destruct (MPMDashboardFacts.mpm_dashboard_shape collation s period_id)
      as [d [Hd [Hnd [Hget Htot]]]].
    exists d. split; [exact Hd|]. split.
    + intros k g Hin.
      apply (DictFacts.In_getitem MPMBucketKey_eqb
               DictFacts.MPMBucketKey_eqb_eq _ _ _ Hnd) in Hin.
      rewrite Hget in Hin. destruct (existsb _ _); [|discriminate].
      injection Hin as <-. cbn [Spec.mpm_group_of MPM.items MPM.sums].
      split.
      * intros item Hitem. apply in_map_iff in Hitem as [i [<- Hi]].
        split; [|apply mpm_item_of_paired].
        apply filter_In in Hi as [_ Hp].
        apply DictFacts.MPMBucketKey_eqb_eq. exact Hp.
      * apply mpm_sums_of_items. apply Permutation_refl.
    + rewrite Htot. apply mpm_sums_of_items.
      apply (grouped_items_perm MPMBucketKey_eqb
               DictFacts.MPMBucketKey_eqb_eq MPM.bucket_key
               (Spec.mpm_item_of s) MPM.items (Spec.mpm_group_of s)
               _ _ Hnd Hget).
      reflexivity.
Qed.

(** The specification's scenario: weights 20 and 30, one actual scoring
    10; the totals of the bucket are the numbers 50 and 10. *)
Lemma dashboard_sums_witness :
  exists d g,
    BSC.get_dashboard_data 10 Examples.bsc_dash = (Examples.bsc_dash, Ok d)
    /\ In (BSC_FINANCIAL, g) (BSC.perspectives d)
    /\ (Dec.value (BSC.total_weight (BSC.sums g)) == 50)%Q
    /\ (Dec.value (BSC.total_score (BSC.sums g)) == 10)%Q.
Proof.
  destruct (proj1 dashboard_sums_by_perspective Examples.bsc_dash 10)
    as [d [Hd [Hgroups _]]].
  vm_compute in Hd. injection Hd as <-.
  eexists; eexists. split; [reflexivity|]. split; [left; reflexivity|].
  destruct (Hgroups BSC_FINANCIAL _ (or_introl eq_refl))
    as [_ [Hw [Hs _]]].
  split.
  - rewrite (Hw 0%Z); [reflexivity|discriminate|].
    split; [lia|]. split; [|reflexivity].
    intros x [<-|[<-|[]]]; cbn; repeat split; lia.
  - rewrite (Hs 0%Z); [reflexivity|discriminate|].
    split; [lia|]. split; [|reflexivity].
    intros x [<-|[]]; cbn; repeat split; lia.
Defined.

(** C4 as stated fails beyond the precision of the context.  Two
    indicators of one bucket have the weights
    99.99999999999999999999999999 and 0.000000000000000000000000000001,
    both between 0 and 100; their sum has 32 digits, the [+=] loop rounds
    it to 28, and the [total_weight] of the bucket is the first weight
    alone, not the sum of the two. *)
Lemma dashboard_total_weight_rounded :
  exists d g,
    BSC.get_dashboard_data 10 Scenarios.bsc_long_weights
    = (Scenarios.bsc_long_weights, Ok d)
    /\ In (BSC_FINANCIAL, g) (BSC.perspectives d)
    /\ map BSC.indicator (BSC.items g)
       = [Scenarios.bsc_long_weight; Scenarios.bsc_tiny_weight]
    /\ (0 <= Dec.value (BSCIndicator.weight Scenarios.bsc_long_weight)
        <= 100)%Q
    /\ (0 <= Dec.value (BSCIndicator.weight Scenarios.bsc_tiny_weight)
        <= 100)%Q
    /\ BSC.total_weight (BSC.sums g)
       = BSCIndicator.weight Scenarios.bsc_long_weight
    /\ ~ (Dec.value (BSC.total_weight (BSC.sums g))
          == Dec.value (BSCIndicator.weight Scenarios.bsc_long_weight)
             + Dec.value (BSCIndicator.weight Scenarios.bsc_tiny_weight))%Q.
Proof.
  eexists; eexists. split; [vm_compute; reflexivity|].
  split; [left; reflexivity|]. split; [reflexivity|].
  split; [split; vm_compute; discriminate|].
  split; [split; vm_compute; discriminate|].
  split; [reflexivity|].
  intros H. vm_compute in H. discriminate H.
Qed.

End DashboardFacts.

(* ================================================================== *)
(** ** The latest actual of an indicator *)

Module LatestFacts.

Lemma latest_of (A : Type) (live : A -> bool) (created_at : A -> Z)
    (rows : list A) :
  match first (order_by_desc created_at Z.leb (filter live rows)) with
  | None => forall a, In a rows -> live a = false
  | Some r =>
      In r rows /\ live r = true
      /\ forall a, In a rows -> live a = true -> created_at a <= created_at r
  end.
Proof.
  destruct (first _) as [r|] eqn:E.
  - assert (Hin : In r (filter live rows)).
    { apply (OrderFacts.In_order_by_desc created_at Z.leb).
      apply PeriodFacts.first_In. exact E. }
    apply filter_In in Hin as [Hin Hl]. split; [exact Hin|].
    split; [exact Hl|]. intros a Ha Hla. apply Z.leb_le.
    apply (OrderFacts.first_order_by_desc_max created_at Z.leb)
      with (l := filter live rows).
    + intros x y. rewrite !Z.leb_le. lia.
    + intros x y z. rewrite !Z.leb_le. lia.
    + exact E.
    + apply filter_In. auto.
  - apply OrderFacts.first_order_by_desc_nil in E.
    intros a Ha. destruct (live a) eqn:El; [|reflexivity].
    assert (H : In a (filter live rows)) by (apply filter_In; auto).
    rewrite E in H. destruct H.
Qed.

(** [get_latest_by_indicator], for BSC and for MPM, answers by the
    creation time: it returns [None] exactly when the indicator has no
    live actual, and otherwise a live actual of the indicator that none
    of its live actuals was created after. *)
Theorem latest_actual_is_the_latest :
  (forall s indicator_id,
     exists r,
       BSC.get_latest_by_indicator indicator_id s = (s, Ok r)
       /\ match r with
          | None =>
              forall a, In a (bsc_actual s) ->
                        BSCActual.indicator_id a = indicator_id ->
                        BSCActual.is_deleted a = true
          | Some latest =>
              In latest (bsc_actual s)
              /\ BSCActual.indicator_id latest = indicator_id
              /\ BSCActual.is_deleted latest = false
              /\ forall a, In a (bsc_actual s) ->
                           BSCActual.indicator_id a = indicator_id ->
                           BSCActual.is_deleted a = false ->
                           BSCActual.created_at a
                           <= BSCActual.created_at latest
          end)
  /\ (forall s indicator_id,
        exists r,
          MPM.get_latest_by_indicator indicator_id s = (s, Ok r)
          /\ match r with
             | None =>
                 forall a, In a (mpm_actual s) ->
                           MPMActual.indicator_id a = indicator_id ->
                           MPMActual.is_deleted a = true
             | Some latest =>
                 In latest (mpm_actual s)
                 /\ MPMActual.indicator_id latest = indicator_id
                 /\ MPMActual.is_deleted latest = false
                 /\ forall a, In a (mpm_actual s) ->
                              MPMActual.indicator_id a = indicator_id ->
                              MPMActual.is_deleted a = false ->
                              MPMActual.created_at a
                              <= MPMActual.created_at latest
             end).
Proof.
  split.
  - intros s indicator_id. eexists. split; [reflexivity|].
    pose proof (latest_of BSCActual.t
                  (fun r => (BSCActual.indicator_id r =? indicator_id)
                            && negb (BSCActual.is_deleted r))
                  BSCActual.created_at (bsc_actual s)) as H.
    destruct (first _) as [latest|].
    + destruct H as [Hin [Hl Hmax]]. apply andb_prop in Hl as [Hid Hd].
      apply Z.eqb_eq in Hid. apply negb_true_iff in Hd.
      split; [exact Hin|]. split; [exact Hid|]. split; [exact Hd|].
      intros a Ha Hia Hda. apply Hmax; [exact Ha|].
      rewrite Hia, Z.eqb_refl, Hda. reflexivity.
    + intros a Ha Hia. specialize (H a Ha). cbn in H.
      rewrite Hia, Z.eqb_refl in H. cbn in H.
      apply negb_false_iff in H. exact H.
  - intros s indicator_id. eexists. split; [reflexivity|].
    pose proof (latest_of MPMActual.t
                  (fun r => (MPMActual.indicator_id r =? indicator_id)
                            && negb (MPMActual.is_deleted r))
                  MPMActual.created_at (mpm_actual s)) as H.
    destruct (first _) as [latest|].
    + destruct H as [Hin [Hl Hmax]]. apply andb_prop in Hl as [Hid Hd].
      apply Z.eqb_eq in Hid. apply negb_true_iff in Hd.
      split; [exact Hin|]. split; [exact Hid|]. split; [exact Hd|].
      intros a Ha Hia Hda. apply Hmax; [exact Ha|].
      rewrite Hia, Z.eqb_refl, Hda. reflexivity.
    + intros a Ha Hia. specialize (H a Ha). cbn in H.
      rewrite Hia, Z.eqb_refl in H. cbn in H.
      apply negb_false_iff in H. exact H.
Qed.

Lemma latest_actual_is_the_latest_witness :
  exists r,
    BSC.get_latest_by_indicator 1 Examples.bsc_two_actuals
    = (Examples.bsc_two_actuals, Ok r)
    /\ match r with
       | None =>
           forall a, In a (bsc_actual Examples.bsc_two_actuals) ->
                     BSCActual.indicator_id a = 1 ->
                     BSCActual.is_deleted a = true
       | Some latest =>
           In latest (bsc_actual Examples.bsc_two_actuals)
           /\ BSCActual.indicator_id latest = 1
           /\ BSCActual.is_deleted latest = false
           /\ forall a, In a (bsc_actual Examples.bsc_two_actuals) ->
                        BSCActual.indicator_id a = 1 ->
                        BSCActual.is_deleted a = false ->
                        BSCActual.created_at a <= BSCActual.created_at latest
       end.
Proof.
  apply (proj1 latest_actual_is_the_latest Examples.bsc_two_actuals 1).
Defined.

Example latest_of_two_actuals :
  BSC.get_latest_by_indicator 1 Examples.bsc_two_actuals
  = (Examples.bsc_two_actuals, Ok (Some Examples.bsc_a2)).
Proof. reflexivity. Qed.

End LatestFacts.

(* ================================================================== *)
(** ** BSC: the reads agree *)

Module BSCReadFacts.
Import BSCIndicatorRepository.

Lemma filter_filter {A} (f g : A -> bool) (l : list A) :
  filter f (filter g l) = filter (fun x => f x && g x) l.
Proof.
  induction l as [|x l IH]; [reflexivity|]. cbn [filter].
  destruct (g x); cbn [filter]; rewrite IH, ?andb_true_r, ?andb_false_r;
    reflexivity.
Qed.

Lemma get_by_perspective_bucket (p : BSCPerspective) (period_id : UUID)
    (s : Session) :
  get_by_perspective p period_id s
  = (s, Ok (Spec.bsc_in_perspective p (Spec.bsc_indicators s period_id))).
Proof.
  unfold get_by_perspective, Spec.bsc_in_perspective, Spec.bsc_indicators.
  rewrite filter_filter. do 2 f_equal. apply filter_ext. intros r.
  rewrite andb_assoc. reflexivity.
Qed.

(** The reads of the BSC repository agree with its dashboard.  For
    every perspective bucket of the dashboard of a period,
    [get_by_perspective] of that perspective and period returns the
    indicators of the bucket, in the same order; and for every item of
    the bucket, [get_by_id_with_actuals] of its indicator returns, and
    the actual of the item is the first of the actuals it lists (none
    when the list is empty).  A perspective without bucket has no
    indicator in the period. *)
Theorem bsc_reads_agree_with_dashboard (s : Session) (period_id : UUID) :
  exists d,
    BSC.get_dashboard_data period_id s = (s, Ok d)
    /\ (forall p g,
          In (p, g) (BSC.perspectives d) ->
          get_by_perspective p period_id s
          = (s, Ok (map BSC.indicator (BSC.items g)))
          /\ forall item,
               In item (BSC.items g) ->
               exists w,
                 get_by_id_with_actuals
                   (BSCIndicator.id (BSC.indicator item)) s = (s, Ok w)
                 /\ BSC.actual item = first (actuals w))
    /\ (forall p,
          ~ In p (map fst (BSC.perspectives d)) ->
          get_by_perspective p period_id s = (s, Ok [])).
Proof.
  destruct (BSCDashboardFacts.bsc_dashboard_shape s period_id)
    as [d [Hd [Hnd [Hget _]]]].
  exists d. split; [exact Hd|]. split.
  - intros p g Hpg.
    apply (DictFacts.In_getitem BSCPerspective_eqb
             DictFacts.BSCPerspective_eqb_eq _ _ _ Hnd) in Hpg.
    rewrite Hget in Hpg. destruct (existsb _ _); [|discriminate].
    injection Hpg as <-. cbn [Spec.bsc_group_of BSC.items].
    rewrite map_map. cbn [Spec.bsc_item_of BSC.indicator]. rewrite map_id.
    split; [apply get_by_perspective_bucket|].
    intros item Hitem. apply in_map_iff in Hitem as [i [<- Hi]].
    cbn [Spec.bsc_item_of BSC.indicator BSC.actual].
    apply filter_In in Hi as [Hi _]. apply filter_In in Hi as [Hin Hc].
    apply andb_prop in Hc as [_ Hlive].
    unfold get_by_id_with_actuals, bind.
    destruct (Spec.lookup (T := BSCIndicator.t) s (BSCIndicator.id i))
      as [found|] eqn:Hl.
    + rewrite (RepoFacts.get_or_404_found _ _ _ Hl).
      eexists. split; [reflexivity|]. reflexivity.
    + exfalso.
      pose proof (UniquenessFacts.filter_nil_none _ _ i Hl Hin) as Hf.
      cbn in Hf. rewrite Z.eqb_refl, Hlive in Hf. discriminate.
  - intros p Hp. rewrite get_by_perspective_bucket.
    destruct (Spec.bsc_in_perspective p (Spec.bsc_indicators s period_id))
      as [|i its] eqn:E; [reflexivity|]. exfalso. apply Hp.
    assert (Hsome : dict_getitem BSCPerspective_eqb (BSC.perspectives d) p
                    <> None).
    { rewrite Hget.
      assert (Hi : In i (Spec.bsc_in_perspective p
                           (Spec.bsc_indicators s period_id)))
        by (rewrite E; left; reflexivity).
      apply filter_In in Hi as [Hi Hpi].
      replace (existsb _ _) with true; [discriminate|]. symmetry.
      apply existsb_exists. exists i. auto. }
    destruct (dict_getitem BSCPerspective_eqb (BSC.perspectives d) p)
      as [g|] eqn:Eg; [|contradiction].
    apply (DictFacts.In_getitem BSCPerspective_eqb
             DictFacts.BSCPerspective_eqb_eq _ _ _ Hnd) in Eg.
    apply (in_map fst) in Eg. exact Eg.
Qed.

Lemma bsc_reads_agree_with_dashboard_witness :
  exists d,
    BSC.get_dashboard_data 10 Examples.bsc_dash = (Examples.bsc_dash, Ok d)
    /\ (forall p g,
          In (p, g) (BSC.perspectives d) ->
          get_by_perspective p 10 Examples.bsc_dash
          = (Examples.bsc_dash, Ok (map BSC.indicator (BSC.items g)))
          /\ forall item,
               In item (BSC.items g) ->
               exists w,
                 get_by_id_with_actuals
                   (BSCIndicator.id (BSC.indicator item)) Examples.bsc_dash
                 = (Examples.bsc_dash, Ok w)
                 /\ BSC.actual item = first (actuals w))
    /\ (forall p,
          ~ In p (map fst (BSC.perspectives d)) ->
          get_by_perspective p 10 Examples.bsc_dash
          = (Examples.bsc_dash, Ok [])).
Proof.
  apply (bsc_reads_agree_with_dashboard Examples.bsc_dash 10).
Defined.

End BSCReadFacts.

(* ================================================================== *)
(** ** The answers of the period router *)

Module PeriodAPIFacts.
Import PeriodAPI.

(** What PATCH /periods/{period_id}/status answers.  When the roles of
    the caller are no container the test of the roles raises TypeError,
    outside the [try].  A caller whose roles hold neither admin nor
    manager gets HTTP 403.  For a caller who may update: an identifier
    that is not the text of a UUID gives HTTP 500; otherwise a period
    that [get] does not find gives HTTP 404, and asking for Active while
    the Active period [get_active_period] returns is another one gives
    HTTP 500, the exception raised in [update_status] being no
    HTTPException.  Whenever the endpoint raises, nothing is changed, and
    it raises nothing else: it never answers HTTP 400. *)
Theorem update_period_status_answers
    (UUID_of_text : string -> option UUID) (current_user : CurrentUser)
    (period_id : UUID) (status_update : PeriodStatus) (s : Session) :
  (contains_role "admin" (user_roles current_user) = None ->
   update_period_status UUID_of_text current_user period_id status_update s
   = (s, Raise TypeError))
  /\ (contains_role "admin" (user_roles current_user) = Some false ->
      contains_role "manager" (user_roles current_user) = Some false ->
      update_period_status UUID_of_text current_user period_id status_update s
      = (s, Raise (HTTPException HTTP_403_FORBIDDEN)))
  /\ (may_update current_user ->
      UUID_of_text (user_id current_user) = None ->
      update_period_status UUID_of_text current_user period_id status_update s
      = (s, Raise (HTTPException HTTP_500_INTERNAL_SERVER_ERROR)))
  /\ (may_update current_user ->
      UUID_of_text (user_id current_user) <> None ->
      Spec.lookup (T := Period.t) s period_id = None ->
      update_period_status UUID_of_text current_user period_id status_update s
      = (s, Raise (HTTPException HTTP_404_NOT_FOUND)))
  /\ (may_update current_user ->
      UUID_of_text (user_id current_user) <> None ->
      forall db_obj active : Period.t,
        Spec.lookup s period_id = Some db_obj ->
        status_update = ACTIVE ->
        PeriodRepository.get_active_period s = (s, Ok (Some active)) ->
        Period.id active <> period_id ->
        update_period_status UUID_of_text current_user period_id
          status_update s
        = (s, Raise (HTTPException HTTP_500_INTERNAL_SERVER_ERROR)))
  /\ (forall s' e,
        update_period_status UUID_of_text current_user period_id
          status_update s = (s', Raise e) ->
        s' = s
        /\ (e = TypeError
            \/ e = HTTPException HTTP_403_FORBIDDEN
            \/ e = HTTPException HTTP_404_NOT_FOUND
            \/ e = HTTPException HTTP_500_INTERNAL_SERVER_ERROR)).
Proof.
  assert (Hallowed :
            may_update current_user ->
            update_period_status UUID_of_text current_user period_id
              status_update s
            = guarded (updated_by <- to_UUID UUID_of_text
                                       (user_id current_user) ;;
                       PeriodRepository.update_status period_id status_update)
                s).
  { unfold update_period_status, bind, not_in.
    intros [Ha|[Ha Hm]]; rewrite Ha; [reflexivity|].
    cbn [negb ret]. rewrite Hm. reflexivity. }
  assert (Hguard :
            forall s' e,
              guarded (updated_by <- to_UUID UUID_of_text
                                       (user_id current_user) ;;
                       PeriodRepository.update_status period_id status_update)
                s = (s', Raise e) ->
              s' = s
              /\ (e = HTTPException HTTP_404_NOT_FOUND
                  \/ e = HTTPException HTTP_500_INTERNAL_SERVER_ERROR)).
  { intros s' e. unfold guarded, bind, to_UUID.
    destruct (UUID_of_text (user_id current_user)); cbn [ret raise];
      [|intros [= <- <-]; auto].
    rewrite PeriodFacts.update_status_unfold.
    destruct (Spec.lookup s period_id) as [db_obj|];
      [|intros [= <- <-]; auto].
    cbv zeta.
    destruct (PeriodStatus_eqb status_update ACTIVE);
      [destruct (first (Spec.active_periods s)) as [a|];
       [destruct (negb (Period.id a =? period_id))|]|];
      intros [= <- <-] || discriminate; auto. }
  split; [|split; [|split; [|split; [|split]]]].
  - intros Ha. unfold update_period_status, bind, not_in. rewrite Ha.
    reflexivity.
  - intros Ha Hm. unfold update_period_status, bind, not_in.
    rewrite Ha. cbn [negb ret]. rewrite Hm. reflexivity.
  - intros Hmay Hid. rewrite (Hallowed Hmay).
    unfold guarded, bind, to_UUID. rewrite Hid. reflexivity.
  - intros Hmay Hid Hl. rewrite (Hallowed Hmay).
    unfold guarded, bind, to_UUID.
    destruct (UUID_of_text (user_id current_user)); [|contradiction].
    cbn [ret]. rewrite PeriodFacts.update_status_unfold, Hl. reflexivity.
  - intros Hmay Hid db_obj active Hl -> Hact Hne. rewrite (Hallowed Hmay).
    assert (Hfirst : first (Spec.active_periods s) = Some active).
    { unfold PeriodRepository.get_active_period in Hact.
      injection Hact as Hact. exact Hact. }
    unfold guarded, bind, to_UUID.
    destruct (UUID_of_text (user_id current_user)); [|contradiction].
    cbn [ret]. rewrite PeriodFacts.update_status_unfold, Hl.
    cbn [PeriodStatus_eqb]. rewrite Hfirst.
    destruct (Z.eqb_spec (Period.id active) period_id); [contradiction|].
    reflexivity.
  - intros s' e Hcall.
    destruct (contains_role "admin" (user_roles current_user))
      as [[|]|] eqn:Ha.
    + rewrite (Hallowed (or_introl Ha)) in Hcall.
      destruct (Hguard _ _ Hcall) as [Hs He]. split; [exact Hs|]. tauto.
    + destruct (contains_role "manager" (user_roles current_user))
        as [[|]|] eqn:Hm.
      * rewrite (Hallowed (or_intror (conj Ha Hm))) in Hcall.
        destruct (Hguard _ _ Hcall) as [Hs He]. split; [exact Hs|]. tauto.
      * unfold update_period_status, bind, not_in in Hcall.
        rewrite Ha in Hcall. cbn [negb ret] in Hcall. rewrite Hm in Hcall.
        injection Hcall as <- <-. auto.
      * unfold update_period_status, bind, not_in in Hcall.
        rewrite Ha in Hcall. cbn [negb ret] in Hcall. rewrite Hm in Hcall.
        injection Hcall as <- <-. auto.
    + unfold update_period_status, bind, not_in in Hcall.
      rewrite Ha in Hcall. injection Hcall as <- <-. auto.
Qed.

Lemma update_period_status_answers_witness :
  update_period_status Scenarios.UUID_of_digit Scenarios.staff 2 ACTIVE
    Examples.two_periods
  = (Examples.two_periods, Raise (HTTPException HTTP_403_FORBIDDEN))
  /\ update_period_status Scenarios.UUID_of_digit Scenarios.no_roles 2 ACTIVE
       Examples.two_periods
     = (Examples.two_periods, Raise TypeError)
  /\ update_period_status Scenarios.UUID_of_digit Scenarios.named_admin 2
       ACTIVE Examples.two_periods
     = (Examples.two_periods,
        Raise (HTTPException HTTP_500_INTERNAL_SERVER_ERROR))
  /\ update_period_status Scenarios.UUID_of_digit Scenarios.admin 7 CLOSED
       Examples.two_periods
     = (Examples.two_periods, Raise (HTTPException HTTP_404_NOT_FOUND))
  /\ update_period_status Scenarios.UUID_of_digit Scenarios.manager 2 ACTIVE
       Examples.two_periods
     = (Examples.two_periods,
        Raise (HTTPException HTTP_500_INTERNAL_SERVER_ERROR)).
Proof.
  split; [|split; [|split; [|split]]].
  - apply (proj1 (proj2 (update_period_status_answers Scenarios.UUID_of_digit
                           Scenarios.staff 2 ACTIVE Examples.two_periods)));
      reflexivity.
  - apply (proj1 (update_period_status_answers Scenarios.UUID_of_digit
                    Scenarios.no_roles 2 ACTIVE Examples.two_periods)).
    reflexivity.
  - apply (proj1 (proj2 (proj2 (update_period_status_answers
                                  Scenarios.UUID_of_digit Scenarios.named_admin
                                  2 ACTIVE Examples.two_periods))));
      [left; reflexivity|reflexivity].
  - apply (proj1 (proj2 (proj2 (proj2 (update_period_status_answers
                                         Scenarios.UUID_of_digit Scenarios.admin
                                         7 CLOSED Examples.two_periods)))));
      [left; reflexivity|discriminate|reflexivity].
  - apply (proj1 (proj2 (proj2 (proj2 (proj2 (update_period_status_answers
                                                Scenarios.UUID_of_digit
                                                Scenarios.manager 2 ACTIVE
                                                Examples.two_periods)))))
             (or_intror (conj eq_refl eq_refl))
             ltac:(discriminate) Examples.period_2 Examples.period_1);
      [reflexivity|reflexivity|reflexivity|discriminate].
Defined.

End PeriodAPIFacts.
